(** * capital-nature-ingest: the Arlington and PATC event scrapers

    A shallow embedding of [events/arlington.py] (a paginated JSON API
    client with its text normaliser and schema mapper) and of
    [events/patc.py] (an HTML calendar crawler feeding a pandas table),
    followed by the properties proved about them.

    Conventions of the embedding.
    - A Python [str] is a [string]; a character is its code point, so
      the model covers code points below 256.
    - A Python call that may raise returns an [outcome]; code that also
      talks to the network or the logger threads a [world], and code
      that reads the clock threads the number of its readings.
    - A loop that need not end is run for at most [fuel] iterations;
      [None] for its result says that the loop was still going.
    - Library code the scrapers call (strptime, more_itertools, the parts
      of bs4 and pandas that are used) is modelled after its documented
      behaviour next to the function that calls it. *)

From Stdlib Require Import ZArith List String Ascii Bool Lia.
Import ListNotations.

Set Warnings "-register-all".

Open Scope string_scope.
Open Scope list_scope.
Open Scope Z_scope.

Infix "+++" := String.append (right associativity, at level 60).

(* ================================================================= *)
(** ** The Python runtime the scrapers rely on *)

Module Py.

(** The exception classes that occur in the two modules. *)
Inductive exn : Type :=
| IndexError
| KeyError
| ValueError
| TypeError
| AttributeError
| RequestException (what : string).

(** The result of evaluating a Python expression or call. *)
Inductive outcome (A : Type) : Type :=
| Ret (a : A)
| Raise (e : exn).
Arguments Ret {A} a.
Arguments Raise {A} e.

Definition bind {A B : Type} (c : outcome A) (k : A -> outcome B) : outcome B :=
  match c with
  | Ret a => k a
  | Raise e => Raise e
  end.

Declare Scope py_scope.
Delimit Scope py_scope with py.
Notation "x <- c ;; k" := (bind c (fun x => k))
  (at level 100, c at next level, right associativity) : py_scope.

(** [for x in xs: acc = body(acc, x)], stopping at the first exception. *)
Fixpoint for_each {A St : Type} (body : St -> A -> outcome St) (xs : list A) (acc : St)
  : outcome St :=
  match xs with
  | [] => Ret acc
  | x :: xs' => bind (body acc x) (for_each body xs')
  end.

(** A float by its exact value: a fraction when it is finite. *)
Inductive float : Type :=
| Finite (num : Z) (den : positive)
| Infinity
| NegInfinity
| NaN.

(** Values decoded from JSON ([r.json()]).  A number is an int or a
    float; the decoder also reads the literals Infinity, -Infinity and
    NaN, and gives infinity for a number out of range such as 1e999. *)
Inductive pyval : Type :=
| VNone
| VBool (b : bool)
| VInt (n : Z)
| VFloat (x : float)
| VStr (s : string)
| VList (l : list pyval)
| VDict (kv : list (string * pyval)).

(** Truth value testing ([if v:], [not v]). *)
Definition truthy (v : pyval) : bool :=
  match v with
  | VNone => false
  | VBool b => b
  | VInt n => negb (n =? 0)
  | VFloat (Finite num _) => negb (num =? 0)
  | VFloat _ => true
  | VStr s => negb (s =? "")%string
  | VList l => match l with [] => false | _ => true end
  | VDict kv => match kv with [] => false | _ => true end
  end.

Fixpoint assoc {V : Type} (k : string) (kv : list (string * V)) : option V :=
  match kv with
  | [] => None
  | (k', v) :: kv' => if (k =? k')%string then Some v else assoc k kv'
  end.

(** [d[k] = v] on a dict, which keeps insertion order. *)
Fixpoint dict_set {V : Type} (k : string) (v : V) (kv : list (string * V))
  : list (string * V) :=
  match kv with
  | [] => [(k, v)]
  | (k', v') :: kv' =>
      if (k =? k')%string then (k, v) :: kv' else (k', v') :: dict_set k v kv'
  end.

(** [v[k]] for a string key. *)
Definition getitem (v : pyval) (k : string) : outcome pyval :=
  match v with
  | VDict kv => match assoc k kv with Some x => Ret x | None => Raise KeyError end
  | _ => Raise TypeError
  end.

Fixpoint chars (s : string) : list string :=
  match s with
  | "" => []
  | String c s' => String c "" :: chars s'
  end.

(** [for x in v]: the elements of a list, the characters of a string,
    the keys of a dict. *)
Definition iter (v : pyval) : outcome (list pyval) :=
  match v with
  | VList l => Ret l
  | VStr s => Ret (map VStr (chars s))
  | VDict kv => Ret (map (fun p => VStr (fst p)) kv)
  | _ => Raise TypeError
  end.

(** *** Characters and strings *)

Definition ord (c : ascii) : Z := Z.of_nat (nat_of_ascii c).

Definition between (lo hi : Z) (c : ascii) : bool :=
  (lo <=? ord c) && (ord c <=? hi).

(** [c.isspace()], which is also what [str.strip()] removes. *)
Definition isspace (c : ascii) : bool :=
  between 9 13 c || between 28 32 c || (ord c =? 133) || (ord c =? 160).

(** [c.isdigit()]: the decimal digits and the superscript digits. *)
Definition isdigit (c : ascii) : bool :=
  between 48 57 c || (ord c =? 178) || (ord c =? 179) || (ord c =? 185).

(** The regular expression class [\d]. *)
Definition re_digit (c : ascii) : bool := between 48 57 c.

Definition lower (c : ascii) : ascii :=
  if between 65 90 c then ascii_of_nat (nat_of_ascii c + 32) else c.

Fixpoint str_filter (p : ascii -> bool) (s : string) : string :=
  match s with
  | "" => ""
  | String c s' => if p c then String c (str_filter p s') else str_filter p s'
  end.

Fixpoint str_forall (p : ascii -> bool) (s : string) : bool :=
  match s with
  | "" => true
  | String c s' => p c && str_forall p s'
  end.

(** [sub in s]. *)
Fixpoint str_in (sub s : string) : bool :=
  if prefix sub s then true
  else match s with
       | "" => false
       | String _ s' => str_in sub s'
       end.

(** [s.replace(old, new)] for a non-empty [old]: occurrences are replaced
    from the left and do not overlap.  [skip] counts the characters of
    the occurrence being replaced that are still to be dropped. *)
Fixpoint replace_from (old new : string) (skip : nat) (s : string) : string :=
  match s with
  | "" => ""
  | String c s' =>
      match skip with
      | S k => replace_from old new k s'
      | O =>
          if prefix old s
          then new +++ replace_from old new (String.length old - 1) s'
          else String c (replace_from old new 0 s')
      end
  end.

Definition replace (old new s : string) : string := replace_from old new 0 s.

(** [re.sub('  +', rep, s)]: every maximal run of two or more spaces
    becomes [rep].  [pending] is the length of the run being read. *)
Definition flush_spaces (rep : string) (pending : nat) : string :=
  match pending with
  | O => ""
  | S O => " "
  | _ => rep
  end.

Fixpoint sub_spaces_from (rep : string) (pending : nat) (s : string) : string :=
  match s with
  | "" => flush_spaces rep pending
  | String c s' =>
      if (c =? " ")%char
      then sub_spaces_from rep (S pending) s'
      else flush_spaces rep pending +++ String c (sub_spaces_from rep 0 s')
  end.

Definition re_sub_spaces (rep s : string) : string := sub_spaces_from rep 0 s.

Fixpoint lstrip (s : string) : string :=
  match s with
  | "" => ""
  | String c s' => if isspace c then lstrip s' else s
  end.

Fixpoint rstrip (s : string) : string :=
  match s with
  | "" => ""
  | String c s' =>
      match rstrip s' with
      | "" => if isspace c then "" else String c ""
      | r => String c r
      end
  end.

(** [s.strip()]. *)
Definition strip (s : string) : string := rstrip (lstrip s).

(** ["".join(i for i in s if ord(i) < 128)], also
    [s.encode("ascii", "ignore").decode()]. *)
Definition ascii_only (s : string) : string :=
  str_filter (fun c => ord c <? 128) s.

(** *** Decimal numerals *)

Definition digit_value (c : ascii) : Z := ord c - 48.

Definition digit_char (n : Z) : ascii := ascii_of_nat (Z.to_nat (48 + n)).

Fixpoint int_from (acc : Z) (s : string) : Z :=
  match s with
  | "" => acc
  | String c s' => int_from (10 * acc + digit_value c) s'
  end.

(** [int(s)] for a numeral that may carry surrounding blanks. *)
Definition int (s : string) : Z := int_from 0 (strip s).

(** ["%02d" % n] and ["%04d" % n] for [0 <= n] below 100 and 10000. *)
Definition pad2 (n : Z) : string :=
  String (digit_char (n / 10 mod 10)) (String (digit_char (n mod 10)) "").

Definition pad4 (n : Z) : string :=
  String (digit_char (n / 1000 mod 10))
    (String (digit_char (n / 100 mod 10)) (pad2 n)).

(** A numeral without its leading zeros, its last digit kept. *)
Fixpoint strip_zeros (s : string) : string :=
  match s with
  | "" => ""
  | String c s' =>
      if (c =? "0")%char && negb (s' =? "")%string then strip_zeros s' else s
  end.

End Py.

(* ================================================================= *)
(** ** [datetime.strptime] and [strftime] for the one format in use *)

Module Datetime.
Import Py.

(** The regular expressions [_strptime] builds are concatenations of
    literals and of one group per directive, each group an ordered
    alternation of short digit patterns.  The matcher returns every way
    to match a prefix, in the order a backtracking engine tries them: the
    head of the list is what [re.match] finds. *)
Inductive regex : Type :=
| Lit (c : ascii)
| Class (p : ascii -> bool)
| Cat (r1 r2 : regex)
| Or (r1 r2 : regex)
| Group (r : regex).

Record found : Type := Found {
  consumed : string;
  groups : list string;
  rest : string
}.

Definition one_char (p : ascii -> bool) (s : string) : list found :=
  match s with
  | String x s' => if p x then [Found (String x "") [] s'] else []
  | "" => []
  end.

(** Patterns are compiled with [re.IGNORECASE]. *)
Fixpoint re_match (r : regex) (s : string) : list found :=
  match r with
  | Lit c => one_char (fun x => (lower x =? lower c)%char) s
  | Class p => one_char p s
  | Cat r1 r2 =>
      flat_map
        (fun m1 =>
           map (fun m2 =>
                  Found (consumed m1 +++ consumed m2) (groups m1 ++ groups m2) (rest m2))
               (re_match r2 (rest m1)))
        (re_match r1 s)
  | Or r1 r2 => re_match r1 s ++ re_match r2 s
  | Group r =>
      map (fun m => Found (consumed m) (consumed m :: groups m) (rest m)) (re_match r s)
  end.

Definition d : regex := Class re_digit.
Definition range (lo hi : ascii) : regex := Class (between (ord lo) (ord hi)).

(** The directives' patterns, as [_strptime.TimeRE] lists them. *)
(* Y: \d\d\d\d *)
Definition re_Y : regex := Group (Cat d (Cat d (Cat d d))).
(* m: 1[0-2]|0[1-9]|[1-9] *)
Definition re_m : regex :=
  Group (Or (Cat (Lit "1") (range "0" "2")) (Or (Cat (Lit "0") (range "1" "9")) (range "1" "9"))).
(* d: 3[0-1]|[1-2]\d|0[1-9]|[1-9]| [1-9] *)
Definition re_d : regex :=
  Group (Or (Cat (Lit "3") (range "0" "1"))
        (Or (Cat (range "1" "2") d)
        (Or (Cat (Lit "0") (range "1" "9"))
        (Or (range "1" "9")
            (Cat (Lit " ") (range "1" "9")))))).
(* H: 2[0-3]|[0-1]\d|\d *)
Definition re_H : regex :=
  Group (Or (Cat (Lit "2") (range "0" "3")) (Or (Cat (range "0" "1") d) d)).
(* M: [0-5]\d|\d *)
Definition re_M : regex := Group (Or (Cat (range "0" "5") d) d).
(* S: 6[0-1]|[0-5]\d|\d *)
Definition re_S : regex :=
  Group (Or (Cat (Lit "6") (range "0" "1")) (Or (Cat (range "0" "5") d) d)).

(** The pattern of ["%Y-%m-%dT%H:%M:%S"]. *)
Definition re_format : regex :=
  Cat re_Y (Cat (Lit "-") (Cat re_m (Cat (Lit "-") (Cat re_d (Cat (Lit "T")
    (Cat re_H (Cat (Lit ":") (Cat re_M (Cat (Lit ":") re_S))))))))).

Record datetime : Type := mkDatetime {
  year : Z; month : Z; day : Z; hour : Z; minute : Z; second : Z
}.

Definition is_leap (y : Z) : bool :=
  (y mod 4 =? 0) && (negb (y mod 100 =? 0) || (y mod 400 =? 0)).

Definition days_in_month (y m : Z) : Z :=
  if m =? 2 then (if is_leap y then 29 else 28)
  else if (m =? 4) || (m =? 6) || (m =? 9) || (m =? 11) then 30
  else 31.

(** What the [datetime] constructor accepts. *)
Definition valid_datetime (t : datetime) : bool :=
  (1 <=? year t) && (year t <=? 9999) &&
  (1 <=? month t) && (month t <=? 12) &&
  (1 <=? day t) && (day t <=? days_in_month (year t) (month t)) &&
  (0 <=? hour t) && (hour t <=? 23) &&
  (0 <=? minute t) && (minute t <=? 59) &&
  (0 <=? second t) && (second t <=? 59).

(** [datetime.strptime(s, "%Y-%m-%dT%H:%M:%S")]: every failure is a
    [ValueError] (no match, unconverted data, or a field out of range). *)
Definition strptime (s : string) : outcome datetime :=
  match re_match re_format s with
  | [] => Raise ValueError
  | m :: _ =>
      match rest m, groups m with
      | "", [gY; gm; gd; gH; gM; gS] =>
          let t := mkDatetime (int gY) (int gm) (int gd) (int gH) (int gM) (int gS) in
          if valid_datetime t then Ret t else Raise ValueError
      | _, _ => Raise ValueError
      end
  end.

(** [t.replace(hour=0, minute=0, second=0, microsecond=0)]. *)
Definition midnight (t : datetime) : datetime :=
  mkDatetime (year t) (month t) (day t) 0 0 0.

(** What [%Y] prints for a year of 1..9999.  The documentation gives
    four digits, 0001 to 9999; where [strftime] is the C library's, some
    platforms print a year below 1000 without its leading zeros.
    [pad_year] tells which of the two the platform does. *)
Definition year_text (pad_year : bool) (y : Z) : string :=
  if pad_year then pad4 y else strip_zeros (pad4 y).

(** [datetime.strftime(t, "%Y-%m-%d")]. *)
Definition strftime_date (pad_year : bool) (t : datetime) : string :=
  year_text pad_year (year t) +++ "-" +++ pad2 (month t) +++ "-" +++ pad2 (day t).

(** [t.strftime("%H:%M:%S")]. *)
Definition strftime_time (t : datetime) : string :=
  pad2 (hour t) +++ ":" +++ pad2 (minute t) +++ ":" +++ pad2 (second t).

End Datetime.

(* ================================================================= *)
(** ** The parts of BeautifulSoup the scrapers use *)

Module Bs4.
Import Py.

(** A parsed document: text nodes, comments (strings that [get_text]
    leaves out) and tags with their attributes and children. *)
Inductive node : Type :=
| NavigableString (s : string)
| Comment (s : string)
| Tag (name : string) (attrs : list (string * string)) (children : list node).

(** [n.get_text()] / [n.getText()]. *)
Fixpoint get_text (n : node) : string :=
  match n with
  | NavigableString s => s
  | Comment _ => ""
  | Tag _ _ ch =>
      (fix texts (l : list node) : string :=
         match l with
         | [] => ""
         | c :: l' => get_text c +++ texts l'
         end) ch
  end.

(** [n.descendants], in document order. *)
Fixpoint descendants (n : node) : list node :=
  match n with
  | Tag _ _ ch =>
      (fix below (l : list node) : list node :=
         match l with
         | [] => []
         | c :: l' => c :: descendants c ++ below l'
         end) ch
  | _ => []
  end.

Definition is_tag (name : string) (n : node) : bool :=
  match n with
  | Tag name' _ _ => (name =? name')%string
  | _ => false
  end.

(** [n.find_all(name)] / [n.findAll(name)]. *)
Definition find_all (name : string) (n : node) : list node :=
  filter (is_tag name) (descendants n).

(** [n.children]. *)
Definition children (n : node) : list node :=
  match n with
  | Tag _ _ ch => ch
  | _ => []
  end.

(** [n.attrs.get(key)], [None] when the attribute is absent. *)
Definition attrs_get (key : string) (n : node) : option string :=
  match n with
  | Tag _ attrs _ => assoc key attrs
  | _ => None
  end.

(** [isinstance(n, str)]: every string node is a [str]. *)
Definition is_str (n : node) : bool :=
  match n with
  | Tag _ _ _ => false
  | _ => true
  end.

(** The text of a string node taken as a [str]. *)
Definition str_of (n : node) : string :=
  match n with
  | NavigableString s => s
  | Comment s => s
  | Tag _ _ _ => ""
  end.

End Bs4.

(* ================================================================= *)
(** ** events/arlington.py *)

Module Arlington.
Import Py Bs4 Datetime.

(** A GET request of the module.  The listing URI is fixed up to the
    start date and the [From] offset; the search request carries the
    [SearchTerm] parameter. *)
Inductive request : Type :=
| EventPage (startDate : string) (from_param : Z)
| EventSearch (search_term : string).

(** What [requests.get] returns; [body] is [None] when the payload is
    not JSON. *)
Record response : Type := Response { body : option pyval }.

(** [r.json()]. *)
Definition json (r : response) : outcome pyval :=
  match body r with
  | Some v => Ret v
  | None => Raise ValueError
  end.

(** The remote service: its answer to a request may depend on the
    requests it has received so far. *)
Definition server : Type := list request -> request -> outcome response.

Inductive log_record : Type :=
| Critical (uri : request) (e : exn)
| Error (event_date : string) (e : exn).

(** The requests sent and the records logged so far. *)
Record world : Type := World {
  sent : list request;
  logged : list log_record
}.

Definition io (A : Type) : Type := world -> outcome A * world.

Definition ret {A : Type} (a : A) : io A := fun w => (Ret a, w).

Definition raise {A : Type} (e : exn) : io A := fun w => (Raise e, w).

Definition lift {A : Type} (c : outcome A) : io A := fun w => (c, w).

Definition bind_io {A B : Type} (c : io A) (k : A -> io B) : io B :=
  fun w =>
    match c w with
    | (Ret a, w') => k a w'
    | (Raise e, w') => (Raise e, w')
    end.

Declare Scope io_scope.
Delimit Scope io_scope with io.
Notation "x <- c ;; k" := (bind_io c (fun x => k))
  (at level 100, c at next level, right associativity) : io_scope.

Definition logger (r : log_record) : io unit :=
  fun w => (Ret tt, World (sent w) (logged w ++ [r])).

Section Pipeline.

(** [BeautifulSoup(html, 'html.parser')]. *)
Variable html_parser : string -> node.

Variable srv : server.

(** Whether the platform's [strftime] pads [%Y] to four digits. *)
Variable pad_year : bool.

(** [requests.get(uri)]. *)
Definition requests_get (uri : request) : io response :=
  fun w => (srv (sent w) uri, World (sent w ++ [uri]) (logged w)).

(** [from_param < count] for the int [from_param]: the comparison with
    an int, a bool or a float is exact, infinity is above every int and
    NaN is above none; a count of another type is a [TypeError]. *)
Definition below (from_param : Z) (count : pyval) : outcome bool :=
  match count with
  | VInt n => Ret (from_param <? n)
  | VBool b => Ret (from_param <? (if b then 1 else 0))
  | VFloat (Finite num den) => Ret (from_param * Z.pos den <? num)
  | VFloat Infinity => Ret true
  | VFloat _ => Ret false
  | _ => Raise TypeError
  end.

(** A computation with a loop that need not end: [None] when the loop
    was still going after [fuel] iterations, with the world as it was
    then. *)
Definition run (A : Type) : Type := world -> option (outcome A) * world.

(** The [while from_param < count] loop of [get_arlington_events], for
    at most [fuel] iterations; [data] is the payload read last. *)
Fixpoint while_pages (fuel : nat) (startDate : string) (count data : pyval)
    (from_param : Z) (event_items : list pyval) : run (list pyval) :=
  fun w =>
    match below from_param count with
    | Raise e => (Some (Raise e), w)
    | Ret false => (Some (Ret event_items), w)
    | Ret true =>
        match fuel with
        | O => (None, w)
        | S fuel =>
            if from_param =? 0 then
              match (items <- getitem data "items" ;; iter items)%py with
              | Ret items =>
                  while_pages fuel startDate count data (from_param + 5)
                    (event_items ++ items) w
              | Raise e => (Some (Raise e), w)
              end
            else
              match requests_get (EventPage startDate from_param) w with
              | (Ret r, w') =>
                  match (data' <- json r ;;
                         items <- getitem data' "items" ;;
                         items <- iter items ;;
                         Ret (data', items))%py with
                  | Ret (data', items) =>
                      while_pages fuel startDate count data' (from_param + 5)
                        (event_items ++ items) w'
                  | Raise e => (Some (Raise e), w')
                  end
              | (Raise e, w') => (Some (Raise e), w')
              end
        end
    end.

(** [get_arlington_events()]; [today] is
    [datetime.now().strftime("%Y-%m-%d")].  The result is the list of
    items, or [None] after a failed first request. *)
Definition get_arlington_events (fuel : nat) (today : string) : run pyval :=
  fun w =>
    let startDate := today in
    let from_param := 0 in
    let uri := EventPage startDate from_param in
    match requests_get uri w with
    | (Raise e, w') =>
        let (msg, w'') := logger (Critical uri e) w' in (Some (Ret VNone), w'')
    | (Ret r, w') =>
        match (data <- json r ;; count <- getitem data "count" ;; Ret (data, count))%py with
        | Raise e => (Some (Raise e), w')
        | Ret (data, count) =>
            match while_pages fuel startDate count data from_param [] w' with
            | (Some (Ret event_items), w'') => (Some (Ret (VList event_items)), w'')
            | (Some (Raise e), w'') => (Some (Raise e), w'')
            | (None, w'') => (None, w'')
            end
        end
    end.

(** [schematize_date(event_date)]. *)
Definition schematize_date (event_date : pyval) : io string :=
  match event_date with
  | VStr s =>
      match strptime s with
      | Ret datetime_obj => ret (strftime_date pad_year datetime_obj)
      | Raise ValueError =>
          (msg <- logger (Error s ValueError) ;; ret "")%io
      | Raise e => raise e
      end
  | _ => raise TypeError
  end.

(** The scan of [get_event_website] over the search results. *)
Fixpoint scan_items (start_date end_date : string) (items : list pyval) : io pyval :=
  match items with
  | [] => ret VNone
  | item :: items' =>
      (item <- lift (getitem item "vwEventWithLocation") ;;
       d1 <- lift (getitem item "eventStartDate") ;;
       item_start_date <- schematize_date d1 ;;
       d2 <- lift (getitem item "eventEndDate") ;;
       item_end_date <- schematize_date d2 ;;
       if (start_date =? item_start_date)%string && (end_date =? item_end_date)%string
       then lift (getitem item "eventUrlText")
       else scan_items start_date end_date items')%io
  end.

(** [get_event_website(event_name, start_date, end_date)]. *)
Definition get_event_website (event_name start_date end_date : string) : io pyval :=
  (r <- requests_get (EventSearch event_name) ;;
   data <- lift (json r) ;;
   items <- lift (items <- getitem data "items" ;; iter items)%py ;;
   scan_items start_date end_date items)%io.

(** [html_textraction(html)].  A truthy value that is not a string is
    refused by bs4. *)
Definition html_textraction (html : pyval) : outcome string :=
  if negb (truthy html) then Ret (re_sub_spaces " " "See event website.")
  else
    match html with
    | VStr html =>
        let soup := html_parser html in
        let p_tags := find_all "p" soup in
        let text :=
          match p_tags with
          | _ :: _ =>
              strip
                (fold_left
                   (fun text p =>
                      let p_text := get_text p in
                      if negb (str_in "Activity #" p_text)
                      then text +++ p_text +++ " "
                      else text)
                   p_tags "")
          | [] => strip (get_text soup)
          end in
        Ret (re_sub_spaces " " text)
    | _ => Raise TypeError
    end.

(** [parse_event_name(event_name)].  On a value that is neither a
    string nor an empty container the [in] test, [ord] or bs4 raises. *)
Definition parse_event_name (event_name : pyval) : outcome string :=
  match event_name with
  | VStr event_name =>
      if str_in "RIP" event_name || str_in "RiP" event_name
         || str_in "Invasive Plant Removal" event_name
      then
        if str_in "Invasive Plant Removal" event_name then
          let name :=
            replace "RIP" ""
              (replace " - " ""
                 (replace "RiP" "" (re_sub_spaces "" (ascii_only event_name)))) in
          let name := strip (re_sub_spaces " " name) in
          html_textraction (VStr name)
        else
          let name := re_sub_spaces "" (ascii_only event_name) in
          let name := replace " - " "" (replace "RIP" "" (replace "RiP" "" name)) in
          let name := name +++ " Invasive Plant Removal" in
          let name := strip (re_sub_spaces " " name) in
          html_textraction (VStr name)
      else html_textraction (VStr event_name)
  | VList [] | VDict [] => html_textraction event_name
  | _ => Raise TypeError
  end.

(** [s.isdigit()] on a whole string. *)
Definition str_isdigit (s : string) : bool :=
  negb (s =? "")%string && str_forall isdigit s.

(** [''.join(s for s in event_cost_desc if s.isdigit())]. *)
Definition join_digits (event_cost_desc : pyval) : outcome string :=
  match event_cost_desc with
  | VStr s => Ret (str_filter isdigit s)
  | VList l =>
      for_each
        (fun acc s =>
           match s with
           | VStr s => Ret (if str_isdigit s then acc +++ s else acc)
           | _ => Raise AttributeError
           end) l ""
  | VDict kv =>
      Ret (fold_left (fun acc p => if str_isdigit (fst p) then acc +++ fst p else acc) kv "")
  | _ => Raise TypeError
  end.

(** An output record: the dict literal of [schematize_events]. *)
Definition event : Type := list (string * pyval).

(** The body of the [for event_item in event_items] loop: [None] stands
    for [continue], [Some event] for [events.append(event)]. *)
Definition schematize_event (event_item : pyval) : io (option event) :=
  (event_item <- lift (getitem event_item "vwEventWithLocation") ;;
   event_name <- lift (v <- getitem event_item "eventName" ;; parse_event_name v)%py ;;
   if str_in "Task Force" event_name || str_in "Forestry Commission" event_name
   then ret None
   else
     event_description <-
       lift (v <- getitem event_item "eventDsc" ;; html_textraction v)%py ;;
     d1 <- lift (getitem event_item "eventStartDate") ;;
     start_date <- schematize_date d1 ;;
     d2 <- lift (getitem event_item "eventEndDate") ;;
     end_date <- schematize_date d2 ;;
     start_time <- lift (getitem event_item "eventStartTime") ;;
     end_time <- lift (getitem event_item "eventEndTime") ;;
     event_website <- lift (getitem event_item "eventUrlText") ;;
     free <- lift (getitem event_item "freeOfChargeInd") ;;
     event_cost <-
       (if truthy free then ret "0"
        else
          event_cost_desc <- lift (getitem event_item "eventCostDsc") ;;
          if truthy event_cost_desc then lift (join_digits event_cost_desc)
          else ret "") ;;
     venue <- lift (v <- getitem event_item "locationName" ;; html_textraction v)%py ;;
     if (venue =? "Earth Products Yard")%string || str_in "Library" venue
        || (venue =? "")%string
     then ret None
     else
       event_website <-
         (if negb (truthy event_website)
          then get_event_website event_name start_date end_date
          else ret event_website) ;;
       let venue := if (venue =? "")%string then "See event website" else venue in
       ret (Some [("Event Start Date", VStr start_date);
                  ("Event End Date", VStr end_date);
                  ("Event Start Time", start_time);
                  ("Event End Time", end_time);
                  ("Event Website", event_website);
                  ("Event Name", VStr event_name);
                  ("Event Venue Name", VStr venue);
                  ("Event Cost", VStr event_cost);
                  ("Event Description", VStr event_description);
                  ("Timezone", VStr "America/New_York");
                  ("Event Organizers", VStr "Arlington Parks");
                  ("Event Currency Symbol", VStr "$");
                  ("All Day Event", VBool false);
                  ("Event Category", VStr "")]))%io.

Fixpoint schematize_loop (event_items : list pyval) (events : list event)
  : io (list event) :=
  match event_items with
  | [] => ret events
  | event_item :: rest =>
      (r <- schematize_event event_item ;;
       match r with
       | None => schematize_loop rest events
       | Some event => schematize_loop rest (events ++ [event])
       end)%io
  end.

(** [schematize_events(event_items)]. *)
Definition schematize_events (event_items : pyval) : io (list event) :=
  (event_items <- lift (iter event_items) ;;
   schematize_loop event_items [])%io.

(** [main()]. *)
Definition main (fuel : nat) (today : string) : run (list event) :=
  fun w =>
    match get_arlington_events fuel today w with
    | (Some (Ret event_items), w') =>
        let (events, w'') := schematize_events event_items w' in (Some events, w'')
    | (Some (Raise e), w') => (Some (Raise e), w')
    | (None, w') => (None, w')
    end.

End Pipeline.

End Arlington.

(* ================================================================= *)
(** ** The parts of pandas and more_itertools that patc.py uses *)

Module Pandas.
Import Py.

Inductive cell : Type :=
| CStr (s : string)
| CNaN
| CBool (b : bool)
| CInt (n : Z)
| CDate (y m d : Z).

(** A table: the length of its index and its columns in order, each a
    label with one cell per row.  Labels may repeat after a rename. *)
Record DataFrame : Type := mkDataFrame {
  nrows : nat;
  columns : list (string * list cell)
}.

Definition add_label (acc : list string) (k : string) : list string :=
  if existsb (String.eqb k) acc then acc else acc ++ [k].

(** The union of the records' keys, in order of first appearance. *)
Definition all_labels (records : list (list (string * string))) : list string :=
  fold_left (fun acc r => fold_left add_label (map fst r) acc) records [].

Definition cell_of (k : string) (r : list (string * string)) : cell :=
  match assoc k r with
  | Some v => CStr v
  | None => CNaN
  end.

(** [pd.DataFrame.from_records(records)] for a list of dicts: a key a
    record lacks gives NaN. *)
Definition from_records (records : list (list (string * string))) : DataFrame :=
  mkDataFrame (List.length records)
    (map (fun k => (k, map (cell_of k) records)) (all_labels records)).

(** [df[k]]. *)
Definition get_column (k : string) (df : DataFrame) : outcome (list cell) :=
  match assoc k (columns df) with
  | Some c => Ret c
  | None => Raise KeyError
  end.

(** [df[k] = cells]. *)
Definition set_column (k : string) (cells : list cell) (df : DataFrame) : DataFrame :=
  mkDataFrame (nrows df) (dict_set k cells (columns df)).

(** [df.assign(k=v)] for a scalar [v]. *)
Definition assign (k : string) (v : cell) (df : DataFrame) : DataFrame :=
  set_column k (repeat v (nrows df)) df.

(** [series.apply(f)] for an [f] that passes a state along: the cells
    are visited in order, up to the first exception. *)
Fixpoint apply {St : Type} (f : cell -> St -> outcome cell * St) (cells : list cell)
    (st : St) : outcome (list cell) * St :=
  match cells with
  | [] => (Ret [], st)
  | c :: cells' =>
      match f c st with
      | (Ret c', st1) =>
          match apply f cells' st1 with
          | (Ret cells'', st2) => (Ret (c' :: cells''), st2)
          | (Raise e, st2) => (Raise e, st2)
          end
      | (Raise e, st1) => (Raise e, st1)
      end
  end.

Definition has_label (k : string) (df : DataFrame) : bool :=
  existsb (fun c => (fst c =? k)%string) (columns df).

(** [df.drop(labels, axis=1)]: a label that is not a column is a
    [KeyError]. *)
Definition drop (labels : list string) (df : DataFrame) : outcome DataFrame :=
  if forallb (fun k => has_label k df) labels
  then Ret (mkDataFrame (nrows df)
              (filter (fun c => negb (existsb (String.eqb (fst c)) labels)) (columns df)))
  else Raise KeyError.

(** [df.rename(columns=mapper)]. *)
Definition rename (mapper : list (string * string)) (df : DataFrame) : DataFrame :=
  mkDataFrame (nrows df)
    (map (fun c => (match assoc (fst c) mapper with Some k => k | None => fst c end, snd c))
         (columns df)).

(** The rows of the table, each as its labelled cells. *)
Definition row (df : DataFrame) (i : nat) : list (string * cell) :=
  map (fun c => (fst c, nth i (snd c) CNaN)) (columns df).

Definition rows (df : DataFrame) : list (list (string * cell)) :=
  map (row df) (seq 0 (nrows df)).

(** [more_itertools.one(xs)]. *)
Definition one {A : Type} (xs : list A) : outcome A :=
  match xs with
  | [x] => Ret x
  | _ => Raise ValueError
  end.

(** [more_itertools.last(xs)]. *)
Definition last {A : Type} (xs : list A) : outcome A :=
  match rev xs with
  | x :: _ => Ret x
  | [] => Raise ValueError
  end.

(** [xs[-1]]. *)
Definition item_m1 {A : Type} (xs : list A) : outcome A :=
  match rev xs with
  | x :: _ => Ret x
  | [] => Raise IndexError
  end.

End Pandas.

(* ================================================================= *)
(** ** events/patc.py *)

Module Patc.
Import Py Bs4 Datetime Pandas.

Definition URL_BASE : string := "https://www.patc.net/PATC/Calendar/PATC/".
Definition CALENDAR_BASE_URL : string :=
  "Custom/Calendar.aspx?hkey=9fc06544-1c54-4a47-9efc-8fcd2420a646".
Definition KEYWORDS : list string := ["Start Time"; "Start Date"; "Event Category"; "www"].
Definition RENAME_MAP : list (string * string) :=
  [("all_day_event", "All Day Event");
   ("currency", "Event Currency Symbol");
   ("Description", "Event Description");
   ("end_date", "Event End Date");
   ("end_time", "Event End Time");
   ("event_cost", "Event Cost");
   ("event_organizers", "Event Organizers");
   ("start_date", "Event Start Date");
   ("start_time", "Event Start Time");
   ("time_zone", "Timezone");
   ("venue", "Event Venue Name");
   ("www", "Event Website")].

Fixpoint ends_with_slash (p : string) : bool :=
  match p with
  | "" => false
  | String c "" => (c =? "/")%char
  | String _ p' => ends_with_slash p'
  end.

(** [posixpath.join(a, b)]. *)
Definition posixpath_join (a b : string) : string :=
  if prefix "/" b then b
  else if (a =? "")%string || ends_with_slash a then a +++ b
  else a +++ "/" +++ b.

(** [posixpath.split(p)[-1]]: what follows the last slash. *)
Fixpoint posixpath_tail (p : string) : string :=
  match p with
  | "" => ""
  | String c p' =>
      if str_in "/" p' then posixpath_tail p'
      else if (c =? "/")%char then p' else p
  end.

(** [s.rpartition(":")[0]]: what precedes the last colon. *)
Fixpoint rpartition_head (s : string) : string :=
  match s with
  | "" => ""
  | String c s' => if str_in ":" s' then String c (rpartition_head s') else ""
  end.

(** The site: the parsed page behind each URL, or the exception
    [requests.get] or [raise_for_status] raises. *)
Definition web : Type := string -> outcome node.

(** What [value] may hold in [find_event_data]. *)
Inductive field_value : Type :=
| FNode (n : node)
| FAttr (href : option string).

(** A computation that reads the clock: run after [n] readings, it
    gives the number of readings after it. *)
Definition timed (A : Type) : Type := nat -> outcome A * nat.

Definition bind_timed {A B : Type} (c : timed A) (k : A -> timed B) : timed B :=
  fun n =>
    match c n with
    | (Ret a, n') => k a n'
    | (Raise e, n') => (Raise e, n')
    end.

Declare Scope timed_scope.
Delimit Scope timed_scope with timed.
Notation "x <- c ;; k" := (bind_timed c (fun x => k))
  (at level 100, c at next level, right associativity) : timed_scope.

Definition ret_timed {A : Type} (a : A) : timed A := fun n => (Ret a, n).

Definition lift_timed {A : Type} (c : outcome A) : timed A := fun n => (c, n).

(** [for x in xs: acc = body(acc, x)] for a body that reads the clock. *)
Fixpoint for_each_timed {A St : Type} (body : St -> A -> timed St) (xs : list A) (acc : St)
  : timed St :=
  match xs with
  | [] => ret_timed acc
  | x :: xs' => bind_timed (body acc x) (for_each_timed body xs')
  end.

Section Crawl.

Variable site : web.

(** [dateutil.parser.parse(s)] when its default is [default]: the
    fields that [s] does not give are those of [default]. *)
Variable parse : datetime -> string -> outcome datetime.

(** The clock: what [datetime.now()] returns when [parse] reads it for
    the n-th time in a run, the first reading being number 0. *)
Variable now : nat -> datetime.

(** [make_request_content(url_subpath)]. *)
Definition make_request_content (url_subpath : string) : outcome node :=
  let parse_link := posixpath_join URL_BASE url_subpath in
  site parse_link.

(** The body of [for para in res.findAll("p")]. *)
Definition read_para (results : list (string * string)) (para : node)
  : outcome (list (string * string)) :=
  if existsb (fun word => str_in (word +++ ":") (get_text para)) KEYWORDS then
    (header <- one (find_all "strong" para) ;;
     let category := rpartition_head (get_text header) in
     value <- last (children para) ;;
     value <-
       (if (category =? "www")%string
        then url_tag <- one (find_all "a" para) ;; Ret (FAttr (attrs_get "href" url_tag))
        else Ret (FNode value)) ;;
     value <-
       match value with
       | FNode n => Ret (if is_str n then str_of n else get_text n)
       | FAttr (Some href) => Ret href
       | FAttr None => Raise AttributeError
       end ;;
     Ret (dict_set category (strip (ascii_only value)) results))%py
  else Ret results.

(** [find_event_data(link)]; [None] is the bare [return]. *)
Definition find_event_data (link : string) : outcome (option (list (string * string))) :=
  (res <- make_request_content link ;;
   match (th <- item_m1 (find_all "th" res) ;;
          p <- item_m1 (find_all "p" res) ;;
          Ret [("Event Name", strip (get_text th));
               ("Description", strip (get_text p))]) with
   | Raise IndexError => Ret None
   | Raise e => Raise e
   | Ret results =>
       results <- for_each read_para (find_all "p" res) results ;;
       Ret (Some results)
   end)%py.

Definition cols_mapper : list (string * string) :=
  [("start_date", "Start Date");
   ("start_time", "Start Time");
   ("end_date", "Start Date")].

(** [parse(x)] on a cell.  Called without a default, [parse] first
    reads the clock and takes today at midnight for its default; then
    only a string can be parsed. *)
Definition parse_cell (x : cell) : timed datetime :=
  fun n =>
    let default := midnight (now n) in
    (match x with
     | CStr s => parse default s
     | _ => Raise TypeError
     end, S n).

(** [format_df_time_columns(df)]. *)
Definition format_df_time_columns (df : DataFrame) : timed DataFrame :=
  for_each_timed
    (fun df kv =>
       let '(key, value) := kv in
       (col <- lift_timed (get_column value df) ;;
        cells <-
          (if str_in "date" key
           then apply (fun x => t <- parse_cell x ;;
                                ret_timed (CDate (year t) (month t) (day t))) col
           else apply (fun x => t <- parse_cell x ;;
                                ret_timed (CStr (strftime_time t))) col) ;;
        ret_timed (set_column key cells df))%timed)
    cols_mapper df.

(** The body of [for event in events.findAll("a")]. *)
Definition visit (records : list (list (string * string))) (event : node)
  : outcome (list (list (string * string))) :=
  let event_link := match attrs_get "href" event with Some h => h | None => "" end in
  if str_in "calendar.aspx" event_link then
    let url := posixpath_tail event_link in
    (data <- find_event_data (posixpath_join "Custom" url) ;;
     match data with
     | Some [] | None => Ret records
     | Some data => Ret (records ++ [data])
     end)%py
  else Ret records.

(** [main()]; the clock is first read in [format_df_time_columns]. *)
Definition main : outcome DataFrame :=
  (events <- make_request_content CALENDAR_BASE_URL ;;
   records <- for_each visit (find_all "a" events) [] ;;
   let data := from_records records in
   let data :=
     assign "event_organizers" (CStr "Potomac Appalachian Trail Club")
       (assign "venue" (CStr "Please refer to website")
          (assign "currency" (CStr "$")
             (assign "event_cost" (CInt 0)
                (assign "end_time" (CStr "23:59:59")
                   (assign "time_zone" (CStr "America/New_York")
                      (assign "all_day_event" (CBool false) data)))))) in
   data <- fst (format_df_time_columns data 0%nat) ;;
   data <- drop ["Start Date"; "Start Time"] data ;;
   Ret (rename RENAME_MAP data))%py.

End Crawl.

End Patc.

(* ================================================================= *)
(** * The vocabulary of the statements *)

(** ** Strings and timestamps *)

Module PySpec.
Import Py.

(** No two spaces in a row. *)
Fixpoint single_spaced (s : string) : bool :=
  match s with
  | "" => true
  | String c s' =>
      match s' with
      | String c' _ => negb ((c =? " ")%char && (c' =? " ")%char) && single_spaced s'
      | "" => true
      end
  end.

Definition starts_with_space (s : string) : bool :=
  match s with
  | String c _ => (c =? " ")%char
  | "" => false
  end.

(** What [strip] followed by the collapse of space runs leaves: no
    blank at either end, no two spaces in a row. *)
Definition normal (s : string) : Prop :=
  lstrip s = s /\ rstrip s = s /\ single_spaced s = true.

End PySpec.

Module DatetimeSpec.
Import Py Datetime.

Definition two (a b : ascii) : string := String a (String b "").

Definition value2 (a b : ascii) : Z := 10 * digit_value a + digit_value b.

(** On two digits [a b] a field pattern finds the two-digit reading
    when it lies in [lo..hi], then the one-digit reading when [a] is at
    least [lo1]. *)
Definition field_spec (f : regex) (lo hi lo1 : Z) : Prop :=
  forall a b tl, re_digit a = true -> re_digit b = true ->
    re_match f (String a (String b tl)) =
    (if (lo <=? value2 a b) && (value2 a b <=? hi)
     then [Found (two a b) [two a b] tl] else []) ++
    (if lo1 <=? digit_value a
     then [Found (String a "") [String a ""] (String b tl)] else []).

(** A match of the rest of a pattern, put behind the text [pre] and the
    group [g] matched before it. *)
Definition after (pre : string) (g : string) (m : found) : found :=
  Found (pre +++ consumed m) (g :: groups m) (rest m).

(** [s] follows [shape] character by character, a [d] of the shape
    standing for a decimal digit. *)
Fixpoint matches_shape (shape s : string) : bool :=
  match shape, s with
  | "", "" => true
  | String p shape', String c s' =>
      (if (p =? "d")%char then re_digit c else (c =? p)%char) && matches_shape shape' s'
  | _, _ => false
  end.

(** [YYYY-MM-DDTHH:MM:SS], every letter a decimal digit. *)
Definition exact_format (s : string) : bool := matches_shape "dddd-dd-ddTdd:dd:dd" s.

(** The six numbers written in a string of that shape. *)
Definition fields_of (s : string) : datetime :=
  mkDatetime (int (substring 0 4 s)) (int (substring 5 2 s)) (int (substring 8 2 s))
             (int (substring 11 2 s)) (int (substring 14 2 s)) (int (substring 17 2 s)).

End DatetimeSpec.

(** ** events/arlington.py *)

Module ArlingtonSpec.
Import Py Bs4 Datetime Arlington.

(** The world after [schematize_date] has logged its failure on [s]. *)
Definition error_logged (s : string) (w : world) : world :=
  World (sent w) (logged w ++ [Error s ValueError]).

(** The first [k] offsets of the listing: 0, 5, ..., 5(k-1). *)
Definition offsets (k : nat) : list Z := map (fun i => 5 * Z.of_nat i) (seq 0 k).

Definition page_requests (today : string) (k : nat) : list request :=
  map (EventPage today) (offsets k).

(** How many requests a reported [count] leads to: the first one, then
    one per further multiple of 5 below [count]. *)
Definition page_count (count : Z) : nat := Z.to_nat (Z.max 1 ((count + 4) / 5)).

(** The items a payload carries. *)
Definition page_items (data : pyval) : outcome (list pyval) :=
  (items <- getitem data "items" ;; iter items)%py.

(** In a run started in world [w], the server answers request number
    [i] with a JSON payload carrying [items]. *)
Definition serves (srv : server) (today : string) (w : world) (i : nat)
    (items : list pyval) : Prop :=
  exists r data,
    srv (sent w ++ page_requests today i) (EventPage today (5 * Z.of_nat i)) = Ret r /\
    json r = Ret data /\ page_items data = Ret items.

(** The first answer of that run reports the total [count]. *)
Definition reports (srv : server) (today : string) (w : world) (count : Z) : Prop :=
  exists r data,
    srv (sent w) (EventPage today 0) = Ret r /\
    json r = Ret data /\ getitem data "count" = Ret (VInt count).

(** The first answer of that run reports a count of infinity. *)
Definition reports_infinity (srv : server) (today : string) (w : world) : Prop :=
  exists r data,
    srv (sent w) (EventPage today 0) = Ret r /\
    json r = Ret data /\ getitem data "count" = Ret (VFloat Infinity).

(** In that run the server fails request number [i] with [e]. *)
Definition fails (srv : server) (today : string) (w : world) (i : nat) (e : exn) : Prop :=
  srv (sent w ++ page_requests today i) (EventPage today (5 * Z.of_nat i)) = Raise e.

(** Text without markup: no tag and no character reference can start. *)
Definition markup_free (s : string) : Prop :=
  str_in "<" s = false /\ str_in "&" s = false.

(** What is assumed of the HTML parser: text without markup parses to a
    document without paragraphs whose text is, up to the blanks at its
    ends, the text itself. *)
Definition parses_plain_text (html_parser : string -> node) : Prop :=
  forall s, markup_free s ->
    find_all "p" (html_parser s) = [] /\ strip (get_text (html_parser s)) = strip s.

(** The parse of a fragment with one administrative paragraph. *)
Definition activity_parser (s : string) : node :=
  Tag "[document]" [] [Tag "p" [] [NavigableString "Activity # 720042-B"]].

(** The parse of text without markup: a single text node. *)
Definition text_parser (s : string) : node :=
  Tag "[document]" [] (if (s =? "")%string then [] else [NavigableString s]).

(** The output may be fed back without change: it is not empty, has no
    markup, no abbreviation left and, when it names the activity in
    full, neither a separator dash nor a character outside ASCII. *)
Definition settled (t : string) : Prop :=
  t <> "" /\ markup_free t /\
  str_in "RIP" t = false /\ str_in "RiP" t = false /\
  (str_in "Invasive Plant Removal" t = true ->
   str_in " - " t = false /\ ascii_only t = t).

(** The records a list of loop results appends, in order. *)
Definition emitted (rs : list (option event)) : list event :=
  flat_map (fun r => match r with Some ev => [ev] | None => [] end) rs.

(** The two exclusion tests of [schematize_events]. *)
Definition name_excluded (event_name : string) : bool :=
  str_in "Task Force" event_name || str_in "Forestry Commission" event_name.

Definition venue_excluded (venue : string) : bool :=
  (venue =? "Earth Products Yard")%string || str_in "Library" venue || (venue =? "")%string.

(** The cost rule of the spec for an item and the cost it is given. *)
Definition cost_rule (item : pyval) (cost : string) : Prop :=
  exists free,
    getitem item "freeOfChargeInd" = Ret free /\
    (truthy free = true -> cost = "0") /\
    (truthy free = false ->
     exists desc,
       getitem item "eventCostDsc" = Ret desc /\
       (forall s, desc = VStr s -> s <> "" -> cost = str_filter isdigit s) /\
       (truthy desc = false -> cost = "")).

Section Normalized.
Variable html_parser : string -> node.

(** The normalized name and venue of an item. *)
Definition normalized_name (item : pyval) : outcome string :=
  (v <- getitem item "eventName" ;; parse_event_name html_parser v)%py.

Definition normalized_venue (item : pyval) : outcome string :=
  (v <- getitem item "locationName" ;; html_textraction html_parser v)%py.

(** An item is excluded by its normalized name, or else by its
    normalized venue. *)
Definition excluded (item : pyval) : Prop :=
  (exists name, normalized_name item = Ret name /\ name_excluded name = true) \/
  (exists venue, normalized_venue item = Ret venue /\ venue_excluded venue = true).

End Normalized.

End ArlingtonSpec.

Module ArlingtonSamples.
Import Py Bs4 Datetime Arlington.

(** A mocked API that reports 12 events and serves them in pages of 5. *)
Definition payload (count : Z) (ids : list Z) : pyval :=
  VDict [("count", VInt count); ("items", VList (map VInt ids))].

Definition mock12 : server :=
  fun _ uri =>
    match uri with
    | EventPage _ 0 => Ret (Response (Some (payload 12 [1; 2; 3; 4; 5])))
    | EventPage _ 5 => Ret (Response (Some (payload 12 [6; 7; 8; 9; 10])))
    | EventPage _ 10 => Ret (Response (Some (payload 12 [11; 12])))
    | _ => Raise (RequestException "unexpected request")
    end.

(** A server that reports no event and still sends one. *)
Definition mock0 : server :=
  fun _ _ => Ret (Response (Some (VDict [("count", VInt 0); ("items", VList [VStr "event"])]))).

(** A server whose second answer is a failure. *)
Definition mock_down : server :=
  fun _ uri =>
    match uri with
    | EventPage _ 0 => Ret (Response (Some (payload 12 [1; 2; 3; 4; 5])))
    | _ => Raise (RequestException "connection reset")
    end.

(** A server that reports a count beyond the range of a float, read as
    infinity, and serves a page to every request. *)
Definition mock_endless : server :=
  fun _ _ =>
    Ret (Response (Some (VDict [("count", VFloat Infinity);
                                ("items", VList (map VInt [1; 2; 3; 4; 5]))]))).

(** A server that is down from the start. *)
Definition mock_dead : server := fun _ _ => Raise (RequestException "no route to host").

(** A server that is never asked. *)
Definition offline : server := fun _ _ => Raise (RequestException "offline").

(** An item of the API, with the fields the mapper reads. *)
Definition api_item (name venue : string) (free : bool) (cost : pyval) : pyval :=
  VDict [("vwEventWithLocation",
          VDict [("eventName", VStr name);
                 ("eventDsc", VNone);
                 ("eventStartDate", VStr "2026-11-07T00:00:00");
                 ("eventEndDate", VStr "2026-11-07T00:00:00");
                 ("eventStartTime", VStr "09:00");
                 ("eventEndTime", VStr "11:00");
                 ("eventUrlText", VStr "https://parks.arlingtonva.us/");
                 ("freeOfChargeInd", VBool free);
                 ("eventCostDsc", cost);
                 ("locationName", VStr venue)])].

(** The record such an item is mapped to. *)
Definition sample_event (name venue cost : string) : event :=
  [("Event Start Date", VStr "2026-11-07");
   ("Event End Date", VStr "2026-11-07");
   ("Event Start Time", VStr "09:00");
   ("Event End Time", VStr "11:00");
   ("Event Website", VStr "https://parks.arlingtonva.us/");
   ("Event Name", VStr name);
   ("Event Venue Name", VStr venue);
   ("Event Cost", VStr cost);
   ("Event Description", VStr "See event website.");
   ("Timezone", VStr "America/New_York");
   ("Event Organizers", VStr "Arlington Parks");
   ("Event Currency Symbol", VStr "$");
   ("All Day Event", VBool false);
   ("Event Category", VStr "")].

(** A free walk, a priced workshop and a cleanup without cost note. *)
Definition priced_items : list pyval :=
  [api_item "Bird Walk" "Long Branch Nature Center" true VNone;
   api_item "Compost Workshop" "Gulf Branch Nature Center" false
     (VStr "$15 per person, 2 for $25");
   api_item "Stream Cleanup" "Barcroft Park" false VNone].

Definition priced_events : list event :=
  [sample_event "Bird Walk" "Long Branch Nature Center" "0";
   sample_event "Compost Workshop" "Gulf Branch Nature Center" "15225";
   sample_event "Stream Cleanup" "Barcroft Park" ""].

(** A library event, a walk and a commission meeting. *)
Definition mixed_items : list pyval :=
  [api_item "Story Time" "Arlington Central Library" true VNone;
   api_item "Bird Walk" "Long Branch Nature Center" true VNone;
   api_item "Urban Forestry Commission Meeting" "Bozman Government Center" true VNone].

Definition mixed_events : list event :=
  [sample_event "Bird Walk" "Long Branch Nature Center" "0"].

End ArlingtonSamples.

(** ** events/patc.py *)

Module PatcSpec.
Import Py Bs4 Datetime Pandas Patc.

(** A paragraph that names one of the keyword labels. *)
Definition keyword_para (para : node) : bool :=
  existsb (fun word => str_in (word +++ ":") (get_text para)) KEYWORDS.

(** A detail page without table header or without paragraph. *)
Definition malformed (doc : node) : Prop :=
  find_all "th" doc = [] \/ find_all "p" doc = [].

(** The detail pages an index page leads to, in the order of its
    anchors. *)
Definition detail_links (events : node) : list string :=
  flat_map
    (fun event =>
       let event_link := match attrs_get "href" event with Some h => h | None => "" end in
       if str_in "calendar.aspx" event_link
       then [posixpath_join "Custom" (posixpath_tail event_link)]
       else [])
    (find_all "a" events).

(** The fixed values of the output, under their final labels. *)
Definition defaults : list (string * cell) :=
  [("All Day Event", CBool false);
   ("Timezone", CStr "America/New_York");
   ("Event End Time", CStr "23:59:59");
   ("Event Cost", CInt 0);
   ("Event Currency Symbol", CStr "$");
   ("Event Venue Name", CStr "Please refer to website");
   ("Event Organizers", CStr "Potomac Appalachian Trail Club")].

(** The [assign] step of [main]. *)
Definition with_defaults (data : DataFrame) : DataFrame :=
  assign "event_organizers" (CStr "Potomac Appalachian Trail Club")
    (assign "venue" (CStr "Please refer to website")
       (assign "currency" (CStr "$")
          (assign "event_cost" (CInt 0)
             (assign "end_time" (CStr "23:59:59")
                (assign "time_zone" (CStr "America/New_York")
                   (assign "all_day_event" (CBool false) data)))))).

(** The labels [assign] writes, with the value of each. *)
Definition assigned : list (string * cell) :=
  [("all_day_event", CBool false);
   ("time_zone", CStr "America/New_York");
   ("end_time", CStr "23:59:59");
   ("event_cost", CInt 0);
   ("currency", CStr "$");
   ("venue", CStr "Please refer to website");
   ("event_organizers", CStr "Potomac Appalachian Trail Club")].

(** The records a crawl collects from an index page. *)
Definition crawl (site : web) (events : node) : outcome (list (list (string * string))) :=
  for_each (visit site) (find_all "a" events) [].

Section Pages.
Variable site : web.
Variable parse : datetime -> string -> outcome datetime.
Variable now : nat -> datetime.

(** What the crawl does with one detail page. *)
Definition visit_link (records : list (list (string * string))) (link : string)
  : outcome (list (list (string * string))) :=
  (data <- find_event_data site link ;;
   match data with
   | Some [] | None => Ret records
   | Some data => Ret (records ++ [data])
   end)%py.

(** The record a detail page yields. *)
Definition record_of (link : string) : list (string * string) :=
  match find_event_data site link with
  | Ret (Some r) => r
  | _ => []
  end.

(** The date parser accepts [s] whenever the run reads the clock. *)
Definition accepted (s : string) : Prop :=
  forall n, exists t, parse (midnight (now n)) s = Ret t.

(** A detail page that is read without failure and gives a start date
    and a start time the date parser accepts. *)
Definition well_formed (link : string) : Prop :=
  find_event_data site link = Ret (Some (record_of link)) /\
  exists sd st,
    assoc "Start Date" (record_of link) = Some sd /\ accepted sd /\
    assoc "Start Time" (record_of link) = Some st /\ accepted st.

(** What the date parser makes of [s] does not depend on the moment of
    the run at which it reads the clock. *)
Definition steady (s : string) : Prop :=
  forall n m, parse (midnight (now n)) s = parse (midnight (now m)) s.

(** The start dates of the records the crawl collects are steady. *)
Definition steady_dates : Prop :=
  forall events records,
    make_request_content site CALENDAR_BASE_URL = Ret events ->
    crawl site events = Ret records ->
    Forall (fun r => forall s, assoc "Start Date" r = Some s -> steady s) records.

(** The two conversions of [format_df_time_columns]. *)
Definition to_date (x : cell) : timed cell :=
  (t <- parse_cell parse now x ;; ret_timed (CDate (year t) (month t) (day t)))%timed.

Definition to_time (x : cell) : timed cell :=
  (t <- parse_cell parse now x ;; ret_timed (CStr (strftime_time t)))%timed.

End Pages.

End PatcSpec.

Module PatcSamples.
Import Py Bs4 Datetime Pandas Patc.

Definition labelled (label value : string) : node :=
  Tag "p" [] [Tag "strong" [] [NavigableString (label +++ ":")]; NavigableString value].

(** A detail page as the site serves them. *)
Definition detail_page (name date time : string) : node :=
  Tag "[document]" []
    [Tag "table" [] [Tag "tr" [] [Tag "th" [] [NavigableString name]]];
     labelled "Start Date" date;
     labelled "Start Time" time;
     Tag "p" [] [NavigableString "Bring water and lunch."]].

(** A detail page without table header. *)
Definition headless_page : node :=
  Tag "[document]" [] [Tag "p" [] [NavigableString "This event was cancelled."]].

(** A detail page with a table header and a paragraph, and no labelled
    field. *)
Definition notice_page : node :=
  Tag "[document]" []
    [Tag "table" [] [Tag "tr" [] [Tag "th" [] [NavigableString "Trail Closure"]]];
     Tag "p" [] [NavigableString "The bridge is out until spring."]].

(** A paragraph that holds two emphasized elements. *)
Definition ambiguous_para : node :=
  Tag "p" [] [Tag "strong" [] [NavigableString "Start Date:"];
              Tag "strong" [] [NavigableString "Saturday"];
              NavigableString " 2026-11-14"].

(** A detail page whose date paragraph is that one. *)
Definition ambiguous_page : node :=
  Tag "[document]" []
    [Tag "table" [] [Tag "tr" [] [Tag "th" [] [NavigableString "Trail Work"]]];
     ambiguous_para;
     labelled "Start Time" " 8:00 AM";
     Tag "p" [] [NavigableString "Tools are provided."]].

Definition anchor (href : string) : node :=
  Tag "a" [("href", href)] [NavigableString "details"].

Definition index_page (ids : list string) : node :=
  Tag "[document]" []
    (Tag "a" [("href", "/PATC/Home")] [NavigableString "Home"]
     :: map (fun id => anchor ("/PATC/Calendar/Custom/calendar.aspx?id=" +++ id)) ids).

Definition detail_url (id : string) : string :=
  URL_BASE +++ "Custom/calendar.aspx?id=" +++ id.

(** A site: the index page and the detail pages by id. *)
Definition site_of (pages : list (string * node)) : web :=
  fun url =>
    if (url =? URL_BASE +++ CALENDAR_BASE_URL)%string
    then Ret (index_page (map fst pages))
    else
      match find (fun p => (url =? detail_url (fst p))%string) pages with
      | Some p => Ret (snd p)
      | None => Raise (RequestException "404 Not Found")
      end.

(** The date parser on the strings of the samples: a time of day is
    put on the day of the default, a day without year in its year. *)
Definition sample_parse (default : datetime) (s : string) : outcome datetime :=
  if (s =? "2026-11-07")%string then Ret (mkDatetime 2026 11 7 0 0 0)
  else if (s =? "2026-11-21")%string then Ret (mkDatetime 2026 11 21 0 0 0)
  else if (s =? "9:30 AM")%string
  then Ret (mkDatetime (year default) (month default) (day default) 9 30 0)
  else if (s =? "8:00 AM")%string
  then Ret (mkDatetime (year default) (month default) (day default) 8 0 0)
  else if (s =? "January 1")%string then Ret (mkDatetime (year default) 1 1 0 0 0)
  else Raise ValueError.

(** A run at noon of 4 November 2026. *)
Definition noon : nat -> datetime := fun _ => mkDatetime 2026 11 4 12 0 0.

(** A run that passes midnight of New Year's Eve after the second
    reading of the clock. *)
Definition new_year_eve : nat -> datetime :=
  fun n =>
    if (n <? 2)%nat then mkDatetime 2026 12 31 23 59 59 else mkDatetime 2027 1 1 0 0 0.

Definition hike : node := detail_page "Old Rag Hike" " 2026-11-07" " 9:30 AM".
Definition walk : node := detail_page "Bird Walk" " 2026-11-21" " 8:00 AM".

(** Two good pages around a malformed one. *)
Definition sample_site : web := site_of [("1", hike); ("2", headless_page); ("3", walk)].

(** A good page and one with an ambiguous paragraph. *)
Definition ambiguous_site : web := site_of [("1", hike); ("4", ambiguous_page)].

(** A single page, and that one malformed. *)
Definition headless_site : web := site_of [("2", headless_page)].

(** A good page, a malformed one and one without labelled field. *)
Definition notice_site : web :=
  site_of [("1", hike); ("2", headless_page); ("5", notice_page)].

(** The table [main] makes of [sample_site]. *)
Definition sample_table : DataFrame :=
  mkDataFrame 2
    [("Event Name", [CStr "Old Rag Hike"; CStr "Bird Walk"]);
     ("Event Description", [CStr "Bring water and lunch."; CStr "Bring water and lunch."]);
     ("All Day Event", [CBool false; CBool false]);
     ("Timezone", [CStr "America/New_York"; CStr "America/New_York"]);
     ("Event End Time", [CStr "23:59:59"; CStr "23:59:59"]);
     ("Event Cost", [CInt 0; CInt 0]);
     ("Event Currency Symbol", [CStr "$"; CStr "$"]);
     ("Event Venue Name", [CStr "Please refer to website"; CStr "Please refer to website"]);
     ("Event Organizers",
      [CStr "Potomac Appalachian Trail Club"; CStr "Potomac Appalachian Trail Club"]);
     ("Event Start Date", [CDate 2026 11 7; CDate 2026 11 21]);
     ("Event Start Time", [CStr "09:30:00"; CStr "08:00:00"]);
     ("Event End Date", [CDate 2026 11 7; CDate 2026 11 21])].

(** A page whose start date names no year, its site, and the table
    [main] makes of it in the run of New Year's Eve. *)
Definition new_year_hike : node := detail_page "New Year Hike" " January 1" " 9:30 AM".

Definition new_year_site : web := site_of [("6", new_year_hike)].

Definition new_year_table : DataFrame :=
  mkDataFrame 1
    [("Event Name", [CStr "New Year Hike"]);
     ("Event Description", [CStr "Bring water and lunch."]);
     ("All Day Event", [CBool false]);
     ("Timezone", [CStr "America/New_York"]);
     ("Event End Time", [CStr "23:59:59"]);
     ("Event Cost", [CInt 0]);
     ("Event Currency Symbol", [CStr "$"]);
     ("Event Venue Name", [CStr "Please refer to website"]);
     ("Event Organizers", [CStr "Potomac Appalachian Trail Club"]);
     ("Event Start Date", [CDate 2026 1 1]);
     ("Event Start Time", [CStr "09:30:00"]);
     ("Event End Date", [CDate 2027 1 1])].

(** Its second record. *)
Definition walk_record : list (string * cell) :=
  [("Event Name", CStr "Bird Walk");
   ("Event Description", CStr "Bring water and lunch.");
   ("All Day Event", CBool false);
   ("Timezone", CStr "America/New_York");
   ("Event End Time", CStr "23:59:59");
   ("Event Cost", CInt 0);
   ("Event Currency Symbol", CStr "$");
   ("Event Venue Name", CStr "Please refer to website");
   ("Event Organizers", CStr "Potomac Appalachian Trail Club");
   ("Event Start Date", CDate 2026 11 21);
   ("Event Start Time", CStr "08:00:00");
   ("Event End Date", CDate 2026 11 21)].

End PatcSamples.

(* ================================================================= *)
(** * Further vocabulary: effects, record shape and the table *)

(** ** Character classes and blanks *)

Module TextSpec.
Import Py.

(** Only characters of the ASCII range. *)
Definition is_ascii (s : string) : bool := str_forall (fun c => ord c <? 128) s.

(** No blank at either end: what [strip] leaves unchanged. *)
Definition stripped (s : string) : Prop := strip s = s.

End TextSpec.

(** ** events/arlington.py: effects and record shape *)

Module ArlingtonEffects.
Import Py Bs4 Datetime Arlington TextSpec ArlingtonSpec ArlingtonSamples.

(** The three tests of [parse_event_name] for a removal event. *)
Definition names_removal (event_name : string) : bool :=
  str_in "RIP" event_name || str_in "RiP" event_name
  || str_in "Invasive Plant Removal" event_name.

(** The keys of the dict literal of [schematize_events], in order. *)
Definition schema_keys : list string :=
  ["Event Start Date"; "Event End Date"; "Event Start Time"; "Event End Time";
   "Event Website"; "Event Name"; "Event Venue Name"; "Event Cost";
   "Event Description"; "Timezone"; "Event Organizers"; "Event Currency Symbol";
   "All Day Event"; "Event Category"].

(** The fields of that literal that do not depend on the item. *)
Definition constants : list (string * pyval) :=
  [("Timezone", VStr "America/New_York");
   ("Event Organizers", VStr "Arlington Parks");
   ("Event Currency Symbol", VStr "$");
   ("All Day Event", VBool false);
   ("Event Category", VStr "")].

(** The fields of a record that are strings whatever the item holds. *)
Definition text_keys : list string :=
  ["Event Start Date"; "Event End Date"; "Event Name"; "Event Venue Name";
   "Event Cost"; "Event Description"].

Definition is_text (v : option pyval) : Prop := exists s, v = Some (VStr s).

(** What [schematize_date] returns, whatever it logs. *)
Definition date_text (pad_year : bool) (event_date : pyval) : outcome string :=
  fst (schematize_date pad_year event_date (World [] [])).

(** The two dates [get_event_website] compares for a search result. *)
Definition item_dates (pad_year : bool) (item : pyval) : outcome (string * string) :=
  (item <- getitem item "vwEventWithLocation" ;;
   d1 <- getitem item "eventStartDate" ;;
   item_start_date <- date_text pad_year d1 ;;
   d2 <- getitem item "eventEndDate" ;;
   item_end_date <- date_text pad_year d2 ;;
   Ret (item_start_date, item_end_date))%py.

(** The website a search result carries. *)
Definition item_website (item : pyval) : outcome pyval :=
  (item <- getitem item "vwEventWithLocation" ;; getitem item "eventUrlText")%py.

(** A search result that is read without failure and whose dates are
    not both the ones looked for. *)
Definition other_dates (pad_year : bool) (start_date end_date : string) (item : pyval)
  : Prop :=
  exists s e, item_dates pad_year item = Ret (s, e) /\
              ((start_date =? s)%string && (end_date =? e)%string) = false.

(** An item whose website, if it has the field, is not empty. *)
Definition has_website (event_item : pyval) : Prop :=
  forall item url,
    getitem event_item "vwEventWithLocation" = Ret item ->
    getitem item "eventUrlText" = Ret url -> truthy url = true.

(** Whether a log record is the one of [schematize_date]. *)
Definition is_date_error (r : log_record) : bool :=
  match r with
  | Error _ ValueError => true
  | _ => false
  end.

(** From [w] to [w'] nothing was logged but date errors. *)
Definition logs_date_errors (w w' : world) : Prop :=
  exists l, logged w' = logged w ++ l /\ forallb is_date_error l = true.

(** *** Samples *)

(** A name with a character outside ASCII (e acute, code point 233). *)
Definition accented_name : string := "RiP - Caf" +++ String "233"%char " Woods".

(** An item of the API with its dates and website given. *)
Definition dated_item (name : string) (start_date end_date website : pyval) : pyval :=
  VDict [("vwEventWithLocation",
          VDict [("eventName", VStr name);
                 ("eventDsc", VNone);
                 ("eventStartDate", start_date);
                 ("eventEndDate", end_date);
                 ("eventStartTime", VStr "09:00");
                 ("eventEndTime", VStr "11:00");
                 ("eventUrlText", website);
                 ("freeOfChargeInd", VBool true);
                 ("eventCostDsc", VNone);
                 ("locationName", VStr "Barcroft Park")])].

Definition nov7 : pyval := VStr "2026-11-07T00:00:00".
Definition nov8 : pyval := VStr "2026-11-08T00:00:00".

(** What the search for "Stream Cleanup" finds: the event of another
    day, then the one of the day. *)
Definition search_results : list pyval :=
  [dated_item "Stream Cleanup" nov8 nov8 (VStr "https://example.org/sunday");
   dated_item "Stream Cleanup" nov7 nov7 (VStr "https://example.org/saturday")].

(** A server that answers every search with them. *)
Definition search_server : server :=
  fun _ uri =>
    match uri with
    | EventSearch _ =>
        Ret (Response (Some (VDict [("count", VInt 2); ("items", VList search_results)])))
    | EventPage _ _ => Raise (RequestException "unexpected request")
    end.

(** An item without website: it is looked up. *)
Definition cleanup : pyval := dated_item "Stream Cleanup" nov7 nov7 (VStr "").

(** An item whose start date is null. *)
Definition undated : pyval := dated_item "Owl Prowl" VNone nov7 (VStr "https://example.org/owl").

End ArlingtonEffects.

(** ** events/patc.py: the crawl and the table *)

Module PatcTable.
Import Py Bs4 Datetime Pandas Patc TextSpec PatcSpec PatcSamples.

(** The URLs a crawl may ask for: the calendar, and the pages of the
    Custom directory, whose names hold no slash. *)
Definition crawl_url (url : string) : Prop :=
  url = URL_BASE +++ CALENDAR_BASE_URL \/
  exists name, str_in "/" name = false /\ url = URL_BASE +++ "Custom/" +++ name.

(** The labels every table has. *)
Definition output_labels : list string :=
  ["Event Name"; "Event Description"; "All Day Event"; "Timezone"; "Event End Time";
   "Event Cost"; "Event Currency Symbol"; "Event Venue Name"; "Event Organizers";
   "Event Start Date"; "Event Start Time"; "Event End Date"].

(** The columns they come from, in the same order. *)
Definition source_labels : list string :=
  ["Event Name"; "Description"; "all_day_event"; "time_zone"; "end_time";
   "event_cost"; "currency"; "venue"; "event_organizers";
   "start_date"; "start_time"; "end_date"].

(** The labels no table has: the two columns [main] drops and the
    labels it renames. *)
Definition raw_labels : list string :=
  "Start Date" :: "Start Time" :: map fst RENAME_MAP.

(** The columns [format_df_time_columns] writes. *)
Definition time_labels : list string := map fst cols_mapper.

(** The label a column of the records gets in the table. *)
Definition final_label (k : string) : string :=
  match assoc k RENAME_MAP with
  | Some k' => k'
  | None => k
  end.

(** A field of the records that [main] neither overwrites nor drops. *)
Definition carried (k : string) : bool :=
  negb (existsb (String.eqb k)
          (["Start Date"; "Start Time"] ++ map fst assigned ++ time_labels)).

(** The keys of a record hold the two fixed ones, and every value is
    stripped; the value of a labelled field is ASCII as well. *)
Definition tidy_record (r : list (string * string)) : Prop :=
  assoc "Event Name" r <> None /\ assoc "Description" r <> None /\
  Forall (fun kv => stripped (snd kv)) r /\
  Forall (fun kv => fst kv = "Event Name" \/ fst kv = "Description" \/
                    is_ascii (snd kv) = true) r.

(** *** Samples *)

(** An index page whose anchor leads out of the calendar. *)
Definition foreign_url : string := "https://example.org/elsewhere/calendar.aspx?id=1".

Definition foreign_index : node :=
  Tag "[document]" [] [Tag "a" [("href", foreign_url)] [NavigableString "details"]].

(** A site that serves it, the hike under the name the crawl asks for,
    and [answer] at the address of the anchor. *)
Definition foreign_site (answer : outcome node) : web :=
  fun url =>
    if (url =? foreign_url)%string then answer
    else if (url =? URL_BASE +++ CALENDAR_BASE_URL)%string then Ret foreign_index
    else if (url =? detail_url "1")%string then Ret hike
    else Raise (RequestException "404 Not Found").

(** A detail page with a website paragraph and a category. *)
Definition full_page : node :=
  Tag "[document]" []
    [Tag "table" [] [Tag "tr" [] [Tag "th" [] [NavigableString " Old Rag Hike "]]];
     labelled "Start Date" " 2026-11-07";
     labelled "Start Time" " 9:30 AM";
     labelled "Event Category" " Hike ";
     Tag "p" [] [Tag "strong" [] [NavigableString "www:"];
                 Tag "a" [("href", " https://www.patc.net/hikes ")] [NavigableString "link"]];
     Tag "p" [] [NavigableString "Bring water and lunch."]].

Definition full_site : web := site_of [("1", full_page)].

(** A page without labelled field between two good ones. *)
Definition undated_site : web := site_of [("1", hike); ("5", notice_page); ("3", walk)].

(** A site whose only page has no labelled field. *)
Definition notice_only_site : web := site_of [("5", notice_page)].

(** The record of [full_page]. *)
Definition full_record : list (string * string) :=
  [("Event Name", "Old Rag Hike");
   ("Description", "Bring water and lunch.");
   ("Start Date", "2026-11-07");
   ("Start Time", "9:30 AM");
   ("Event Category", "Hike");
   ("www", "https://www.patc.net/hikes")].

(** The record of [notice_page]. *)
Definition notice_record : list (string * string) :=
  [("Event Name", "Trail Closure"); ("Description", "The bridge is out until spring.")].

(** A table of one record before and after its time columns are
    formatted. *)
Definition small_table : DataFrame :=
  mkDataFrame 1
    [("Event Name", [CStr "Old Rag Hike"]);
     ("Start Date", [CStr "2026-11-07"]);
     ("Start Time", [CStr "9:30 AM"])].

Definition small_formatted : DataFrame :=
  mkDataFrame 1
    [("Event Name", [CStr "Old Rag Hike"]);
     ("Start Date", [CStr "2026-11-07"]);
     ("Start Time", [CStr "9:30 AM"]);
     ("start_date", [CDate 2026 11 7]);
     ("start_time", [CStr "09:30:00"]);
     ("end_date", [CDate 2026 11 7])].

End PatcTable.

(* ================================================================= *)
(** * Properties *)

(** ** Strings, dicts and loops *)

Module PyFacts.
Import Py PySpec.

Lemma space_isspace (c : ascii) : (c =? " ")%char = true -> isspace c = true.
Proof. intro H. apply Ascii.eqb_eq in H. now subst. Qed.

Lemma append_nil_r (s : string) : s +++ "" = s.
Proof. induction s; cbn; congruence. Qed.

Lemma str_in_absent_prefix (sub s : string) : str_in sub s = false -> prefix sub s = false.
Proof.
  intro H. destruct (prefix sub s) eqn:E; [|reflexivity].
  destruct s; cbn [str_in] in H; rewrite E in H; discriminate.
Qed.

Lemma str_in_absent_tail (sub : string) (c : ascii) (s : string) :
  str_in sub (String c s) = false -> str_in sub s = false.
Proof. cbn [str_in]. destruct (prefix sub (String c s)); congruence. Qed.

(** Replacing a substring that does not occur changes nothing. *)
Lemma replace_absent (old new s : string) : str_in old s = false -> replace old new s = s.
Proof.
  unfold replace. induction s as [|c s IH]; intro H; [reflexivity|].
  cbn [replace_from]. rewrite (str_in_absent_prefix _ _ H).
  now rewrite IH by (eapply str_in_absent_tail; eauto).
Qed.

(** *** The collapse of space runs *)

Lemma sub_spaces_single (s : string) :
  single_spaced s = true ->
  forall rep,
    sub_spaces_from rep 0 s = s /\
    (starts_with_space s = false -> sub_spaces_from rep 1 s = String " " s).
Proof.
  induction s as [|c s IH]; intros H rep; [split; reflexivity|].
  assert (Hs : single_spaced s = true).
  { cbn in H. destruct s; [reflexivity|]. apply andb_prop in H. apply H. }
  destruct (IH Hs rep) as [IH0 IH1].
  cbn [sub_spaces_from starts_with_space].
  destruct (c =? " ")%char eqn:Ec.
  - split; [|discriminate].
    apply Ascii.eqb_eq in Ec. subst c. rewrite IH1; [reflexivity|].
    destruct s as [|c' s]; [reflexivity|].
    cbn in H |- *. destruct (c' =? " ")%char; [discriminate H | reflexivity].
  - cbn [flush_spaces String.append]. rewrite IH0. split; reflexivity.
Qed.

Lemma single_spaced_cons (c : ascii) (s : string) :
  (c =? " ")%char = false -> single_spaced s = true -> single_spaced (String c s) = true.
Proof. intros Hc Hs. cbn. destruct s; [reflexivity|]. now rewrite Hc, Hs. Qed.

Lemma single_spaced_space (s : string) :
  starts_with_space s = false -> single_spaced s = true ->
  single_spaced (String " " s) = true.
Proof.
  intros Hc Hs. cbn. destruct s as [|c s]; [reflexivity|].
  cbn in Hc. change (" " =? " ")%char with true. now rewrite Hc, Hs.
Qed.

Lemma sub_spaces_from_single (s : string) (n : nat) :
  single_spaced (sub_spaces_from " " n s) = true /\
  (n = 0%nat -> starts_with_space s = false ->
   starts_with_space (sub_spaces_from " " n s) = false).
Proof.
  revert n. induction s as [|c s IH]; intro n.
  - cbn. destruct n as [|[|n]]; split; try reflexivity; discriminate.
  - cbn [sub_spaces_from starts_with_space].
    destruct (c =? " ")%char eqn:Ec.
    + split; [apply IH|]. discriminate.
    + destruct (IH 0%nat) as [IHs IHn].
      assert (Hc : single_spaced (String c (sub_spaces_from " " 0 s)) = true)
        by now apply single_spaced_cons.
      destruct n as [|[|n]]; cbn [flush_spaces String.append starts_with_space]; split;
        try (intros; assumption); try discriminate;
        try (apply single_spaced_space; [cbn; exact Ec | exact Hc]); exact Hc.
Qed.

Lemma sub_spaces_from_empty (s : string) (n : nat) :
  sub_spaces_from " " n s = "" -> n = 0%nat /\ s = "".
Proof.
  revert n. induction s as [|c s IH]; intro n; cbn [sub_spaces_from].
  - destruct n as [|[|n]]; cbn; intro H; [split; reflexivity | discriminate H ..].
  - destruct (c =? " ")%char.
    + intro H. apply IH in H. destruct H. discriminate.
    + destruct n as [|[|n]]; cbn; discriminate.
Qed.

(** *** [strip] *)

Lemma rstrip_app_keeps (a s : string) :
  rstrip s = s -> s <> "" -> rstrip (a +++ s) = a +++ s.
Proof.
  intros Hs Hn. induction a as [|c a IH]; [exact Hs|].
  cbn [String.append rstrip]. rewrite IH.
  destruct (a +++ s) eqn:E; [|reflexivity].
  destruct a; cbn in E; [congruence | discriminate].
Qed.

Lemma rstrip_cons_inv (c : ascii) (s : string) :
  rstrip (String c s) = String c s ->
  (s = "" /\ isspace c = false) \/ (s <> "" /\ rstrip s = s).
Proof.
  cbn [rstrip]. destruct (rstrip s) eqn:E.
  - destruct (isspace c) eqn:Ec; [discriminate|].
    intro H. injection H as H. left. split; [now symmetry | reflexivity].
  - intro H. injection H as H. right. split; [|exact H]. rewrite <- H. discriminate.
Qed.

Lemma rstrip_sub_spaces (s : string) :
  rstrip s = s -> s <> "" ->
  forall n, rstrip (sub_spaces_from " " n s) = sub_spaces_from " " n s.
Proof.
  induction s as [|c s IH]; intros Hs Hn n; [congruence|].
  destruct (rstrip_cons_inv c s Hs) as [[-> Hc] | [Hne Hr]].
  - cbn [sub_spaces_from].
    destruct (c =? " ")%char eqn:Ec; [apply space_isspace in Ec; congruence|].
    apply rstrip_app_keeps; [|discriminate].
    cbn. now rewrite Hc.
  - cbn [sub_spaces_from]. destruct (c =? " ")%char eqn:Ec; [now apply IH|].
    apply rstrip_app_keeps; [|discriminate].
    cbn [rstrip]. rewrite (IH Hr Hne 0%nat).
    destruct (sub_spaces_from " " 0 s) eqn:E; [|reflexivity].
    apply sub_spaces_from_empty in E. destruct E. contradiction.
Qed.

Lemma lstrip_idem (s : string) : lstrip (lstrip s) = lstrip s.
Proof.
  induction s as [|c s IH]; [reflexivity|].
  cbn [lstrip]. destruct (isspace c) eqn:E; [exact IH|].
  cbn [lstrip]. now rewrite E.
Qed.

Lemma rstrip_idem (s : string) : rstrip (rstrip s) = rstrip s.
Proof.
  induction s as [|c s IH]; [reflexivity|].
  cbn [rstrip]. destruct (rstrip s) eqn:E.
  - destruct (isspace c) eqn:Ec; [reflexivity|]. cbn. now rewrite Ec.
  - cbn [rstrip] in IH |- *. rewrite IH. reflexivity.
Qed.

Lemma lstrip_rstrip (s : string) : lstrip s = s -> lstrip (rstrip s) = rstrip s.
Proof.
  destruct s as [|c s]; [reflexivity|].
  cbn [lstrip]. destruct (isspace c) eqn:Ec.
  - intro H. exfalso. assert (L : (String.length (lstrip s) <= String.length s)%nat).
    { clear. induction s as [|c s IH]; cbn; [lia|]. destruct (isspace c); cbn; lia. }
    rewrite H in L. cbn in L. lia.
  - intros _. cbn [rstrip]. destruct (rstrip s); rewrite ?Ec; cbn [lstrip]; now rewrite Ec.
Qed.

(** A stripped string has no blank at either end. *)
Lemma strip_fixed (s : string) : lstrip (strip s) = strip s /\ rstrip (strip s) = strip s.
Proof.
  unfold strip. split.
  - apply lstrip_rstrip, lstrip_idem.
  - apply rstrip_idem.
Qed.

Lemma strip_normal (s : string) : lstrip s = s -> rstrip s = s -> strip s = s.
Proof. intros L R. unfold strip. now rewrite L. Qed.

(** Stripping and then collapsing the runs of spaces gives a normal
    string. *)
Lemma sub_spaces_strip_normal (s : string) : normal (re_sub_spaces " " (strip s)).
Proof.
  destruct (strip_fixed s) as [L R]. set (y := strip s) in *.
  unfold normal, re_sub_spaces. repeat split.
  - destruct y as [|c y]; [reflexivity|].
    cbn [lstrip] in L. destruct (isspace c) eqn:Ec.
    + exfalso. assert (Len : (String.length (lstrip y) <= String.length y)%nat).
      { clear. induction y as [|c y IH]; cbn; [lia|]. destruct (isspace c); cbn; lia. }
      rewrite L in Len. cbn in Len. lia.
    + cbn [sub_spaces_from].
      destruct (c =? " ")%char eqn:E; [apply space_isspace in E; congruence|].
      cbn. now rewrite Ec.
  - destruct y as [|c y]; [reflexivity|]. apply rstrip_sub_spaces; [exact R | discriminate].
  - apply sub_spaces_from_single.
Qed.

(** On a normal string, stripping and collapsing are the identity. *)
Lemma normal_fixed (s : string) (rep : string) :
  normal s -> strip s = s /\ re_sub_spaces rep s = s.
Proof.
  intros (L & R & S). split; [now apply strip_normal|].
  apply sub_spaces_single. exact S.
Qed.

(** *** Dicts and loops *)

Lemma assoc_dict_set {V : Type} (k k' : string) (v : V) (kv : list (string * V)) :
  assoc k (dict_set k' v kv) = if (k =? k')%string then Some v else assoc k kv.
Proof.
  induction kv as [|[k0 v0] kv IH]; cbn [dict_set assoc].
  - destruct (k =? k')%string; reflexivity.
  - destruct (k' =? k0)%string eqn:E0; cbn [assoc].
    + apply String.eqb_eq in E0. subst k0.
      destruct (k =? k')%string; reflexivity.
    + destruct (k =? k0)%string eqn:E1; [|exact IH].
      apply String.eqb_eq in E1. subst k0.
      destruct (k =? k')%string eqn:E2; [|reflexivity].
      apply String.eqb_eq in E2. subst k'. now rewrite String.eqb_refl in E0.
Qed.

Lemma assoc_In {V : Type} (k : string) (v : V) (kv : list (string * V)) :
  assoc k kv = Some v -> In (k, v) kv.
Proof.
  induction kv as [|[k0 v0] kv IH]; cbn [assoc]; [discriminate|].
  destruct (k =? k0)%string eqn:E.
  - apply String.eqb_eq in E. intro H. injection H as <-. subst. now left.
  - intro H. right. auto.
Qed.

Lemma In_assoc {V : Type} (k : string) (v : V) (kv : list (string * V)) :
  NoDup (map fst kv) -> In (k, v) kv -> assoc k kv = Some v.
Proof.
  induction kv as [|[k0 v0] kv IH]; cbn [map fst assoc]; [contradiction|].
  intros ND [H | H]; inversion ND as [|? ? Hn ND']; subst.
  - injection H as -> ->. now rewrite String.eqb_refl.
  - destruct (k =? k0)%string eqn:E; [|auto].
    apply String.eqb_eq in E. subst k0. exfalso. apply Hn.
    change k with (fst (k, v)). now apply in_map.
Qed.

(** A loop fails as soon as its body fails on one element, whatever the
    state then is. *)
Lemma for_each_raises {A St : Type} (body : St -> A -> outcome St) (x : A) (xs : list A) :
  In x xs ->
  (forall acc, exists e, body acc x = Raise e) ->
  forall acc, exists e, for_each body xs acc = Raise e.
Proof.
  intros Hin Hx. induction xs as [|y xs IH]; [contradiction|].
  intro acc. cbn [for_each]. destruct Hin as [-> | Hin].
  - destruct (Hx acc) as [e ->]. now exists e.
  - destruct (body acc y) as [acc'|e]; [|now exists e]. cbn [bind]. now apply IH.
Qed.

Lemma for_each_raises_only {A St : Type} (body : St -> A -> outcome St) (P : exn -> Prop)
    (xs : list A) :
  (forall acc x e, body acc x = Raise e -> P e) ->
  forall acc e, for_each body xs acc = Raise e -> P e.
Proof.
  intro Hb. induction xs as [|y xs IH]; intros acc e; cbn [for_each]; [discriminate|].
  destruct (body acc y) as [acc'|e'] eqn:E; cbn [bind].
  - apply IH.
  - intro H. injection H as <-. eauto.
Qed.

Lemma for_each_app {A St : Type} (body : St -> A -> outcome St) (xs ys : list A) (acc : St) :
  for_each body (xs ++ ys) acc = bind (for_each body xs acc) (for_each body ys).
Proof.
  revert acc. induction xs as [|x xs IH]; intro acc; [reflexivity|].
  cbn [app for_each]. destruct (body acc x); [apply IH | reflexivity].
Qed.

End PyFacts.

(** ** [strptime] on strings of the exact shape *)

Module DatetimeFacts.
Import Py Datetime DatetimeSpec.

(** A character of class [\d] is one of the ten decimal digits. *)
Lemma re_digit_inv (c : ascii) :
  re_digit c = true ->
  In c ["0"; "1"; "2"; "3"; "4"; "5"; "6"; "7"; "8"; "9"]%char.
Proof.
  destruct c as [[] [] [] [] [] [] [] []]; cbv; intro H;
    try discriminate H; tauto.
Qed.

Ltac digit_cases H :=
  apply re_digit_inv in H; cbn [In] in H;
  repeat (destruct H as [H | H]; [subst | ]); [.. | contradiction].

Lemma digit_char_value (c : ascii) :
  re_digit c = true -> digit_char (digit_value c) = c /\ 0 <= digit_value c <= 9.
Proof. intro H. digit_cases H; cbv; intuition congruence. Qed.

Lemma digit_not_space (c : ascii) : re_digit c = true -> isspace c = false.
Proof. intro H. digit_cases H; reflexivity. Qed.

Lemma rstrip_digits (s : string) : str_forall re_digit s = true -> rstrip s = s.
Proof.
  induction s as [|c s IH]; cbn; [reflexivity|].
  intro H. apply andb_prop in H. destruct H as [Hc Hs].
  rewrite (IH Hs). destruct s; [|reflexivity].
  now rewrite (digit_not_space c Hc).
Qed.

Lemma int_digits (s : string) : str_forall re_digit s = true -> int s = int_from 0 s.
Proof.
  intro H. unfold int, strip. f_equal.
  destruct s as [|c s]; [reflexivity|].
  cbn in H |- *. pose proof H as H'. apply andb_prop in H'. destruct H' as [Hc Hs].
  rewrite (digit_not_space c Hc).
  apply (rstrip_digits (String c s)). exact H.
Qed.

Lemma int_from_digit2 (a b : ascii) :
  int_from 0 (String a (String b "")) = 10 * digit_value a + digit_value b.
Proof. cbn [int_from]. lia. Qed.

Lemma int2 (a b : ascii) :
  re_digit a = true -> re_digit b = true ->
  int (String a (String b "")) = 10 * digit_value a + digit_value b.
Proof.
  intros Ha Hb. rewrite int_digits by (cbn; now rewrite Ha, Hb).
  apply int_from_digit2.
Qed.

Lemma int4 (a b c e : ascii) :
  re_digit a = true -> re_digit b = true -> re_digit c = true -> re_digit e = true ->
  int (String a (String b (String c (String e "")))) =
  1000 * digit_value a + 100 * digit_value b + 10 * digit_value c + digit_value e.
Proof.
  intros Ha Hb Hc He. rewrite int_digits by (cbn; now rewrite Ha, Hb, Hc, He).
  cbn [int_from]. lia.
Qed.

Lemma pad2_digits (a b : ascii) :
  re_digit a = true -> re_digit b = true ->
  pad2 (10 * digit_value a + digit_value b) = String a (String b "").
Proof.
  intros Ha Hb.
  destruct (digit_char_value a Ha) as [Ea Ra], (digit_char_value b Hb) as [Eb Rb].
  unfold pad2.
  replace ((10 * digit_value a + digit_value b) / 10 mod 10) with (digit_value a).
  2:{ replace ((10 * digit_value a + digit_value b) / 10) with (digit_value a).
      - symmetry. apply Z.mod_small. lia.
      - apply Z.div_unique with (r := digit_value b); lia. }
  replace ((10 * digit_value a + digit_value b) mod 10) with (digit_value b).
  2:{ apply Z.mod_unique with (q := digit_value a); lia. }
  now rewrite Ea, Eb.
Qed.

Lemma pad4_digits (a b c e : ascii) :
  re_digit a = true -> re_digit b = true -> re_digit c = true -> re_digit e = true ->
  pad4 (1000 * digit_value a + 100 * digit_value b + 10 * digit_value c + digit_value e) =
  String a (String b (String c (String e ""))).
Proof.
  intros Ha Hb Hc He.
  destruct (digit_char_value a Ha) as [Ea Ra], (digit_char_value b Hb) as [Eb Rb],
           (digit_char_value c Hc) as [Ec Rc], (digit_char_value e He) as [Ee Re].
  set (n := 1000 * digit_value a + 100 * digit_value b + 10 * digit_value c + digit_value e).
  assert (H1 : n / 1000 mod 10 = digit_value a).
  { replace (n / 1000) with (digit_value a).
    - apply Z.mod_small. lia.
    - apply Z.div_unique with (r := 100 * digit_value b + 10 * digit_value c + digit_value e);
        subst n; lia. }
  assert (H2 : n / 100 mod 10 = digit_value b).
  { replace (n / 100) with (10 * digit_value a + digit_value b).
    - symmetry. apply Z.mod_unique with (q := digit_value a); lia.
    - apply Z.div_unique with (r := 10 * digit_value c + digit_value e); subst n; lia. }
  assert (H3 : n / 10 mod 10 = digit_value c).
  { replace (n / 10) with (100 * digit_value a + 10 * digit_value b + digit_value c).
    - symmetry. apply Z.mod_unique with (q := 10 * digit_value a + digit_value b); lia.
    - apply Z.div_unique with (r := digit_value e); subst n; lia. }
  assert (H4 : n mod 10 = digit_value e).
  { symmetry.
    apply Z.mod_unique with (q := 100 * digit_value a + 10 * digit_value b + digit_value c);
      subst n; lia. }
  unfold pad4, pad2. rewrite H1, H2, H3, H4. now rewrite Ea, Eb, Ec, Ee.
Qed.

(** *** What the directives' patterns match on two digits *)

Ltac field_by_cases :=
  intros a b tl Ha Hb; digit_cases Ha; digit_cases Hb; reflexivity.

Lemma re_m_spec : field_spec re_m 1 12 1.
Proof. field_by_cases. Qed.

Lemma re_d_spec : field_spec re_d 1 31 1.
Proof. field_by_cases. Qed.

Lemma re_H_spec : field_spec re_H 0 23 0.
Proof. field_by_cases. Qed.

Lemma re_M_spec : field_spec re_M 0 59 0.
Proof. field_by_cases. Qed.

Lemma re_S_spec : field_spec re_S 0 61 0.
Proof. field_by_cases. Qed.

Lemma digit_not_sep (sep c : ascii) :
  In sep ["-"; "T"; ":"]%char -> re_digit c = true -> (lower c =? lower sep)%char = false.
Proof.
  intros Hs Hc. cbn [In] in Hs.
  destruct Hs as [<- | [<- | [<- | []]]]; digit_cases Hc; reflexivity.
Qed.

Lemma field_then_sep (f : regex) (lo hi lo1 : Z) (sep : ascii) (K : regex)
    (a b : ascii) (tl : string) :
  field_spec f lo hi lo1 ->
  In sep ["-"; "T"; ":"]%char ->
  re_digit a = true -> re_digit b = true ->
  re_match (Cat f (Cat (Lit sep) K)) (String a (String b (String sep tl))) =
  if (lo <=? value2 a b) && (value2 a b <=? hi)
  then map (after (String a (String b (String sep ""))) (two a b)) (re_match K tl)
  else [].
Proof.
  intros Hf Hsep Ha Hb.
  cbn [re_match]. rewrite (Hf a b _ Ha Hb).
  assert (Hself : (lower sep =? lower sep)%char = true) by apply Ascii.eqb_refl.
  pose proof (digit_not_sep sep b Hsep Hb) as Hno.
  destruct ((lo <=? value2 a b) && (value2 a b <=? hi)), (lo1 <=? digit_value a);
    cbn [app flat_map one_char rest consumed groups map];
    rewrite ?Hself, ?Hno; cbn [app flat_map one_char rest consumed groups map];
    rewrite ?app_nil_r, ?map_map; try reflexivity.
Qed.

Lemma year_then_sep (K : regex) (a b c e : ascii) (tl : string) :
  re_digit a = true -> re_digit b = true -> re_digit c = true -> re_digit e = true ->
  re_match (Cat re_Y (Cat (Lit "-") K))
    (String a (String b (String c (String e (String "-" tl))))) =
  map (after (String a (String b (String c (String e "-"))))
         (String a (String b (String c (String e "")))))
      (re_match K tl).
Proof.
  intros Ha Hb Hc He. cbn [re_match re_Y d].
  cbn [one_char]. rewrite Ha. cbn [app flat_map one_char rest consumed groups map].
  rewrite Hb. cbn [app flat_map one_char rest consumed groups map].
  rewrite Hc. cbn [app flat_map one_char rest consumed groups map].
  rewrite He. cbn [app flat_map one_char rest consumed groups map String.append].
  change (lower "-" =? lower "-")%char with true.
  cbn [app flat_map one_char rest consumed groups map String.append].
  rewrite ?app_nil_r, ?map_map. reflexivity.
Qed.

(** *** Strings of the exact shape *)

Lemma valid_datetime_iff (t : datetime) :
  valid_datetime t = true <->
  1 <= year t <= 9999 /\ 1 <= month t <= 12 /\
  1 <= day t <= days_in_month (year t) (month t) /\
  0 <= hour t <= 23 /\ 0 <= minute t <= 59 /\ 0 <= second t <= 59.
Proof.
  unfold valid_datetime. rewrite !andb_true_iff, !Z.leb_le. tauto.
Qed.

Lemma days_in_month_le (y m : Z) : days_in_month y m <= 31.
Proof.
  unfold days_in_month.
  destruct (m =? 2); [destruct (is_leap y); lia|].
  destruct ((m =? 4) || (m =? 6) || (m =? 9) || (m =? 11)); lia.
Qed.

Ltac shape_inv H s :=
  let c := fresh "c" in
  let Hc := fresh "Hc" in
  destruct s as [|c s]; [discriminate H|];
  cbn [matches_shape Ascii.eqb Bool.eqb] in H;
  apply andb_prop in H; destruct H as [Hc H].

Lemma exact_format_inv (s : string) :
  exact_format s = true ->
  exists y1 y2 y3 y4 m1 m2 d1 d2 h1 h2 n1 n2 s1 s2,
    s = String y1 (String y2 (String y3 (String y4 (String "-"
        (String m1 (String m2 (String "-" (String d1 (String d2 (String "T"
        (String h1 (String h2 (String ":" (String n1 (String n2 (String ":"
        (String s1 (String s2 "")))))))))))))))))) /\
    Forall (fun c => re_digit c = true) [y1; y2; y3; y4; m1; m2; d1; d2; h1; h2; n1; n2; s1; s2].
Proof.
  unfold exact_format. intro H.
  do 19 shape_inv H s.
  destruct s; [|discriminate H].
  repeat match goal with
         | E : (_ =? _)%char = true |- _ => apply Ascii.eqb_eq in E; subst
         end.
  do 14 eexists. split; [reflexivity|].
  repeat constructor; assumption.
Qed.

(** On a string of the exact shape [strptime] succeeds exactly when the
    six numbers form a date and a time of day. *)
Lemma strptime_exact (s : string) :
  exact_format s = true ->
  strptime s = if valid_datetime (fields_of s) then Ret (fields_of s) else Raise ValueError.
Proof.
  intro H. destruct (exact_format_inv s H)
    as (y1 & y2 & y3 & y4 & m1 & m2 & d1 & d2 & h1 & h2 & n1 & n2 & s1 & s2 & -> & HD).
  repeat match goal with
         | HD : Forall _ (_ :: _) |- _ =>
             let Hx := fresh "D" in
             apply Forall_cons_iff in HD; destruct HD as [Hx HD]
         end.
  clear HD H.
  unfold strptime, re_format.
  rewrite year_then_sep by assumption.
  rewrite (field_then_sep re_m 1 12 1 "-") by (auto using re_m_spec; cbn; tauto).
  rewrite (field_then_sep re_d 1 31 1 "T") by (auto using re_d_spec; cbn; tauto).
  rewrite (field_then_sep re_H 0 23 0 ":") by (auto using re_H_spec; cbn; tauto).
  rewrite (field_then_sep re_M 0 59 0 ":") by (auto using re_M_spec; cbn; tauto).
  rewrite (re_S_spec s1 s2 "") by assumption.
  unfold fields_of. cbn [substring].
  rewrite (int4 y1 y2 y3 y4), (int2 m1 m2), (int2 d1 d2), (int2 h1 h2), (int2 n1 n2),
    (int2 s1 s2) by assumption.
  fold (value2 m1 m2) (value2 d1 d2) (value2 h1 h2) (value2 n1 n2) (value2 s1 s2).
  set (Y := 1000 * digit_value y1 + 100 * digit_value y2 + 10 * digit_value y3 + digit_value y4).
  destruct (valid_datetime (mkDatetime Y (value2 m1 m2) (value2 d1 d2) (value2 h1 h2)
                              (value2 n1 n2) (value2 s1 s2))) eqn:V.
  - apply valid_datetime_iff in V. cbn [year month day hour minute second] in V.
    pose proof (days_in_month_le Y (value2 m1 m2)).
    replace ((1 <=? value2 m1 m2) && (value2 m1 m2 <=? 12)) with true
      by (symmetry; apply andb_true_iff; rewrite !Z.leb_le; lia).
    replace ((1 <=? value2 d1 d2) && (value2 d1 d2 <=? 31)) with true
      by (symmetry; apply andb_true_iff; rewrite !Z.leb_le; lia).
    replace ((0 <=? value2 h1 h2) && (value2 h1 h2 <=? 23)) with true
      by (symmetry; apply andb_true_iff; rewrite !Z.leb_le; lia).
    replace ((0 <=? value2 n1 n2) && (value2 n1 n2 <=? 59)) with true
      by (symmetry; apply andb_true_iff; rewrite !Z.leb_le; lia).
    replace ((0 <=? value2 s1 s2) && (value2 s1 s2 <=? 61)) with true
      by (symmetry; apply andb_true_iff; rewrite !Z.leb_le; lia).
    cbn [map app after rest groups consumed]. unfold two.
    rewrite (int4 y1 y2 y3 y4), (int2 m1 m2), (int2 d1 d2), (int2 h1 h2), (int2 n1 n2),
      (int2 s1 s2) by assumption.
    fold (value2 m1 m2) (value2 d1 d2) (value2 h1 h2) (value2 n1 n2) (value2 s1 s2).
    fold Y.
    assert (V' : valid_datetime (mkDatetime Y (value2 m1 m2) (value2 d1 d2) (value2 h1 h2)
                              (value2 n1 n2) (value2 s1 s2)) = true)
      by (apply valid_datetime_iff; exact V).
    rewrite V'. reflexivity.
  - destruct ((1 <=? value2 m1 m2) && (value2 m1 m2 <=? 12)) eqn:Em; [|reflexivity].
    destruct ((1 <=? value2 d1 d2) && (value2 d1 d2 <=? 31)) eqn:Ed; [|reflexivity].
    destruct ((0 <=? value2 h1 h2) && (value2 h1 h2 <=? 23)) eqn:Eh; [|reflexivity].
    destruct ((0 <=? value2 n1 n2) && (value2 n1 n2 <=? 59)) eqn:En; [|reflexivity].
    destruct ((0 <=? value2 s1 s2) && (value2 s1 s2 <=? 61)) eqn:Es.
    + cbn [map app after rest groups consumed]. unfold two.
      rewrite (int4 y1 y2 y3 y4), (int2 m1 m2), (int2 d1 d2), (int2 h1 h2), (int2 n1 n2),
        (int2 s1 s2) by assumption.
      fold (value2 m1 m2) (value2 d1 d2) (value2 h1 h2) (value2 n1 n2) (value2 s1 s2).
      fold Y. rewrite V. reflexivity.
    + replace (0 <=? digit_value s1) with true
        by (symmetry; apply Z.leb_le; apply (digit_char_value s1); assumption).
      reflexivity.
Qed.

End DatetimeFacts.

(** ** Tables *)

Module PandasFacts.
Import Py Pandas PyFacts.

Lemma add_label_keeps (acc : list string) (k k' : string) :
  In k acc -> In k (add_label acc k').
Proof.
  intro H. unfold add_label. destruct (existsb _ acc); [exact H|].
  apply in_or_app. now left.
Qed.

Lemma add_label_adds (acc : list string) (k : string) : In k (add_label acc k).
Proof.
  unfold add_label. destruct (existsb (String.eqb k) acc) eqn:E.
  - apply existsb_exists in E. destruct E as (x & Hx & Ex).
    apply String.eqb_eq in Ex. now subst.
  - apply in_or_app. right. now left.
Qed.

Lemma fold_add_label_keeps (ks acc : list string) (k : string) :
  In k acc -> In k (fold_left add_label ks acc).
Proof.
  revert acc. induction ks as [|k' ks IH]; intros acc H; [exact H|].
  cbn. apply IH. now apply add_label_keeps.
Qed.

Lemma fold_add_label_adds (ks acc : list string) (k : string) :
  In k ks -> In k (fold_left add_label ks acc).
Proof.
  revert acc. induction ks as [|k' ks IH]; intros acc H; [contradiction|].
  cbn. destruct H as [-> | H].
  - apply fold_add_label_keeps, add_label_adds.
  - now apply IH.
Qed.

Lemma all_labels_from (records : list (list (string * string))) (acc : list string)
    (k : string) :
  In k acc \/ (exists r, In r records /\ In k (map fst r)) ->
  In k (fold_left (fun acc r => fold_left add_label (map fst r) acc) records acc).
Proof.
  revert acc. induction records as [|r records IH]; intros acc H.
  - cbn. destruct H as [H | (r & [] & _)]. exact H.
  - cbn. apply IH. destruct H as [H | (r' & [-> | Hr] & Hk)].
    + left. now apply fold_add_label_keeps.
    + left. now apply fold_add_label_adds.
    + right. eauto.
Qed.

Lemma assoc_key {V : Type} (k : string) (v : V) (r : list (string * V)) :
  assoc k r = Some v -> In k (map fst r).
Proof.
  intro H. apply assoc_In in H. change k with (fst (k, v)). now apply in_map.
Qed.

Lemma assoc_tabulate {V : Type} (f : string -> V) (labels : list string) (k : string) :
  In k labels -> assoc k (map (fun k => (k, f k)) labels) = Some (f k).
Proof.
  induction labels as [|k' labels IH]; [contradiction|].
  intro H. cbn [map assoc]. destruct (k =? k')%string eqn:E.
  - apply String.eqb_eq in E. now subst.
  - destruct H as [-> | H]; [now rewrite String.eqb_refl in E | auto].
Qed.

(** A key some record has is a column of the table built from the
    records. *)
Lemma from_records_column (records : list (list (string * string))) (k : string) :
  (exists r, In r records /\ In k (map fst r)) ->
  assoc k (columns (from_records records)) = Some (map (cell_of k) records).
Proof.
  intro H. unfold from_records. cbn [columns].
  apply (assoc_tabulate (fun k => map (cell_of k) records)).
  apply all_labels_from. now right.
Qed.

Lemma assoc_tabulate_inv {V : Type} (f : string -> V) (labels : list string) (k : string)
    (v : V) :
  assoc k (map (fun k => (k, f k)) labels) = Some v -> v = f k.
Proof.
  induction labels as [|k' labels IH]; cbn [map assoc]; [discriminate|].
  destruct (k =? k')%string eqn:E; [|exact IH].
  apply String.eqb_eq in E. subst k'. now intros [= <-].
Qed.

(** A column of the table built from the records holds, record by
    record, the value of its key. *)
Lemma from_records_column_inv (records : list (list (string * string))) (k : string)
    (c : list cell) :
  assoc k (columns (from_records records)) = Some c -> c = map (cell_of k) records.
Proof.
  unfold from_records. cbn [columns].
  apply (assoc_tabulate_inv (fun k => map (cell_of k) records)).
Qed.

Lemma apply_total {St : Type} (f : cell -> St -> outcome cell * St) (cells : list cell) :
  Forall (fun c => forall st, exists c' st', f c st = (Ret c', st')) cells ->
  forall st, exists cells' st', apply f cells st = (Ret cells', st').
Proof.
  induction 1 as [|c cells Hc HF IH]; intro st; [now exists [], st|].
  cbn [apply]. destruct (Hc st) as (c' & st1 & ->).
  destruct (IH st1) as (cells' & st2 & ->). eauto.
Qed.

Lemma has_label_assoc (k : string) (df : DataFrame) (c : list cell) :
  assoc k (columns df) = Some c -> has_label k df = true.
Proof.
  intro H. unfold has_label. apply existsb_exists.
  exists (k, c). split; [now apply assoc_In | apply String.eqb_refl].
Qed.

Lemma assoc_filter_other {V : Type} (keep : string -> bool) (k : string)
    (kv : list (string * V)) :
  keep k = true -> assoc k (filter (fun c => keep (fst c)) kv) = assoc k kv.
Proof.
  intro H. induction kv as [|[k0 v0] kv IH]; [reflexivity|].
  cbn [filter fst assoc]. destruct (k =? k0)%string eqn:E.
  - apply String.eqb_eq in E. subst k0. rewrite H. cbn [assoc]. now rewrite String.eqb_refl.
  - destruct (keep k0); [cbn [assoc]; now rewrite E | exact IH].
Qed.

Lemma in_renamed (mapper : list (string * string)) (df : DataFrame) (k : string)
    (c : list cell) :
  In (k, c) (columns df) ->
  In (match assoc k mapper with Some k' => k' | None => k end, c)
     (columns (rename mapper df)).
Proof.
  intro H. unfold rename. cbn [columns].
  apply (in_map (fun c => (match assoc (fst c) mapper with Some k => k | None => fst c end,
                           snd c))) in H. exact H.
Qed.

Lemma nth_repeat_lt {A : Type} (a d : A) (n i : nat) : (i < n)%nat -> nth i (repeat a n) d = a.
Proof.
  revert i. induction n as [|n IH]; intros i H; [lia|].
  destruct i; cbn; [reflexivity|]. apply IH. lia.
Qed.

(** A column of the table shows in every row. *)
Lemma in_row (df : DataFrame) (k : string) (c : list cell) (i : nat) :
  In (k, c) (columns df) -> In (k, nth i c CNaN) (row df i).
Proof.
  intro H. unfold row.
  apply (in_map (fun c => (fst c, nth i (snd c) CNaN))) in H. exact H.
Qed.

Lemma in_rows (df : DataFrame) (r : list (string * cell)) :
  In r (rows df) -> exists i, (i < nrows df)%nat /\ r = row df i.
Proof.
  unfold rows. intro H. apply in_map_iff in H. destruct H as (i & <- & Hi).
  apply in_seq in Hi. exists i. split; [lia | reflexivity].
Qed.

Lemma rows_length (df : DataFrame) : List.length (rows df) = nrows df.
Proof. unfold rows. now rewrite length_map, length_seq. Qed.

End PandasFacts.

(** ** events/arlington.py *)

Module ArlingtonFacts.
Import Py Bs4 Datetime Arlington PySpec DatetimeSpec ArlingtonSpec ArlingtonSamples.
Import PyFacts DatetimeFacts.

(** *** Date normalization *)

Lemma strptime_raises_ValueError (s : string) (e : exn) :
  strptime s = Raise e -> e = ValueError.
Proof.
  unfold strptime.
  destruct (re_match re_format s) as [|m ms]; [congruence|].
  destruct (rest m); [|congruence].
  destruct (groups m) as [|g1 [|g2 [|g3 [|g4 [|g5 [|g6 [|g7 gs]]]]]]]; try congruence.
  destruct (valid_datetime _); congruence.
Qed.

Lemma digit_zero (c : ascii) : (c =? "0")%char = true -> digit_value c = 0.
Proof. intro H. apply Ascii.eqb_eq in H. now subst. Qed.

(** The leading zeros of a year are those of the date it starts. *)
Lemma strip_zeros_year (a b c e : ascii) (tl : string) :
  1 <= 1000 * digit_value a + 100 * digit_value b + 10 * digit_value c + digit_value e ->
  strip_zeros (String a (String b (String c (String e tl)))) =
  strip_zeros (String a (String b (String c (String e "")))) +++ tl.
Proof.
  intro H. cbn [strip_zeros String.eqb negb andb].
  destruct (a =? "0")%char eqn:Ea; cbn [andb]; [|reflexivity].
  destruct (b =? "0")%char eqn:Eb; cbn [andb]; [|reflexivity].
  destruct (c =? "0")%char eqn:Ec; cbn [andb]; [|reflexivity].
  destruct (e =? "0")%char eqn:Ee; [|rewrite !andb_false_r; reflexivity].
  apply digit_zero in Ea, Eb, Ec, Ee. lia.
Qed.

Section Dates.
Variable pad_year : bool.

Lemma schematize_date_cases (s : string) (w : world) :
  match strptime s with
  | Ret t => schematize_date pad_year (VStr s) w = (Ret (strftime_date pad_year t), w)
  | Raise _ => schematize_date pad_year (VStr s) w = (Ret "", error_logged s w)
  end.
Proof.
  unfold schematize_date. destruct (strptime s) as [t|e] eqn:E; [reflexivity|].
  apply strptime_raises_ValueError in E. subst e. reflexivity.
Qed.

(** C2 (as amended).  On a string of the exact shape
    dddd-dd-ddTdd:dd:dd, [schematize_date] logs an error and returns the
    empty string unless the six numbers form a valid date and time of
    day; when they do it returns the first ten characters, provided the
    year is 1000 or later or the platform pads years to four digits, and
    the first ten characters without their leading zeros otherwise.  On
    every string it returns without raising: the date [strptime] reads,
    formatted anew, when [strptime] accepts the string, and the empty
    string, with an error logged, when [strptime] rejects it. *)
Theorem schematize_date_exact (s : string) (w : world) :
  (exact_format s = true ->
   schematize_date pad_year (VStr s) w =
   if valid_datetime (fields_of s)
   then (Ret (if pad_year || (1000 <=? year (fields_of s))
              then substring 0 10 s
              else strip_zeros (substring 0 10 s)), w)
   else (Ret "", error_logged s w)) /\
  (forall t, strptime s = Ret t ->
             schematize_date pad_year (VStr s) w = (Ret (strftime_date pad_year t), w)) /\
  (forall e, strptime s = Raise e ->
             schematize_date pad_year (VStr s) w = (Ret "", error_logged s w)) /\
  (exists r w', schematize_date pad_year (VStr s) w = (Ret r, w')).
Proof.
  pose proof (schematize_date_cases s w) as C. split; [|split; [|split]].
  - intro H. rewrite (strptime_exact s H) in C.
    destruct (valid_datetime (fields_of s)) eqn:V; [|exact C].
    rewrite C. f_equal. f_equal.
    apply valid_datetime_iff in V. destruct V as (Hy & _). revert Hy.
    destruct (exact_format_inv s H)
      as (y1 & y2 & y3 & y4 & m1 & m2 & d1 & d2 & h1 & h2 & n1 & n2 & s1 & s2 & -> & HD).
    repeat match goal with
           | HD : Forall _ (_ :: _) |- _ =>
               let Hx := fresh "D" in
               apply Forall_cons_iff in HD; destruct HD as [Hx HD]
           end.
    unfold strftime_date, year_text, fields_of. cbn [substring year month day].
    rewrite (int4 y1 y2 y3 y4), (int2 m1 m2), (int2 d1 d2) by assumption.
    rewrite pad4_digits, !pad2_digits by assumption.
    intro Hy. destruct pad_year; [reflexivity|]. cbn [orb].
    destruct (1000 <=? _) eqn:Hk.
    + apply Z.leb_le in Hk.
      destruct (y1 =? "0")%char eqn:E1.
      * apply digit_zero in E1.
        pose proof (digit_char_value y2 D0). pose proof (digit_char_value y3 D1).
        pose proof (digit_char_value y4 D2). lia.
      * cbn [strip_zeros String.append]. rewrite E1. reflexivity.
    + symmetry. etransitivity; [apply strip_zeros_year; lia | reflexivity].
  - intros t Ht. now rewrite Ht in C.
  - intros e He. now rewrite He in C.
  - destruct (strptime s) as [t|e]; eauto.
Qed.

End Dates.

(** A timestamp in the exact format, and the date it is cut down to,
    whether the platform pads years or not. *)
Lemma schematize_date_exact_witness :
  exact_format "2019-01-25T00:00:00" = true /\
  schematize_date false (VStr "2019-01-25T00:00:00") (World [] []) =
    (Ret "2019-01-25", World [] []).
Proof.
  split; [reflexivity|].
  exact (proj1 (schematize_date_exact false "2019-01-25T00:00:00" (World [] [])) eq_refl).
Defined.

(** C2 (as stated) fails: a string that is not in the exact format, for
    its fields are not zero-padded, is accepted by [strptime] and comes
    back as a date instead of the empty string. *)
Lemma schematize_date_lenient :
  exact_format "2019-1-5T0:0:0" = false /\
  schematize_date true (VStr "2019-1-5T0:0:0") (World [] []) =
    (Ret "2019-01-05", World [] []) /\
  schematize_date false (VStr "2019-1-5T0:0:0") (World [] []) =
    (Ret "2019-01-05", World [] []).
Proof. repeat split; reflexivity. Qed.

(** *** The paginated fetch *)

Section Loop.
Variable srv : server.
Variable today : string.

Lemma while_pages_done fuel count data from_param event_items w :
  ~ from_param < count ->
  while_pages srv fuel today (VInt count) data from_param event_items w =
  (Some (Ret event_items), w).
Proof.
  intro H. assert (E : (from_param <? count) = false) by (apply Z.ltb_ge; lia).
  destruct fuel; cbn [while_pages below]; now rewrite E.
Qed.

Lemma while_pages_next fuel count data from_param event_items w :
  from_param < count -> from_param <> 0 ->
  while_pages srv (S fuel) today (VInt count) data from_param event_items w =
  match requests_get srv (EventPage today from_param) w with
  | (Ret r, w') =>
      match (data' <- json r ;; items <- page_items data' ;; Ret (data', items))%py with
      | Ret (data', items) =>
          while_pages srv fuel today (VInt count) data' (from_param + 5)
            (event_items ++ items) w'
      | Raise e => (Some (Raise e), w')
      end
  | (Raise e, w') => (Some (Raise e), w')
  end.
Proof.
  intros H N. cbn [while_pages below].
  apply Z.ltb_lt in H. rewrite H. apply Z.eqb_neq in N. rewrite N.
  destruct (requests_get srv (EventPage today from_param) w) as [[r|e] w']; [|reflexivity].
  unfold page_items. destruct (json r) as [data'|e]; [|reflexivity].
  cbn [bind]. destruct (getitem data' "items") as [v|e]; [|reflexivity].
  cbn [bind]. destruct (iter v); reflexivity.
Qed.

Lemma while_pages_first fuel count data event_items w :
  0 < count ->
  while_pages srv (S fuel) today (VInt count) data 0 event_items w =
  match page_items data with
  | Ret items => while_pages srv fuel today (VInt count) data 5 (event_items ++ items) w
  | Raise e => (Some (Raise e), w)
  end.
Proof.
  intro H. cbn [while_pages below]. apply Z.ltb_lt in H. rewrite H. reflexivity.
Qed.

Lemma page_requests_S (k : nat) :
  page_requests today (S k) = page_requests today k ++ [EventPage today (5 * Z.of_nat k)].
Proof.
  unfold page_requests, offsets. rewrite seq_S, !map_app. reflexivity.
Qed.

(** The loop from request number [i] on, when the server serves
    [pages] one after the other and the offset then reaches [count]:
    one iteration per page is enough. *)
Lemma while_pages_run (w0 : world) (count : Z) (pages : list (list pyval)) :
  forall (fuel i : nat) (data : pyval) (event_items : list pyval),
    (0 < i)%nat ->
    (forall j, (j < List.length pages)%nat -> serves srv today w0 (i + j) (nth j pages [])) ->
    5 * Z.of_nat (i + List.length pages) - 5 < count <= 5 * Z.of_nat (i + List.length pages) ->
    (List.length pages <= fuel)%nat ->
    while_pages srv fuel today (VInt count) data (5 * Z.of_nat i) event_items
      (World (sent w0 ++ page_requests today i) (logged w0)) =
    (Some (Ret (event_items ++ List.concat pages)),
     World (sent w0 ++ page_requests today (i + List.length pages)) (logged w0)).
Proof.
  induction pages as [|p pages IH]; intros fuel i data event_items Hi Hs Hc Hfuel.
  - cbn [List.length] in Hc. rewrite Nat.add_0_r in *.
    rewrite while_pages_done by lia.
    cbn [List.concat]. now rewrite app_nil_r.
  - cbn [List.length] in Hc, Hfuel. destruct fuel as [|fuel]; [lia|].
    rewrite while_pages_next by lia.
    destruct (Hs 0%nat ltac:(cbn; lia)) as (r & data' & Hr & Hj & Hp).
    rewrite Nat.add_0_r in Hr. cbn [nth] in Hp.
    unfold requests_get. cbn [sent logged]. rewrite Hr, Hj. cbn [bind]. rewrite Hp.
    cbn [bind]. rewrite <- app_assoc, <- page_requests_S.
    replace (5 * Z.of_nat i + 5) with (5 * Z.of_nat (S i)) by lia.
    rewrite IH.
    + cbn [List.concat]. rewrite app_assoc.
      replace (S i + List.length pages)%nat with (i + S (List.length pages))%nat by lia.
      reflexivity.
    + lia.
    + intros j Hjlt. specialize (Hs (S j) ltac:(cbn; lia)).
      replace (S i + j)%nat with (i + S j)%nat by lia. exact Hs.
    + replace (S i + List.length pages)%nat with (i + S (List.length pages))%nat by lia.
      exact Hc.
    + lia.
Qed.

(** The same loop when, after [pages], the next request is still below
    [count] and fails. *)
Lemma while_pages_abort (w0 : world) (count : Z) (e : exn) (pages : list (list pyval)) :
  forall (fuel i : nat) (data : pyval) (event_items : list pyval),
    (0 < i)%nat ->
    (forall j, (j < List.length pages)%nat -> serves srv today w0 (i + j) (nth j pages [])) ->
    5 * Z.of_nat (i + List.length pages) < count ->
    fails srv today w0 (i + List.length pages) e ->
    (List.length pages < fuel)%nat ->
    while_pages srv fuel today (VInt count) data (5 * Z.of_nat i) event_items
      (World (sent w0 ++ page_requests today i) (logged w0)) =
    (Some (Raise e),
     World (sent w0 ++ page_requests today (S (i + List.length pages))) (logged w0)).
Proof.
  induction pages as [|p pages IH]; intros fuel i data event_items Hi Hs Hc Hf Hfuel.
  - cbn [List.length] in *. rewrite Nat.add_0_r in *.
    destruct fuel as [|fuel]; [lia|].
    rewrite while_pages_next by lia.
    unfold requests_get. cbn [sent logged]. unfold fails in Hf. rewrite Hf.
    now rewrite <- app_assoc, <- page_requests_S.
  - cbn [List.length] in Hc, Hf, Hfuel. destruct fuel as [|fuel]; [lia|].
    rewrite while_pages_next by lia.
    destruct (Hs 0%nat ltac:(cbn; lia)) as (r & data' & Hr & Hj & Hp).
    rewrite Nat.add_0_r in Hr. cbn [nth] in Hp.
    unfold requests_get. cbn [sent logged]. rewrite Hr, Hj. cbn [bind]. rewrite Hp.
    cbn [bind]. rewrite <- app_assoc, <- page_requests_S.
    replace (5 * Z.of_nat i + 5) with (5 * Z.of_nat (S i)) by lia.
    rewrite IH.
    + replace (S i + List.length pages)%nat with (i + S (List.length pages))%nat by lia.
      reflexivity.
    + lia.
    + intros j Hjlt. specialize (Hs (S j) ltac:(cbn; lia)).
      replace (S i + j)%nat with (i + S j)%nat by lia. exact Hs.
    + replace (S i + List.length pages)%nat with (i + S (List.length pages))%nat by lia.
      exact Hc.
    + replace (S i + List.length pages)%nat with (i + S (List.length pages))%nat by lia.
      exact Hf.
    + lia.
Qed.

Lemma page_count_bounds (n : Z) :
  0 < n -> 5 * Z.of_nat (page_count n) - 5 < n <= 5 * Z.of_nat (page_count n).
Proof.
  intro H. unfold page_count.
  rewrite Z2Nat.id by lia.
  pose proof (Z.div_mod (n + 4) 5 ltac:(lia)).
  pose proof (Z.mod_pos_bound (n + 4) 5 ltac:(lia)).
  lia.
Qed.

Lemma page_count_nonpos (n : Z) : n <= 0 -> page_count n = 1%nat.
Proof.
  intro H. unfold page_count.
  pose proof (Z.div_mod (n + 4) 5 ltac:(lia)).
  pose proof (Z.mod_pos_bound (n + 4) 5 ltac:(lia)).
  replace (Z.max 1 ((n + 4) / 5)) with 1 by lia. reflexivity.
Qed.

(** C1 (as amended).  When the first answer reports [n] and the server
    serves [pages], one page per request, [get_arlington_events] sends
    the requests of offsets 0, 5, 10, ... -- the first one, then one per
    further multiple of 5 below [n] -- and nothing else.  For a positive
    [n] it returns the items of all pages in request order; for an [n]
    that is not positive it returns the empty list, whatever the first
    page holds.  It returns as soon as the loop is given one iteration
    per request. *)
Theorem get_arlington_events_pages (w : world) (n : Z) (pages : list (list pyval))
    (fuel : nat) :
  reports srv today w n ->
  List.length pages = page_count n ->
  (forall j, (j < List.length pages)%nat -> serves srv today w j (nth j pages [])) ->
  (page_count n <= fuel)%nat ->
  get_arlington_events srv fuel today w =
  (Some (Ret (VList (if 0 <? n then List.concat pages else []))),
   World (sent w ++ page_requests today (page_count n)) (logged w)).
Proof.
  intros (r & data & Hr & Hj & Hc) Hlen Hs Hfuel.
  destruct pages as [|p0 pages].
  { unfold page_count in Hlen. cbn in Hlen. lia. }
  destruct (Hs 0%nat ltac:(cbn; lia)) as (r' & data' & Hr' & Hj' & Hp).
  cbn [page_requests offsets seq map nth] in Hr', Hp. rewrite app_nil_r in Hr'.
  change (5 * Z.of_nat 0) with 0 in Hr'.
  rewrite Hr in Hr'. injection Hr' as <-. rewrite Hj in Hj'. injection Hj' as <-.
  unfold get_arlington_events, requests_get. rewrite Hr.
  rewrite Hj. cbn [bind]. rewrite Hc. cbn [bind].
  destruct (0 <? n) eqn:Hn.
  - apply Z.ltb_lt in Hn.
    rewrite <- Hlen in Hfuel. cbn [List.length] in Hfuel.
    destruct fuel as [|fuel]; [lia|].
    rewrite while_pages_first by lia. rewrite Hp. cbn [app].
    pose proof (page_count_bounds n Hn) as Hb. rewrite <- Hlen in Hb |- *.
    cbn [List.length] in Hb.
    pose proof (while_pages_run w n pages fuel 1 data p0 ltac:(lia)) as Hrun.
    cbn [page_requests offsets seq map] in Hrun.
    change (5 * Z.of_nat 0) with 0 in Hrun. change (5 * Z.of_nat 1) with 5 in Hrun.
    rewrite Hrun.
    + reflexivity.
    + intros j Hjlt. exact (Hs (S j) ltac:(cbn; lia)).
    + replace (1 + List.length pages)%nat with (S (List.length pages)) by lia. exact Hb.
    + lia.
  - apply Z.ltb_ge in Hn.
    rewrite while_pages_done by lia.
    rewrite page_count_nonpos by lia. reflexivity.
Qed.

(** C3.  A failure of the first request is caught: it is logged as
    critical and the function returns [None] without raising.  A failure
    of any later request of the pagination loop is not caught: it
    propagates out of the function, as soon as the loop is given the
    iterations that lead to the request. *)
Theorem get_arlington_events_failures (w : world) :
  (forall fuel e,
     srv (sent w) (EventPage today 0) = Raise e ->
     get_arlington_events srv fuel today w =
     (Some (Ret VNone),
      World (sent w ++ [EventPage today 0])
            (logged w ++ [Critical (EventPage today 0) e]))) /\
  (forall fuel n pages e,
     reports srv today w n ->
     (0 < List.length pages)%nat ->
     (forall j, (j < List.length pages)%nat -> serves srv today w j (nth j pages [])) ->
     5 * Z.of_nat (List.length pages) < n ->
     fails srv today w (List.length pages) e ->
     (List.length pages < fuel)%nat ->
     get_arlington_events srv fuel today w =
     (Some (Raise e),
      World (sent w ++ page_requests today (S (List.length pages))) (logged w))).
Proof.
  split.
  - intros fuel e He. unfold get_arlington_events, requests_get. rewrite He. reflexivity.
  - intros fuel n pages e (r & data & Hr & Hj & Hc) Hpos Hs Hlt Hf Hfuel.
    destruct pages as [|p0 pages]; [cbn in Hpos; lia|].
    destruct (Hs 0%nat ltac:(cbn; lia)) as (r' & data' & Hr' & Hj' & Hp).
    cbn [page_requests offsets seq map nth] in Hr', Hp. rewrite app_nil_r in Hr'.
    change (5 * Z.of_nat 0) with 0 in Hr'.
    rewrite Hr in Hr'. injection Hr' as <-. rewrite Hj in Hj'. injection Hj' as <-.
    unfold get_arlington_events, requests_get. rewrite Hr.
    rewrite Hj. cbn [bind]. rewrite Hc. cbn [bind].
    cbn [List.length] in Hlt, Hf, Hfuel.
    destruct fuel as [|fuel]; [lia|].
    rewrite while_pages_first by lia. rewrite Hp. cbn [app].
    pose proof (while_pages_abort w n e pages fuel 1 data p0 ltac:(lia)) as Hrun.
    cbn [page_requests offsets seq map] in Hrun.
    change (5 * Z.of_nat 0) with 0 in Hrun. change (5 * Z.of_nat 1) with 5 in Hrun.
    rewrite Hrun.
    + reflexivity.
    + intros j Hjlt. exact (Hs (S j) ltac:(cbn; lia)).
    + replace (1 + List.length pages)%nat with (S (List.length pages)) by lia. exact Hlt.
    + replace (1 + List.length pages)%nat with (S (List.length pages)) by lia. exact Hf.
    + lia.
Qed.

End Loop.

(** The mocked API of the spec: three requests, at offsets 0, 5 and 10,
    and the twelve items in order. *)
Lemma get_arlington_events_pages_witness :
  get_arlington_events mock12 3 "2026-11-04" (World [] []) =
  (Some (Ret (VList (map VInt [1; 2; 3; 4; 5; 6; 7; 8; 9; 10; 11; 12]))),
   World [EventPage "2026-11-04" 0; EventPage "2026-11-04" 5; EventPage "2026-11-04" 10] []).
Proof.
  refine (get_arlington_events_pages mock12 "2026-11-04" (World [] []) 12
            [map VInt [1; 2; 3; 4; 5]; map VInt [6; 7; 8; 9; 10]; map VInt [11; 12]] 3
            _ eq_refl _ (le_n 3)).
  - eexists. eexists. repeat split; reflexivity.
  - intros j Hj. destruct j as [|[|[|j]]];
      [eexists; eexists; repeat split; reflexivity .. | cbn in Hj; lia].
Defined.

(** C1 (as stated) fails: the answer to the only request carries an
    item, and the function returns no item, however many iterations the
    loop is given. *)
Lemma get_arlington_events_drops_page :
  (r <- mock0 [] (EventPage "2026-11-04" 0) ;; data <- json r ;; page_items data)%py
    = Ret [VStr "event"] /\
  forall fuel,
    get_arlington_events mock0 fuel "2026-11-04" (World [] []) =
    (Some (Ret (VList [])), World [EventPage "2026-11-04" 0] []).
Proof. split; [reflexivity|]. intros [|fuel]; reflexivity. Qed.

(** Both policies at work: the failure of the first request ends in
    [None] and a critical record, that of the second one in the
    exception itself. *)
Lemma get_arlington_events_failures_witness :
  get_arlington_events mock_dead 2 "2026-11-04" (World [] []) =
  (Some (Ret VNone),
   World [EventPage "2026-11-04" 0]
         [Critical (EventPage "2026-11-04" 0) (RequestException "no route to host")]) /\
  get_arlington_events mock_down 2 "2026-11-04" (World [] []) =
  (Some (Raise (RequestException "connection reset")),
   World [EventPage "2026-11-04" 0; EventPage "2026-11-04" 5] []).
Proof.
  split.
  - exact (proj1 (get_arlington_events_failures mock_dead "2026-11-04" (World [] []))
             2%nat (RequestException "no route to host") eq_refl).
  - refine (proj2 (get_arlington_events_failures mock_down "2026-11-04" (World [] []))
              2%nat 12 [map VInt [1; 2; 3; 4; 5]] (RequestException "connection reset")
              _ _ _ _ _ _).
    + eexists. eexists. repeat split; reflexivity.
    + cbn. lia.
    + intros j Hj. destruct j as [|j];
        [eexists; eexists; repeat split; reflexivity | cbn in Hj; lia].
    + cbn. lia.
    + reflexivity.
    + cbn. lia.
Defined.

(** With [None] for its list of items, [main] then fails in
    [schematize_events]: [None] cannot be iterated. *)
Lemma main_after_failed_first_request (html_parser : string -> Bs4.node)
    (srv : server) (pad_year : bool) (fuel : nat) (today : string) (w : world) (e : exn) :
  srv (sent w) (EventPage today 0) = Raise e ->
  fst (main html_parser srv pad_year fuel today w) = Some (Raise TypeError).
Proof.
  intro He. unfold main, get_arlington_events, requests_get.
  rewrite He. reflexivity.
Qed.

Lemma main_after_failed_first_request_witness :
  fst (main text_parser mock_dead true 1 "2026-11-04" (World [] [])) = Some (Raise TypeError).
Proof.
  exact (main_after_failed_first_request text_parser mock_dead true 1 "2026-11-04"
           (World [] []) (RequestException "no route to host") eq_refl).
Defined.

(** *** Event names *)

Lemma text_parser_plain : parses_plain_text text_parser.
Proof.
  intros s _. unfold text_parser. destruct (s =? "")%string eqn:E.
  - apply String.eqb_eq in E. subst. split; reflexivity.
  - split; [reflexivity|]. cbn. now rewrite append_nil_r.
Qed.

Section Names.
Variable html_parser : string -> node.

Lemma html_textraction_normal (v : pyval) (t : string) :
  html_textraction html_parser v = Ret t -> normal t.
Proof.
  unfold html_textraction. destruct (negb (truthy v)).
  - intro H. injection H as <-. repeat split; reflexivity.
  - destruct v; try discriminate.
    destruct (find_all "p" (html_parser s)); intro H; injection H as <-;
      apply sub_spaces_strip_normal.
Qed.

Lemma html_textraction_plain (t : string) :
  parses_plain_text html_parser -> markup_free t -> t <> "" -> normal t ->
  html_textraction html_parser (VStr t) = Ret t.
Proof.
  intros Hp Hm Hne Hn. unfold html_textraction. cbn [truthy].
  destruct (t =? "")%string eqn:E; [apply String.eqb_eq in E; contradiction|].
  cbn [negb]. destruct (Hp t Hm) as [-> ->].
  destruct (normal_fixed t " " Hn) as [-> ->]. reflexivity.
Qed.

(** A fragment whose paragraphs all carry "Activity #" gives the empty
    string. *)
Lemma html_textraction_activity_only (html : string) :
  html <> "" ->
  find_all "p" (html_parser html) <> [] ->
  Forall (fun p => str_in "Activity #" (get_text p) = true) (find_all "p" (html_parser html)) ->
  html_textraction html_parser (VStr html) = Ret "".
Proof.
  intros Hne Hp Hall. unfold html_textraction. cbn [truthy].
  destruct (html =? "")%string eqn:E; [apply String.eqb_eq in E; contradiction|].
  cbn [negb]. destruct (find_all "p" (html_parser html)) as [|p ps]; [contradiction|].
  assert (Hfold : forall l acc,
             Forall (fun p => str_in "Activity #" (get_text p) = true) l ->
             fold_left
               (fun text p =>
                  let p_text := get_text p in
                  if negb (str_in "Activity #" p_text) then text +++ p_text +++ " " else text)
               l acc = acc).
  { induction l as [|q l IH]; intros acc HF; [reflexivity|].
    inversion HF as [|? ? Hq HF']; subst. cbn [fold_left]. cbv zeta. rewrite Hq. cbn [negb].
    now apply IH. }
  rewrite Hfold by exact Hall. reflexivity.
Qed.

(** A fragment without paragraph gives its whole text, stripped and
    with its runs of spaces collapsed. *)
Lemma html_textraction_no_paragraph (html : string) :
  html <> "" ->
  find_all "p" (html_parser html) = [] ->
  html_textraction html_parser (VStr html) =
  Ret (re_sub_spaces " " (strip (get_text (html_parser html)))).
Proof.
  intros Hne Hp. unfold html_textraction. cbn [truthy].
  destruct (html =? "")%string eqn:E; [apply String.eqb_eq in E; contradiction|].
  cbn [negb]. now rewrite Hp.
Qed.

Lemma parse_event_name_normal (s t : string) :
  parse_event_name html_parser (VStr s) = Ret t -> normal t.
Proof.
  unfold parse_event_name.
  destruct (str_in "RIP" s || str_in "RiP" s || str_in "Invasive Plant Removal" s);
    [destruct (str_in "Invasive Plant Removal" s)|]; apply html_textraction_normal.
Qed.

(** C6 (as amended).  [parse_event_name] leaves its own output
    unchanged whenever that output is settled: one more pass over a
    non-empty, markup-free name without abbreviation returns it as it
    is. *)
Theorem parse_event_name_settled (s t : string) :
  parses_plain_text html_parser ->
  parse_event_name html_parser (VStr s) = Ret t ->
  settled t ->
  parse_event_name html_parser (VStr t) = Ret t.
Proof.
  intros Hp Hs (Hne & Hm & HRIP & HRiP & HIPR).
  pose proof (parse_event_name_normal s t Hs) as Hn.
  unfold parse_event_name. rewrite HRIP, HRiP. cbn [orb].
  destruct (str_in "Invasive Plant Removal" t) eqn:E.
  - destruct (HIPR eq_refl) as [Hdash Hascii].
    rewrite Hascii.
    destruct (normal_fixed t "" Hn) as [_ ->].
    rewrite (replace_absent "RiP" "" t HRiP), (replace_absent " - " "" t Hdash),
      (replace_absent "RIP" "" t HRIP).
    destruct (normal_fixed t " " Hn) as [Hstrip ->]. rewrite Hstrip.
    now apply html_textraction_plain.
  - now apply html_textraction_plain.
Qed.

(** Whatever the parser does with markup: on "RRIPIP" the second pass
    undoes part of the first. *)
Lemma parse_event_name_twice :
  parses_plain_text html_parser ->
  parse_event_name html_parser (VStr "RRIPIP") = Ret "RIP Invasive Plant Removal" /\
  parse_event_name html_parser (VStr "RIP Invasive Plant Removal") =
    Ret "Invasive Plant Removal".
Proof.
  intro Hp. split.
  - change (parse_event_name html_parser (VStr "RRIPIP"))
      with (html_textraction html_parser (VStr "RIP Invasive Plant Removal")).
    apply html_textraction_plain; trivial; try discriminate; repeat split; reflexivity.
  - change (parse_event_name html_parser (VStr "RIP Invasive Plant Removal"))
      with (html_textraction html_parser (VStr "Invasive Plant Removal")).
    apply html_textraction_plain; trivial; try discriminate; repeat split; reflexivity.
Qed.

End Names.

Lemma html_textraction_activity_only_witness :
  html_textraction activity_parser (VStr "<p>Activity # 720042-B</p>") = Ret "".
Proof.
  apply (html_textraction_activity_only activity_parser "<p>Activity # 720042-B</p>").
  - discriminate.
  - discriminate.
  - repeat constructor.
Defined.

Lemma html_textraction_no_paragraph_witness :
  html_textraction text_parser (VStr "  Gulf  Branch   Nature Center ") =
  Ret "Gulf Branch Nature Center".
Proof.
  apply (html_textraction_no_paragraph text_parser "  Gulf  Branch   Nature Center ").
  - discriminate.
  - reflexivity.
Defined.

(** A name with an abbreviation: the first pass settles it. *)
Lemma parse_event_name_settled_witness :
  parse_event_name text_parser (VStr "RiP - Lacey Woods") =
    Ret "Lacey Woods Invasive Plant Removal" /\
  parse_event_name text_parser (VStr "Lacey Woods Invasive Plant Removal") =
    Ret "Lacey Woods Invasive Plant Removal".
Proof.
  split; [reflexivity|].
  refine (parse_event_name_settled text_parser "RiP - Lacey Woods" _
            text_parser_plain eq_refl _).
  repeat split; try reflexivity. discriminate.
Defined.

(** C6 (as stated) fails: removing "RIP" from "RRIPIP" leaves "RIP"
    behind, which the second pass removes; and a blank name becomes the
    empty string, which the second pass replaces by the fallback
    text. *)
Lemma parse_event_name_not_idempotent :
  (parse_event_name text_parser (VStr "RRIPIP") = Ret "RIP Invasive Plant Removal" /\
   parse_event_name text_parser (VStr "RIP Invasive Plant Removal") =
     Ret "Invasive Plant Removal") /\
  (parse_event_name text_parser (VStr " ") = Ret "" /\
   parse_event_name text_parser (VStr "") = Ret "See event website.").
Proof. repeat split; reflexivity. Qed.

(** *** The schema mapper *)

Section Schema.
Variable html_parser : string -> node.
Variable srv : server.
Variable pad_year : bool.

(** What a run of the loop body that does not raise has done. *)
Lemma schematize_event_inv (event_item : pyval) (w w' : world) (r : option event) :
  schematize_event html_parser srv pad_year event_item w = (Ret r, w') ->
  exists item name,
    getitem event_item "vwEventWithLocation" = Ret item /\
    normalized_name html_parser item = Ret name /\
    if name_excluded name then r = None
    else
      exists venue, normalized_venue html_parser item = Ret venue /\
      if venue_excluded venue then r = None
      else
        exists ev cost,
          r = Some ev /\
          assoc "Event Name" ev = Some (VStr name) /\
          assoc "Event Venue Name" ev = Some (VStr venue) /\
          assoc "Event Cost" ev = Some (VStr cost) /\
          cost_rule item cost.
Proof.
  unfold schematize_event, bind_io, lift. intro H.
  destruct (getitem event_item "vwEventWithLocation") as [item|] eqn:Eitem;
    [|discriminate H].
  exists item. unfold normalized_name, normalized_venue, name_excluded, venue_excluded.
  destruct (getitem item "eventName") as [vname|]; [|discriminate H]. cbn [bind] in H |- *.
  destruct (parse_event_name html_parser vname) as [name|]; [|discriminate H].
  exists name. do 2 (split; [reflexivity|]).
  destruct (str_in "Task Force" name || str_in "Forestry Commission" name).
  { cbv beta delta [ret] in H. now inversion H. }
  destruct (getitem item "eventDsc") as [vdsc|]; [|discriminate H]. cbn [bind] in H.
  destruct (html_textraction html_parser vdsc) as [dsc|]; [|discriminate H].
  destruct (getitem item "eventStartDate") as [d1|]; [|discriminate H].
  destruct (schematize_date pad_year d1 w) as [[start_date|] w1]; [|discriminate H].
  destruct (getitem item "eventEndDate") as [d2|]; [|discriminate H].
  destruct (schematize_date pad_year d2 w1) as [[end_date|] w2]; [|discriminate H].
  destruct (getitem item "eventStartTime") as [start_time|]; [|discriminate H].
  destruct (getitem item "eventEndTime") as [end_time|]; [|discriminate H].
  destruct (getitem item "eventUrlText") as [website|]; [|discriminate H].
  destruct (getitem item "freeOfChargeInd") as [free|] eqn:Efree; [|discriminate H].
  match type of H with
  | match ?c with _ => _ end = _ => destruct c as [[cost|] w3] eqn:Ecost; [|discriminate H]
  end.
  destruct (getitem item "locationName") as [vloc|]; [|discriminate H]. cbn [bind] in H |- *.
  destruct (html_textraction html_parser vloc) as [venue|]; [|discriminate H].
  exists venue. split; [reflexivity|].
  destruct ((venue =? "Earth Products Yard")%string || str_in "Library" venue
            || (venue =? "")%string) eqn:Ev.
  { cbv beta delta [ret] in H. now inversion H. }
  match type of H with
  | match ?c with _ => _ end = _ => destruct c as [[site|] w4]; [|discriminate H]
  end.
  cbv beta delta [ret] in H. injection H as <- _.
  assert (Hv : (venue =? "")%string = false).
  { apply orb_false_elim in Ev. apply Ev. }
  rewrite Hv.
  eexists. exists cost. split; [reflexivity|].
  do 3 (split; [reflexivity|]).
  exists free. split; [first [exact Efree | reflexivity]|].
  destruct (truthy free) eqn:Tf.
  - cbv beta delta [ret] in Ecost. injection Ecost as <- _. split; [reflexivity | discriminate].
  - split; [discriminate|]. intros _.
    destruct (getitem item "eventCostDsc") as [desc|] eqn:Edesc; [|discriminate Ecost].
    exists desc. split; [first [exact Edesc | reflexivity]|].
    destruct (truthy desc) eqn:Td.
    + split; [|discriminate]. intros s -> _. cbn in Ecost. congruence.
    + cbv beta delta [ret] in Ecost. injection Ecost as <- _. split; [|reflexivity].
      intros s -> Hs. cbn in Td. apply negb_false_iff, String.eqb_eq in Td. contradiction.
Qed.

(** The loop appends, in order, what its body yields item by item. *)
Lemma schematize_loop_trace (event_items : list pyval) :
  forall (events : list event) (w w' : world) (out : list event),
    schematize_loop html_parser srv pad_year event_items events w = (Ret out, w') ->
    exists rs,
      Forall2 (fun event_item r =>
                 exists w1 w2,
                   schematize_event html_parser srv pad_year event_item w1 = (Ret r, w2))
              event_items rs /\
      out = events ++ emitted rs.
Proof.
  induction event_items as [|event_item rest IH]; intros events w w' out H.
  - cbn in H. injection H as <- _. exists []. split; [constructor|].
    cbn. now rewrite app_nil_r.
  - cbn [schematize_loop] in H. unfold bind_io in H.
    destruct (schematize_event html_parser srv pad_year event_item w) as [[r|] w1] eqn:E;
      [|discriminate H].
    destruct r as [ev|]; apply IH in H; destruct H as (rs & HF & ->).
    + exists (Some ev :: rs). split; [constructor; eauto|].
      cbn. now rewrite <- app_assoc.
    + exists (None :: rs). split; [constructor; eauto|]. reflexivity.
Qed.

(** C7.  Of the items passed to [schematize_events], each one is either
    skipped or turned into one record, the records are emitted in the
    order of the items, and the Event Cost of a record follows the cost
    rule of its item: "0" when the free-of-charge flag is set; else the
    digit characters of a non-empty cost description, in order; else the
    empty string. *)
Theorem schematize_events_cost (event_items : list pyval) (w w' : world)
    (events : list event) :
  schematize_events html_parser srv pad_year (VList event_items) w = (Ret events, w') ->
  exists rs,
    events = emitted rs /\
    Forall2 (fun event_item r =>
               forall ev, r = Some ev ->
                 exists item cost,
                   getitem event_item "vwEventWithLocation" = Ret item /\
                   assoc "Event Cost" ev = Some (VStr cost) /\
                   cost_rule item cost)
            event_items rs.
Proof.
  unfold schematize_events, bind_io, lift. cbn [iter]. intro H.
  apply schematize_loop_trace in H. destruct H as (rs & HF & ->).
  exists rs. split; [reflexivity|].
  induction HF as [|event_item r items rs' (w1 & w2 & Hr) HF IH]; constructor; [|exact IH].
  intros ev ->. apply schematize_event_inv in Hr.
  destruct Hr as (item & name & Hitem & _ & Hr).
  destruct (name_excluded name); [discriminate Hr|].
  destruct Hr as (venue & _ & Hr).
  destruct (venue_excluded venue); [discriminate Hr|].
  destruct Hr as (ev' & cost & Hev & _ & _ & Hcost & Hrule).
  injection Hev as <-. eauto.
Qed.

(** C8.  An item passed to [schematize_events] is skipped exactly when
    it is excluded: its normalized name contains "Task Force" or
    "Forestry Commission", or its normalized venue is "Earth Products
    Yard", contains "Library" or is empty.  The records emitted are
    those of the other items, in order. *)
Theorem schematize_events_exclusions (event_items : list pyval) (w w' : world)
    (events : list event) :
  schematize_events html_parser srv pad_year (VList event_items) w = (Ret events, w') ->
  exists rs,
    events = emitted rs /\
    Forall2 (fun event_item r =>
               exists item,
                 getitem event_item "vwEventWithLocation" = Ret item /\
                 (r = None <-> excluded html_parser item))
            event_items rs.
Proof.
  unfold schematize_events, bind_io, lift. cbn [iter]. intro H.
  apply schematize_loop_trace in H. destruct H as (rs & HF & ->).
  exists rs. split; [reflexivity|].
  induction HF as [|event_item r items rs' (w1 & w2 & Hr) HF IH]; constructor; [|exact IH].
  apply schematize_event_inv in Hr.
  destruct Hr as (item & name & Hitem & Hname & Hr).
  exists item. split; [exact Hitem|]. unfold excluded.
  destruct (name_excluded name) eqn:En.
  - split; [|intros _; exact Hr]. intros _. left. eauto.
  - destruct Hr as (venue & Hvenue & Hr).
    destruct (venue_excluded venue) eqn:Ev.
    + split; [|intros _; exact Hr]. intros _. right. eauto.
    + destruct Hr as (ev & cost & -> & _). split; [discriminate|].
      intros [(name' & Hn' & Hx) | (venue' & Hv' & Hx)]; congruence.
Qed.

End Schema.

(** The three costs of the rule, on three items. *)
Lemma schematize_events_cost_witness :
  schematize_events text_parser offline true (VList priced_items) (World [] []) =
    (Ret priced_events, World [] []) /\
  exists rs,
    priced_events = emitted rs /\
    Forall2 (fun event_item r =>
               forall ev, r = Some ev ->
                 exists item cost,
                   getitem event_item "vwEventWithLocation" = Ret item /\
                   assoc "Event Cost" ev = Some (VStr cost) /\
                   cost_rule item cost)
            priced_items rs.
Proof.
  split; [reflexivity|].
  exact (schematize_events_cost text_parser offline true priced_items (World [] []) (World [] [])
           priced_events eq_refl).
Defined.

(** The library event of the spec is dropped, and so is the commission
    meeting; the walk is kept. *)
Lemma schematize_events_exclusions_witness :
  schematize_events text_parser offline true (VList mixed_items) (World [] []) =
    (Ret mixed_events, World [] []) /\
  exists rs,
    mixed_events = emitted rs /\
    Forall2 (fun event_item r =>
               exists item,
                 getitem event_item "vwEventWithLocation" = Ret item /\
                 (r = None <-> excluded text_parser item))
            mixed_items rs.
Proof.
  split; [reflexivity|].
  exact (schematize_events_exclusions text_parser offline true mixed_items (World [] [])
           (World [] []) mixed_events eq_refl).
Defined.

End ArlingtonFacts.

(** ** events/patc.py *)

Module PatcFacts.
Import Py Bs4 Datetime Pandas Patc PatcSpec PatcSamples.
Import PyFacts PandasFacts.

(** *** The crawl *)

Section Crawl.
Variable site : web.
Variable parse : datetime -> string -> outcome datetime.
Variable now : nat -> datetime.

Lemma visit_anchor (records : list (list (string * string))) (event : node) :
  visit site records event =
  let event_link := match attrs_get "href" event with Some h => h | None => "" end in
  if str_in "calendar.aspx" event_link
  then visit_link site records (posixpath_join "Custom" (posixpath_tail event_link))
  else Ret records.
Proof. reflexivity. Qed.

Lemma visit_links (events : node) (records : list (list (string * string))) :
  for_each (visit site) (find_all "a" events) records =
  for_each (visit_link site) (detail_links events) records.
Proof.
  unfold detail_links. revert records.
  induction (find_all "a" events) as [|a anchors IH]; intro records; [reflexivity|].
  cbn [for_each flat_map]. rewrite visit_anchor. cbv zeta.
  destruct (str_in "calendar.aspx" _).
  - cbn [app for_each]. destruct (visit_link site records _); [apply IH | reflexivity].
  - cbn [bind app]. apply IH.
Qed.

Lemma item_m1_cons {A : Type} (x : A) (xs : list A) : exists y, item_m1 (x :: xs) = Ret y.
Proof.
  unfold item_m1. destruct (rev (x :: xs)) as [|y ys] eqn:E; [|eauto].
  apply (f_equal (@List.length A)) in E. rewrite length_rev in E. discriminate E.
Qed.

(** A malformed detail page yields nothing, and no exception. *)
Lemma find_event_data_malformed (link : string) (doc : node) :
  make_request_content site link = Ret doc -> malformed doc ->
  find_event_data site link = Ret None.
Proof.
  intros Hdoc [Hth | Hp]; unfold find_event_data; rewrite Hdoc; cbn [bind].
  - rewrite Hth. reflexivity.
  - destruct (find_all "th" doc) as [|th ths]; [reflexivity|].
    destruct (item_m1_cons th ths) as [y ->]. cbn [bind]. rewrite Hp. reflexivity.
Qed.

Lemma well_formed_record (link : string) :
  well_formed site parse now link -> record_of site link <> [].
Proof.
  intros (_ & sd & st & H & _). destruct (record_of site link); [discriminate H|].
  discriminate.
Qed.

Lemma crawl_well_formed (links : list string) :
  Forall (well_formed site parse now) links ->
  forall records,
    for_each (visit_link site) links records = Ret (records ++ map (record_of site) links).
Proof.
  induction 1 as [|link links Hw HF IH]; intro records.
  - cbn. now rewrite app_nil_r.
  - cbn [for_each map]. unfold visit_link at 1.
    pose proof (well_formed_record link Hw) as Hne. destruct Hw as (-> & _).
    cbn [bind]. destruct (record_of site link) as [|kv r] eqn:E; [contradiction|].
    cbn [bind]. rewrite IH. now rewrite <- app_assoc.
Qed.

(** The crawl skips a page that yields nothing and goes on. *)
Lemma crawl_skips (l1 l2 : list string) (bad : string) :
  Forall (well_formed site parse now) l1 -> Forall (well_formed site parse now) l2 ->
  find_event_data site bad = Ret None ->
  for_each (visit_link site) (l1 ++ bad :: l2) [] = Ret (map (record_of site) (l1 ++ l2)).
Proof.
  intros H1 H2 Hbad. rewrite for_each_app, crawl_well_formed by assumption.
  cbn [bind for_each app]. unfold visit_link at 1. rewrite Hbad. cbn [bind].
  rewrite crawl_well_formed by assumption. now rewrite map_app.
Qed.

End Crawl.


(** *** The table *)

Ltac eval_eqb :=
  repeat match goal with
         | |- context [String.eqb ?a ?b] =>
             let r := eval vm_compute in (String.eqb a b) in
             change (String.eqb a b) with r
         end;
  cbv iota.

Ltac assoc_set :=
  repeat (rewrite assoc_dict_set; eval_eqb).

Section Table.
Variable parse : datetime -> string -> outcome datetime.
Variable now : nat -> datetime.

Lemma with_defaults_nrows (df : DataFrame) : nrows (with_defaults df) = nrows df.
Proof. reflexivity. Qed.

(** A label [assign] does not write keeps its column. *)
Lemma with_defaults_other (df : DataFrame) (k : string) :
  assoc k assigned = None ->
  assoc k (columns (with_defaults df)) = assoc k (columns df).
Proof.
  intro H. unfold with_defaults, assign, set_column. cbn [columns nrows].
  cbn [assigned assoc] in H.
  repeat match type of H with
         | (if ?c then _ else _) = None => destruct c eqn:?; [discriminate H|]
         end.
  rewrite !assoc_dict_set.
  repeat match goal with E : (_ =? _)%string = false |- _ => rewrite E; clear E end.
  reflexivity.
Qed.

(** A label [assign] writes holds its value in every row. *)
Lemma with_defaults_assigned (df : DataFrame) (k : string) (v : cell) :
  In (k, v) assigned ->
  assoc k (columns (with_defaults df)) = Some (repeat v (nrows df)).
Proof.
  intro H. unfold with_defaults, assign, set_column. cbn [columns nrows].
  cbn [assigned In] in H.
  repeat (destruct H as [H | H]; [injection H as <- <-; assoc_set; reflexivity|]).
  contradiction.
Qed.

(** Every conversion reads the clock once. *)
Lemma to_date_reads (x : cell) (n : nat) : snd (to_date parse now x n) = S n.
Proof.
  unfold to_date, bind_timed, parse_cell, ret_timed.
  destruct x as [s| | | |]; try reflexivity. now destruct (parse _ s).
Qed.

Lemma to_time_reads (x : cell) (n : nat) : snd (to_time parse now x n) = S n.
Proof.
  unfold to_time, bind_timed, parse_cell, ret_timed.
  destruct x as [s| | | |]; try reflexivity. now destruct (parse _ s).
Qed.

(** The three passes of [format_df_time_columns], one after the other:
    the start dates, the start times, and the start dates again. *)
Lemma format_df_time_columns_passes (df : DataFrame) (n : nat) :
  format_df_time_columns parse now df n =
  match assoc "Start Date" (columns df) with
  | None => (Raise KeyError, n)
  | Some sd =>
      match apply (to_date parse now) sd n with
      | (Raise e, n1) => (Raise e, n1)
      | (Ret dates, n1) =>
          match assoc "Start Time" (columns df) with
          | None => (Raise KeyError, n1)
          | Some st =>
              match apply (to_time parse now) st n1 with
              | (Raise e, n2) => (Raise e, n2)
              | (Ret times, n2) =>
                  match apply (to_date parse now) sd n2 with
                  | (Raise e, n3) => (Raise e, n3)
                  | (Ret dates', n3) =>
                      (Ret (mkDataFrame (nrows df)
                              (dict_set "end_date" dates'
                                 (dict_set "start_time" times
                                    (dict_set "start_date" dates (columns df))))), n3)
                  end
              end
          end
      end
  end.
Proof.
  unfold format_df_time_columns. cbn [for_each_timed cols_mapper].
  change (str_in "date" "start_date") with true.
  change (str_in "date" "start_time") with false.
  change (str_in "date" "end_date") with true.
  cbv iota. fold (to_date parse now) (to_time parse now).
  unfold bind_timed at 1. unfold bind_timed at 1. unfold lift_timed at 1.
  unfold get_column at 1.
  destruct (assoc "Start Date" (columns df)) as [sd|] eqn:Esd; [|reflexivity].
  unfold bind_timed at 1.
  destruct (apply (to_date parse now) sd n) as [[dates|e] n1]; [|reflexivity].
  unfold ret_timed at 1.
  unfold bind_timed at 1. unfold bind_timed at 1. unfold lift_timed at 1.
  unfold get_column at 1. unfold set_column at 1. cbn [columns]. assoc_set.
  destruct (assoc "Start Time" (columns df)) as [st|] eqn:Est; [|reflexivity].
  unfold bind_timed at 1.
  destruct (apply (to_time parse now) st n1) as [[times|e] n2]; [|reflexivity].
  unfold ret_timed at 1.
  unfold bind_timed at 1. unfold bind_timed at 1. unfold lift_timed at 1.
  unfold get_column at 1. unfold set_column at 1 2. cbn [columns]. assoc_set.
  rewrite Esd. unfold bind_timed at 1.
  destruct (apply (to_date parse now) sd n2) as [[dates'|e] n3]; reflexivity.
Qed.

(** What [format_df_time_columns] does when it does not raise. *)
Lemma format_df_time_columns_inv (df df' : DataFrame) (n n' : nat) :
  format_df_time_columns parse now df n = (Ret df', n') ->
  nrows df' = nrows df /\
  exists sd st dates times dates' n1 n2,
    assoc "Start Date" (columns df) = Some sd /\
    assoc "Start Time" (columns df) = Some st /\
    apply (to_date parse now) sd n = (Ret dates, n1) /\
    apply (to_time parse now) st n1 = (Ret times, n2) /\
    apply (to_date parse now) sd n2 = (Ret dates', n') /\
    columns df' =
    dict_set "end_date" dates'
      (dict_set "start_time" times (dict_set "start_date" dates (columns df))).
Proof.
  rewrite format_df_time_columns_passes.
  destruct (assoc "Start Date" (columns df)) as [sd|]; [|discriminate].
  destruct (apply (to_date parse now) sd n) as [[dates|e] n1] eqn:Ed; [|discriminate].
  destruct (assoc "Start Time" (columns df)) as [st|]; [|discriminate].
  destruct (apply (to_time parse now) st n1) as [[times|e] n2] eqn:Et; [|discriminate].
  destruct (apply (to_date parse now) sd n2) as [[dates'|e] n3] eqn:Ee; [|discriminate].
  intros [= <- <-]. split; [reflexivity|].
  exists sd, st, dates, times, dates', n1, n2. repeat split; assumption.
Qed.

(** ... and it does not raise when both columns are there and every
    cell of them can be parsed whenever the clock is read. *)
Lemma format_df_time_columns_total (df : DataFrame) (sd st : list cell) (n : nat) :
  assoc "Start Date" (columns df) = Some sd ->
  assoc "Start Time" (columns df) = Some st ->
  Forall (fun c => forall n, exists t, fst (parse_cell parse now c n) = Ret t) sd ->
  Forall (fun c => forall n, exists t, fst (parse_cell parse now c n) = Ret t) st ->
  exists df' n', format_df_time_columns parse now df n = (Ret df', n').
Proof.
  intros Esd Est Hsd Hst.
  assert (Hd : forall m, exists dates m', apply (to_date parse now) sd m = (Ret dates, m')).
  { apply apply_total. eapply Forall_impl; [|exact Hsd]. intros c Hc m.
    destruct (Hc m) as [t Ht]. unfold to_date, bind_timed, ret_timed.
    destruct (parse_cell parse now c m) as [o m']. cbn [fst] in Ht. subst o. eauto. }
  assert (Ht : forall m, exists times m', apply (to_time parse now) st m = (Ret times, m')).
  { apply apply_total. eapply Forall_impl; [|exact Hst]. intros c Hc m.
    destruct (Hc m) as [t Ht]. unfold to_time, bind_timed, ret_timed.
    destruct (parse_cell parse now c m) as [o m']. cbn [fst] in Ht. subst o. eauto. }
  rewrite format_df_time_columns_passes, Esd, Est.
  destruct (Hd n) as (dates & n1 & ->). destruct (Ht n1) as (times & n2 & ->).
  destruct (Hd n2) as (dates' & n3 & ->). eauto.
Qed.

Lemma drop_inv (labels : list string) (df df' : DataFrame) :
  drop labels df = Ret df' ->
  nrows df' = nrows df /\
  forall k, existsb (String.eqb k) labels = false ->
            assoc k (columns df') = assoc k (columns df).
Proof.
  unfold drop. destruct (forallb _ labels); [|discriminate].
  intro H. injection H as <-. split; [reflexivity|].
  intros k Hk. cbn [columns].
  apply (assoc_filter_other (fun k => negb (existsb (String.eqb k) labels))).
  now rewrite Hk.
Qed.

(** Two passes over the same cells give the same dates when what the
    parser makes of each string does not depend on the moment. *)
Lemma to_date_steady (cells : list cell) :
  Forall (fun c => forall s, c = CStr s -> steady parse now s) cells ->
  forall n m dates dates' n' m',
    apply (to_date parse now) cells n = (Ret dates, n') ->
    apply (to_date parse now) cells m = (Ret dates', m') ->
    dates = dates'.
Proof.
  induction 1 as [|c cells Hc HF IH]; intros n m dates dates' n' m' H1 H2.
  - cbn in H1, H2. congruence.
  - cbn [apply] in H1, H2.
    assert (E : fst (to_date parse now c n) = fst (to_date parse now c m)).
    { unfold to_date, bind_timed, parse_cell, ret_timed.
      destruct c as [s| | | |]; try reflexivity.
      rewrite (Hc s eq_refl n m). now destruct (parse _ s). }
    destruct (to_date parse now c n) as [[d1|] n1]; [|discriminate H1].
    destruct (to_date parse now c m) as [[d2|] m1]; [|discriminate H2].
    cbn [fst] in E. injection E as <-.
    destruct (apply (to_date parse now) cells n1) as [[ds1|] n2] eqn:E1; [|discriminate H1].
    destruct (apply (to_date parse now) cells m1) as [[ds2|] m2] eqn:E2; [|discriminate H2].
    injection H1 as <- _. injection H2 as <- _. f_equal. eapply IH; eauto.
Qed.

End Table.


(** *** [main] *)

Section Main.
Variable site : web.
Variable parse : datetime -> string -> outcome datetime.
Variable now : nat -> datetime.

(** The stages of a run of [main] that does not raise. *)
Lemma main_inv (df : DataFrame) :
  main site parse now = Ret df ->
  exists events records df2 df3 n',
    make_request_content site CALENDAR_BASE_URL = Ret events /\
    for_each (visit site) (find_all "a" events) [] = Ret records /\
    format_df_time_columns parse now (with_defaults (from_records records)) 0%nat =
      (Ret df2, n') /\
    drop ["Start Date"; "Start Time"] df2 = Ret df3 /\
    df = rename RENAME_MAP df3.
Proof.
  unfold main.
  destruct (make_request_content site CALENDAR_BASE_URL) as [events|] eqn:Eev;
    [|discriminate].
  cbn [bind].
  destruct (for_each (visit site) (find_all "a" events) []) as [records|] eqn:Erec;
    [|discriminate].
  cbn [bind]. fold (with_defaults (from_records records)).
  destruct (format_df_time_columns parse now (with_defaults (from_records records)) 0%nat)
    as [[df2|] n'] eqn:Ef; [|discriminate].
  cbn [fst bind].
  destruct (drop ["Start Date"; "Start Time"] df2) as [df3|] eqn:Ed; [|discriminate].
  cbn [bind]. intro H. injection H as <-.
  exists events, records, df2, df3, n'. repeat split; assumption.
Qed.

Lemma defaults_assigned (k' : string) (v : cell) :
  In (k', v) defaults ->
  exists k, In (k, v) assigned /\ assoc k RENAME_MAP = Some k' /\
            (k =? "start_date")%string = false /\ (k =? "start_time")%string = false /\
            (k =? "end_date")%string = false /\
            existsb (String.eqb k) ["Start Date"; "Start Time"] = false.
Proof.
  cbn [defaults In]. intro H.
  repeat (destruct H as [H | H];
          [injection H as <- <-; eexists; split; [cbn; eauto 10 | repeat split; reflexivity]|]).
  contradiction.
Qed.

(** C9.  Every record of the table [main] returns carries the fixed
    values: All Day Event false, Timezone "America/New_York", Event End
    Time "23:59:59", Event Cost 0, Event Currency Symbol "$", Event Venue
    Name "Please refer to website" and Event Organizers "Potomac
    Appalachian Trail Club"; where the labels of the record do not
    repeat, that is the value found under the label. *)
Theorem main_defaults (df : DataFrame) (record : list (string * cell)) (k : string) (v : cell) :
  main site parse now = Ret df ->
  In record (rows df) ->
  In (k, v) defaults ->
  In (k, v) record /\ (NoDup (map fst record) -> assoc k record = Some v).
Proof.
  intros Hmain Hrow Hk.
  assert (Hin : In (k, v) record).
  { destruct (main_inv df Hmain)
      as (events & records & df2 & df3 & n' & _ & _ & Hf & Hd & ->).
    destruct (in_rows _ _ Hrow) as (i & Hi & ->).
    destruct (defaults_assigned k v Hk) as (k0 & Hk0 & Hren & N1 & N2 & N3 & N4).
    destruct (format_df_time_columns_inv parse now _ _ _ _ Hf)
      as (Hn2 & sd & st & dates & times & dates' & n1 & n2 & _ & _ & _ & _ & _ & Hcols).
    destruct (drop_inv _ _ _ Hd) as (Hn3 & Hkeep).
    pose proof (with_defaults_assigned (from_records records) k0 v Hk0) as Hcol.
    assert (H3 : assoc k0 (columns df3) = Some (repeat v (nrows (from_records records)))).
    { rewrite (Hkeep k0 N4), Hcols, !assoc_dict_set, N1, N2, N3. exact Hcol. }
    apply assoc_In, (in_renamed RENAME_MAP) in H3. rewrite Hren in H3.
    apply (in_row _ _ _ i) in H3.
    rewrite nth_repeat_lt in H3; [exact H3|].
    cbn [nrows rename] in Hi. rewrite Hn3, Hn2, with_defaults_nrows in Hi. exact Hi. }
  split; [exact Hin|]. intro ND. now apply In_assoc.
Qed.

(** C10 (as amended).  In every record of the table [main] returns the
    Event End Date is the Event Start Date, provided that what the date
    parser makes of the "Start Date" of each record of the crawl does
    not depend on the moment at which it reads the clock: the two
    columns come from two passes over the same strings, and the parser
    takes from the clock what a string leaves out. *)
Theorem main_end_date_is_start_date (df : DataFrame) (record : list (string * cell)) :
  main site parse now = Ret df ->
  steady_dates site parse now ->
  In record (rows df) ->
  exists date,
    In ("Event Start Date", date) record /\ In ("Event End Date", date) record /\
    (NoDup (map fst record) ->
     assoc "Event Start Date" record = Some date /\
     assoc "Event End Date" record = Some date).
Proof.
  intros Hmain Hsteady Hrow.
  destruct (main_inv df Hmain)
    as (events & records & df2 & df3 & n' & Hev & Hc & Hf & Hd & ->).
  destruct (in_rows _ _ Hrow) as (i & Hi & ->).
  destruct (format_df_time_columns_inv parse now _ _ _ _ Hf)
    as (Hn2 & sd & st & dates & times & dates' & n1 & n2 & Esd & _ & Hd1 & _ & Hd2 & Hcols).
  assert (Hsame : dates = dates').
  { rewrite with_defaults_other in Esd by reflexivity.
    apply from_records_column_inv in Esd. subst sd.
    refine (to_date_steady parse now _ _ _ _ _ _ _ _ Hd1 Hd2).
    apply Forall_forall. intros c Hin s ->. apply in_map_iff in Hin.
    destruct Hin as (r & Hr & Hin). specialize (Hsteady events records Hev Hc).
    rewrite Forall_forall in Hsteady. apply (Hsteady r Hin).
    unfold cell_of in Hr. destruct (assoc "Start Date" r); congruence. }
  subst dates'.
  destruct (drop_inv _ _ _ Hd) as (Hn3 & Hkeep).
  assert (Hs : assoc "start_date" (columns df3) = Some dates).
  { rewrite (Hkeep "start_date" eq_refl), Hcols. assoc_set. reflexivity. }
  assert (He : assoc "end_date" (columns df3) = Some dates).
  { rewrite (Hkeep "end_date" eq_refl), Hcols. assoc_set. reflexivity. }
  apply assoc_In, (in_renamed RENAME_MAP), (in_row _ _ _ i) in Hs.
  apply assoc_In, (in_renamed RENAME_MAP), (in_row _ _ _ i) in He.
  exists (nth i dates CNaN). split; [exact Hs|]. split; [exact He|].
  intro ND. split; now apply In_assoc.
Qed.

(** The dates are steady when the run does not pass midnight. *)
Lemma steady_same_day :
  (forall n, midnight (now n) = midnight (now 0%nat)) -> steady_dates site parse now.
Proof.
  intros H events records _ _. apply Forall_forall. intros r _ s _ n m.
  now rewrite (H n), (H m).
Qed.

(** C4 (as amended).  When exactly one of the [N >= 2] detail pages of a
    crawl is malformed and the others are well formed, that page yields
    nothing, it is skipped, and [main] returns a table of [N - 1]
    records. *)
Theorem main_skips_malformed (events doc : node) (l1 l2 : list string) (bad : string) :
  make_request_content site CALENDAR_BASE_URL = Ret events ->
  detail_links events = l1 ++ bad :: l2 ->
  make_request_content site bad = Ret doc ->
  malformed doc ->
  Forall (well_formed site parse now) (l1 ++ l2) ->
  l1 ++ l2 <> [] ->
  find_event_data site bad = Ret None /\
  exists df,
    main site parse now = Ret df /\
    List.length (rows df) = (List.length (detail_links events) - 1)%nat.
Proof.
  intros Hev Hlinks Hdoc Hbad Hgood Hne.
  pose proof (find_event_data_malformed site bad doc Hdoc Hbad) as Hnone.
  split; [exact Hnone|].
  apply Forall_app in Hgood as Hsplit. destruct Hsplit as [H1 H2].
  pose proof (crawl_skips site parse now l1 l2 bad H1 H2 Hnone) as Hcrawl.
  rewrite <- Hlinks, <- visit_links in Hcrawl.
  set (records := map (record_of site) (l1 ++ l2)) in *.
  assert (Hcol : forall k,
             (forall link, In link (l1 ++ l2) -> exists s,
                 assoc k (record_of site link) = Some s /\ accepted parse now s) ->
             exists col,
               assoc k (columns (from_records records)) = Some col /\
               Forall (fun c => forall n, exists t, fst (parse_cell parse now c n) = Ret t)
                      col).
  { intros k Hk. exists (map (cell_of k) records). split.
    - apply from_records_column.
      destruct (l1 ++ l2) as [|link links] eqn:E; [contradiction|].
      destruct (Hk link (or_introl eq_refl)) as (s & Hs & _).
      exists (record_of site link). split; [now left | eapply assoc_key; eauto].
    - subst records. rewrite map_map. apply Forall_forall. intros c Hc.
      apply in_map_iff in Hc. destruct Hc as (link & <- & Hl).
      destruct (Hk link Hl) as (s & Hs & Ht).
      unfold cell_of. rewrite Hs. intro n. exact (Ht n). }
  destruct (Hcol "Start Date") as (sd & Esd & Hsd).
  { intros link Hl. rewrite Forall_forall in Hgood.
    destruct (Hgood link Hl) as (_ & s & st & Hs & Ht & _). eauto. }
  destruct (Hcol "Start Time") as (st & Est & Hst).
  { intros link Hl. rewrite Forall_forall in Hgood.
    destruct (Hgood link Hl) as (_ & s & st & _ & _ & Hs & Ht). eauto. }
  rewrite <- (with_defaults_other (from_records records) "Start Date" eq_refl) in Esd.
  rewrite <- (with_defaults_other (from_records records) "Start Time" eq_refl) in Est.
  destruct (format_df_time_columns_total parse now _ sd st 0%nat Esd Est Hsd Hst)
    as (df2 & n' & Hf).
  destruct (format_df_time_columns_inv parse now _ _ _ _ Hf)
    as (Hn2 & sd' & st' & dates & times & dates' & n1 & n2 & _ & _ & _ & _ & _ & Hcols).
  assert (Hd : exists df3, drop ["Start Date"; "Start Time"] df2 = Ret df3 /\
                           nrows df3 = nrows df2).
  { unfold drop. cbn [forallb].
    rewrite (has_label_assoc "Start Date" df2 sd), (has_label_assoc "Start Time" df2 st).
    - cbn [andb]. eexists. split; reflexivity.
    - rewrite Hcols. assoc_set. exact Est.
    - rewrite Hcols. assoc_set. exact Esd. }
  destruct Hd as (df3 & Hd & Hn3).
  exists (rename RENAME_MAP df3). split.
  - unfold main. rewrite Hev. cbn [bind]. rewrite Hcrawl. cbn [bind].
    fold (with_defaults (from_records records)). rewrite Hf. cbn [fst bind].
    rewrite Hd. reflexivity.
  - rewrite rows_length. cbn [nrows rename]. rewrite Hn3, Hn2, with_defaults_nrows.
    cbn [nrows from_records]. subst records. rewrite length_map, Hlinks, !length_app.
    cbn [List.length]. lia.
Qed.

Lemma read_para_ambiguous (results : list (string * string)) (para : node) :
  keyword_para para = true ->
  (2 <= List.length (find_all "strong" para))%nat ->
  read_para results para = Raise ValueError.
Proof.
  intros Hk Hs. unfold read_para. fold (keyword_para para). rewrite Hk.
  destruct (find_all "strong" para) as [|s1 [|s2 strongs]]; cbn in Hs; try lia.
  reflexivity.
Qed.

Lemma read_para_raises (results : list (string * string)) (para : node) (e : exn) :
  read_para results para = Raise e -> e = ValueError \/ e = AttributeError.
Proof.
  unfold read_para. destruct (existsb _ KEYWORDS); [|discriminate].
  destruct (one (find_all "strong" para)) as [header|e1] eqn:E1; cbn [bind].
  2:{ intro H. injection H as <-. left.
      unfold one in E1. destruct (find_all "strong" para) as [|? [|? ?]]; congruence. }
  destruct (last (children para)) as [value|e2] eqn:E2; cbn [bind].
  2:{ intro H. injection H as <-. left.
      unfold last in E2. destruct (rev (children para)); congruence. }
  destruct (rpartition_head (get_text header) =? "www")%string.
  - destruct (one (find_all "a" para)) as [url_tag|e3] eqn:E3; cbn [bind].
    2:{ intro H. injection H as <-. left.
        unfold one in E3. destruct (find_all "a" para) as [|? [|? ?]]; congruence. }
    destruct (attrs_get "href" url_tag); cbn [bind]; [discriminate|].
    intro H. injection H as <-. now right.
  - cbn [bind]. discriminate.
Qed.

(** C5 (as amended).  On a detail page with a table header, a paragraph
    that names a keyword label and holds more than one emphasized
    element makes the extraction of that paragraph raise ValueError.
    The exception is not handled: [find_event_data] raises for the whole
    page (ValueError, or the AttributeError of an earlier paragraph), and
    [main] raises in every crawl that reaches the page. *)
Theorem find_event_data_ambiguous (link : string) (doc para : node) :
  make_request_content site link = Ret doc ->
  find_all "th" doc <> [] ->
  In para (find_all "p" doc) ->
  keyword_para para = true ->
  (2 <= List.length (find_all "strong" para))%nat ->
  (forall results, read_para results para = Raise ValueError) /\
  (exists e, find_event_data site link = Raise e /\ (e = ValueError \/ e = AttributeError)) /\
  (forall events,
     make_request_content site CALENDAR_BASE_URL = Ret events ->
     In link (detail_links events) ->
     exists e, main site parse now = Raise e).
Proof.
  intros Hdoc Hth Hin Hk Hs.
  assert (Hpara : forall results, read_para results para = Raise ValueError)
    by (intro; now apply read_para_ambiguous).
  assert (Hpage : exists e, find_event_data site link = Raise e /\
                            (e = ValueError \/ e = AttributeError)).
  { unfold find_event_data. rewrite Hdoc. cbn [bind].
    destruct (find_all "th" doc) as [|th ths]; [contradiction|].
    destruct (item_m1_cons th ths) as [y ->]. cbn [bind].
    destruct (find_all "p" doc) as [|p ps] eqn:Ep; [contradiction|].
    destruct (item_m1_cons p ps) as [z ->]. cbn [bind].
    destruct (for_each_raises read_para para (p :: ps) Hin
                (fun acc => ex_intro _ ValueError (Hpara acc))
                [("Event Name", strip (get_text y)); ("Description", strip (get_text z))])
      as [e He].
    rewrite He. exists e. split; [reflexivity|].
    apply (for_each_raises_only read_para (fun e => e = ValueError \/ e = AttributeError)
             (p :: ps) read_para_raises _ e He). }
  split; [exact Hpara|]. split; [exact Hpage|].
  intros events Hev Hl. destruct Hpage as (e & He & _).
  assert (Hv : forall acc, exists e', visit_link site acc link = Raise e').
  { intro acc. exists e. unfold visit_link. rewrite He. reflexivity. }
  destruct (for_each_raises (visit_link site) link (detail_links events) Hl Hv [])
    as [e' He'].
  exists e'. unfold main. rewrite Hev. cbn [bind]. rewrite visit_links, He'. reflexivity.
Qed.

End Main.


(** *** A sample crawl *)

Lemma sample_site_table : main sample_site sample_parse noon = Ret sample_table.
Proof. reflexivity. Qed.

(** The crawl of three pages, the second of them malformed, returns two
    records. *)
Lemma main_skips_malformed_witness :
  find_event_data sample_site "Custom/calendar.aspx?id=2" = Ret None /\
  exists df,
    main sample_site sample_parse noon = Ret df /\
    List.length (rows df) = 2%nat.
Proof.
  refine (main_skips_malformed sample_site sample_parse noon
            (index_page ["1"; "2"; "3"]) headless_page
            ["Custom/calendar.aspx?id=1"] ["Custom/calendar.aspx?id=3"]
            "Custom/calendar.aspx?id=2" eq_refl eq_refl eq_refl _ _ _).
  - left. reflexivity.
  - repeat constructor; do 2 eexists;
      (split; [reflexivity|]); (split; [intro n; eexists; reflexivity|]);
      (split; [reflexivity|]); intro n; eexists; reflexivity.
  - discriminate.
Defined.

(** C4 (as stated) fails.  For [N = 1]: the only detail page of the
    crawl is malformed and skipped, no record is left, and [main] raises
    KeyError for the missing "Start Date" column instead of returning a
    table without records.  For [N = 3]: one page is malformed, another
    has a table header and a paragraph but no labelled field, and [main]
    raises TypeError on its missing start date instead of returning two
    records. *)
Lemma main_only_malformed :
  (detail_links (index_page ["2"]) = ["Custom/calendar.aspx?id=2"] /\
   malformed headless_page /\
   find_event_data headless_site "Custom/calendar.aspx?id=2" = Ret None /\
   main headless_site sample_parse noon = Raise KeyError) /\
  (detail_links (index_page ["1"; "2"; "5"]) =
     ["Custom/calendar.aspx?id=1"; "Custom/calendar.aspx?id=2"; "Custom/calendar.aspx?id=5"] /\
   ~ malformed hike /\ malformed headless_page /\ ~ malformed notice_page /\
   main notice_site sample_parse noon = Raise TypeError).
Proof.
  split.
  - repeat split; try reflexivity. left. reflexivity.
  - repeat split; try reflexivity; try (intros [H | H]; discriminate H).
    left. reflexivity.
Qed.

(** The page with two emphasized elements in its date paragraph: no
    record for it, and no table for the crawl. *)
Lemma find_event_data_ambiguous_witness :
  (forall results, read_para results ambiguous_para = Raise ValueError) /\
  (exists e,
     find_event_data ambiguous_site "Custom/calendar.aspx?id=4" = Raise e /\
     (e = ValueError \/ e = AttributeError)) /\
  exists e, main ambiguous_site sample_parse noon = Raise e.
Proof.
  pose proof (find_event_data_ambiguous ambiguous_site sample_parse noon
                "Custom/calendar.aspx?id=4" ambiguous_page ambiguous_para
                eq_refl ltac:(discriminate) (or_introl eq_refl) eq_refl (le_n 2)) as H.
  destruct H as (Hpara & Hpage & Hmain). split; [exact Hpara|]. split; [exact Hpage|].
  apply (Hmain (index_page ["1"; "4"]) eq_refl). right. left. reflexivity.
Defined.

(** C5 (as stated) fails: the failure is not confined to the field of
    the ambiguous paragraph.  The page, whose name and start time are in
    order, yields no record at all, and the crawl, whose first page is in
    order, yields no table. *)
Lemma find_event_data_not_confined :
  find_event_data ambiguous_site "Custom/calendar.aspx?id=4" = Raise ValueError /\
  find_event_data ambiguous_site "Custom/calendar.aspx?id=1" =
    Ret (Some [("Event Name", "Old Rag Hike"); ("Description", "Bring water and lunch.");
               ("Start Date", "2026-11-07"); ("Start Time", "9:30 AM")]) /\
  main ambiguous_site sample_parse noon = Raise ValueError.
Proof. repeat split; reflexivity. Qed.

(** The organizer in the second record of the sample crawl. *)
Lemma main_defaults_witness :
  main sample_site sample_parse noon = Ret sample_table /\
  In walk_record (rows sample_table) /\
  In ("Event Organizers", CStr "Potomac Appalachian Trail Club") walk_record /\
  (NoDup (map fst walk_record) ->
   assoc "Event Organizers" walk_record = Some (CStr "Potomac Appalachian Trail Club")).
Proof.
  split; [reflexivity|]. split; [right; left; reflexivity|].
  apply (main_defaults sample_site sample_parse noon sample_table walk_record
           "Event Organizers" (CStr "Potomac Appalachian Trail Club") eq_refl).
  - right. left. reflexivity.
  - cbn. tauto.
Defined.

(** The two dates in the second record of the sample crawl, in a run
    that stays within one day. *)
Lemma main_end_date_is_start_date_witness :
  main sample_site sample_parse noon = Ret sample_table /\
  steady_dates sample_site sample_parse noon /\
  In walk_record (rows sample_table) /\
  exists date,
    In ("Event Start Date", date) walk_record /\ In ("Event End Date", date) walk_record /\
    (NoDup (map fst walk_record) ->
     assoc "Event Start Date" walk_record = Some date /\
     assoc "Event End Date" walk_record = Some date).
Proof.
  assert (S : steady_dates sample_site sample_parse noon)
    by (apply steady_same_day; reflexivity).
  split; [reflexivity|]. split; [exact S|]. split; [right; left; reflexivity|].
  apply (main_end_date_is_start_date sample_site sample_parse noon sample_table walk_record
           eq_refl S).
  right. left. reflexivity.
Defined.

(** C10 (as stated) fails.  The start date of the page names no year,
    and the parser takes the year from the clock.  In a run that passes
    midnight of New Year's Eve between the pass that writes the start
    dates and the pass that writes the end dates, [main] returns a
    record whose two dates differ. *)
Lemma main_end_date_after_midnight :
  find_event_data new_year_site "Custom/calendar.aspx?id=6" =
    Ret (Some [("Event Name", "New Year Hike"); ("Description", "Bring water and lunch.");
               ("Start Date", "January 1"); ("Start Time", "9:30 AM")]) /\
  main new_year_site sample_parse new_year_eve = Ret new_year_table /\
  exists record,
    rows new_year_table = [record] /\
    NoDup (map fst record) /\
    assoc "Event Start Date" record = Some (CDate 2026 1 1) /\
    assoc "Event End Date" record = Some (CDate 2027 1 1).
Proof.
  split; [reflexivity|]. split; [reflexivity|].
  eexists. split; [reflexivity|]. split; [|split; reflexivity].
  repeat constructor; cbn; intuition discriminate.
Qed.

End PatcFacts.

(* ================================================================= *)
(** * Further properties *)

(** ** Character classes and blanks *)

Module TextFacts.
Import Py PySpec TextSpec PyFacts.

Lemma str_forall_app (p : ascii -> bool) (a b : string) :
  str_forall p (a +++ b) = str_forall p a && str_forall p b.
Proof.
  induction a as [|c a IH]; [reflexivity|].
  cbn [String.append str_forall]. now rewrite IH, andb_assoc.
Qed.

Lemma str_forall_filter (p : ascii -> bool) (s : string) :
  str_forall p (str_filter p s) = true.
Proof.
  induction s as [|c s IH]; [reflexivity|].
  cbn [str_filter]. destruct (p c) eqn:E; [|exact IH].
  cbn [str_forall]. now rewrite E, IH.
Qed.

Lemma str_forall_replace_from (p : ascii -> bool) (old : string) (s : string) :
  forall skip, str_forall p s = true -> str_forall p (replace_from old "" skip s) = true.
Proof.
  induction s as [|c s IH]; intros skip H; [reflexivity|].
  cbn [str_forall] in H. apply andb_prop in H. destruct H as [Hc Hs].
  cbn [replace_from]. destruct skip as [|k]; [|now apply IH].
  destruct (prefix old (String c s)).
  - cbn [String.append]. now apply IH.
  - cbn [str_forall]. rewrite Hc. now apply IH.
Qed.

Lemma str_forall_flush (p : ascii -> bool) (rep : string) (n : nat) :
  p " "%char = true -> str_forall p rep = true -> str_forall p (flush_spaces rep n) = true.
Proof.
  intros Hsp Hrep. destruct n as [|[|n]]; cbn [flush_spaces str_forall];
    [reflexivity | now rewrite Hsp | exact Hrep].
Qed.

Lemma str_forall_sub_spaces (p : ascii -> bool) (rep : string) (s : string) :
  p " "%char = true -> str_forall p rep = true ->
  forall n, str_forall p s = true -> str_forall p (sub_spaces_from rep n s) = true.
Proof.
  intros Hsp Hrep. induction s as [|c s IH]; intros n H.
  - now apply str_forall_flush.
  - cbn [str_forall] in H. apply andb_prop in H. destruct H as [Hc Hs].
    cbn [sub_spaces_from]. destruct (c =? " ")%char; [now apply IH|].
    rewrite str_forall_app, str_forall_flush by assumption.
    cbn [str_forall andb]. rewrite Hc. now apply IH.
Qed.

Lemma str_forall_lstrip (p : ascii -> bool) (s : string) :
  str_forall p s = true -> str_forall p (lstrip s) = true.
Proof.
  induction s as [|c s IH]; intro H; [reflexivity|].
  cbn [lstrip]. destruct (isspace c); [|exact H].
  cbn [str_forall] in H. apply andb_prop in H. now apply IH.
Qed.

Lemma str_forall_rstrip (p : ascii -> bool) (s : string) :
  str_forall p s = true -> str_forall p (rstrip s) = true.
Proof.
  induction s as [|c s IH]; intro H; [reflexivity|].
  cbn [str_forall] in H. apply andb_prop in H. destruct H as [Hc Hs].
  specialize (IH Hs). cbn [rstrip]. destruct (rstrip s) as [|c' r].
  - destruct (isspace c); [reflexivity|]. cbn [str_forall]. now rewrite Hc.
  - cbn [str_forall] in IH |- *. now rewrite Hc, IH.
Qed.

Lemma str_forall_strip (p : ascii -> bool) (s : string) :
  str_forall p s = true -> str_forall p (strip s) = true.
Proof. intro H. unfold strip. now apply str_forall_rstrip, str_forall_lstrip. Qed.

Lemma single_spaced_tail (c : ascii) (s : string) :
  single_spaced (String c s) = true -> single_spaced s = true.
Proof. cbn. destruct s; [reflexivity|]. intro H. apply andb_prop in H. apply H. Qed.

Lemma single_spaced_lstrip (s : string) :
  single_spaced s = true -> single_spaced (lstrip s) = true.
Proof.
  induction s as [|c s IH]; intro H; [reflexivity|].
  cbn [lstrip]. destruct (isspace c); [|exact H].
  apply IH. eapply single_spaced_tail; eauto.
Qed.

Lemma rstrip_head (s : string) (x : ascii) (r : string) :
  rstrip s = String x r -> exists t, s = String x t.
Proof.
  destruct s as [|c s]; [discriminate|]. cbn [rstrip].
  destruct (rstrip s); [destruct (isspace c); [discriminate|]|];
    intro H; injection H as -> _; eauto.
Qed.

Lemma single_spaced_rstrip (s : string) :
  single_spaced s = true -> single_spaced (rstrip s) = true.
Proof.
  induction s as [|c s IH]; intro H; [reflexivity|].
  pose proof (single_spaced_tail c s H) as Hs. specialize (IH Hs).
  cbn [rstrip]. destruct (rstrip s) as [|x r] eqn:E.
  - destruct (isspace c); reflexivity.
  - destruct (rstrip_head s x r E) as [t ->].
    cbn [single_spaced] in H |- *. apply andb_prop in H. destruct H as [H _].
    rewrite H. exact IH.
Qed.

(** Collapsing the runs of spaces and then stripping also gives a
    normal string. *)
Lemma strip_sub_spaces_normal (s : string) : normal (strip (re_sub_spaces " " s)).
Proof.
  destruct (strip_fixed (re_sub_spaces " " s)) as [L R].
  repeat split; [exact L | exact R |].
  unfold strip. apply single_spaced_rstrip, single_spaced_lstrip.
  apply sub_spaces_from_single.
Qed.

Lemma strip_idem (s : string) : strip (strip s) = strip s.
Proof. destruct (strip_fixed s) as [L R]. now apply strip_normal. Qed.

End TextFacts.

(** ** events/arlington.py: effects and record shape *)

Module ArlingtonEffectsFacts.
Import Py Bs4 Datetime Arlington PySpec TextSpec ArlingtonSpec ArlingtonSamples.
Import DatetimeSpec ArlingtonEffects PyFacts TextFacts DatetimeFacts ArlingtonFacts.

(** *** What the cleaning of a name keeps *)

Section Cleaning.
Variable html_parser : string -> node.

(** Every string [html_textraction] or [parse_event_name] returns
    is normal: no blank at either end and no two spaces in a row. *)
Theorem textraction_output_normal (v : pyval) (t : string) :
  html_textraction html_parser v = Ret t \/ parse_event_name html_parser v = Ret t ->
  normal t.
Proof.
  intros [H | H]; [now apply html_textraction_normal in H|].
  destruct v as [| | | |s|[|x l]|[|p kv]]; try discriminate H.
  - now apply parse_event_name_normal in H.
  - now apply html_textraction_normal in H.
  - now apply html_textraction_normal in H.
Qed.

(** When a name mentions the removal activity ("RIP", "RiP" or
    "Invasive Plant Removal"), what [parse_event_name] hands to the HTML
    extraction is a cleaned name: ASCII only, no blank at either end and
    no two spaces in a row. *)
Theorem parse_event_name_cleans (s : string) :
  names_removal s = true ->
  exists name,
    parse_event_name html_parser (VStr s) = html_textraction html_parser (VStr name) /\
    is_ascii name = true /\ normal name.
Proof.
  intro H. unfold names_removal in H. unfold parse_event_name. rewrite H.
  assert (Hc : is_ascii (re_sub_spaces "" (ascii_only s)) = true).
  { apply str_forall_sub_spaces; try reflexivity. apply str_forall_filter. }
  destruct (str_in "Invasive Plant Removal" s); eexists; (split; [reflexivity|]); split;
    try apply strip_sub_spaces_normal;
    apply str_forall_strip, str_forall_sub_spaces; try reflexivity;
    unfold replace.
  - now repeat apply str_forall_replace_from.
  - unfold is_ascii. rewrite str_forall_app. apply andb_true_intro. split; [|reflexivity].
    now repeat apply str_forall_replace_from.
Qed.

End Cleaning.

Lemma textraction_output_normal_witness :
  parse_event_name text_parser (VStr "RiP - Lacey Woods ") =
    Ret "Lacey Woods Invasive Plant Removal" /\
  normal "Lacey Woods Invasive Plant Removal".
Proof.
  split; [reflexivity|].
  apply (textraction_output_normal text_parser (VStr "RiP - Lacey Woods ")).
  right. reflexivity.
Defined.

Lemma parse_event_name_cleans_witness :
  exists name,
    parse_event_name text_parser (VStr accented_name) =
      html_textraction text_parser (VStr name) /\
    is_ascii name = true /\ normal name.
Proof. apply (parse_event_name_cleans text_parser accented_name). reflexivity. Defined.

(** *** The shape of a schematized date *)

Lemma digit_char_digit (n : Z) : 0 <= n <= 9 -> re_digit (digit_char n) = true.
Proof.
  intro H. replace n with (Z.of_nat (Z.to_nat n)) by lia.
  assert (L : (Z.to_nat n <= 9)%nat) by lia. revert L.
  generalize (Z.to_nat n) as k. intro k.
  do 10 (destruct k as [|k]; [intros _; reflexivity|]). lia.
Qed.

Lemma digit_char_nonzero (n : Z) : 1 <= n <= 9 -> (digit_char n =? "0")%char = false.
Proof.
  intro H. replace n with (Z.of_nat (S (Z.to_nat (n - 1)))) by lia.
  assert (L : (Z.to_nat (n - 1) <= 8)%nat) by lia. revert L.
  generalize (Z.to_nat (n - 1)) as k. intro k.
  do 9 (destruct k as [|k]; [intros _; reflexivity|]). lia.
Qed.

Lemma mod10_digit (n : Z) : re_digit (digit_char (n mod 10)) = true.
Proof. apply digit_char_digit. pose proof (Z.mod_pos_bound n 10 ltac:(lia)). lia. Qed.

Lemma strftime_date_shape (pad_year : bool) (t : datetime) :
  valid_datetime t = true ->
  pad_year = true \/ 1000 <= year t ->
  matches_shape "dddd-dd-dd" (strftime_date pad_year t) = true.
Proof.
  intros Hv Hp.
  assert (Hy : year_text pad_year (year t) = pad4 (year t)).
  { unfold year_text. destruct pad_year; [reflexivity|].
    destruct Hp as [Hp | Hp]; [discriminate Hp|].
    apply valid_datetime_iff in Hv.
    unfold pad4. cbn [strip_zeros]. rewrite digit_char_nonzero; [reflexivity|].
    assert (1 <= year t / 1000 < 10).
    { split; [apply Z.div_le_lower_bound; lia | apply Z.div_lt_upper_bound; lia]. }
    rewrite Z.mod_small by lia. lia. }
  unfold strftime_date. rewrite Hy. unfold pad4, pad2.
  cbn [String.append matches_shape]. change ("d" =? "d")%char with true.
  change ("-" =? "d")%char with false. change ("-" =? "-")%char with true. cbv iota.
  now rewrite !mod10_digit.
Qed.

Section Shape.
Variable pad_year : bool.

(** On every string, well formed or not, [schematize_date]
    returns the empty string or the date [strptime] read, a valid
    calendar date, formatted anew; where years are padded to four
    digits, or the year is 1000 or later, what it returns then has the
    shape dddd-dd-dd. *)
Theorem schematize_date_shape (s : string) (w w' : world) (out : string) :
  schematize_date pad_year (VStr s) w = (Ret out, w') ->
  out = "" \/
  exists t,
    strptime s = Ret t /\ valid_datetime t = true /\ out = strftime_date pad_year t /\
    (pad_year = true \/ 1000 <= year t -> matches_shape "dddd-dd-dd" out = true).
Proof.
  pose proof (schematize_date_cases pad_year s w) as H.
  destruct (strptime s) as [t|e] eqn:E; rewrite H; intros [= <- _]; [|now left].
  right. exists t. split; [reflexivity|].
  assert (Hv : valid_datetime t = true).
  { unfold strptime in E. destruct (re_match re_format s) as [|m ms]; [discriminate|].
    destruct (rest m); [|discriminate].
    destruct (groups m) as [|g1 [|g2 [|g3 [|g4 [|g5 [|g6 [|g7 gs]]]]]]]; try discriminate.
    match type of E with
    | (if valid_datetime ?x then _ else _) = _ =>
        destruct (valid_datetime x) eqn:V; [|discriminate]
    end.
    now injection E as <-. }
  split; [exact Hv|]. split; [reflexivity|]. now apply strftime_date_shape.
Qed.

End Shape.

(** *** The requests of the listing *)

Lemma page_count_pos (n : Z) : (1 <= page_count n)%nat.
Proof. unfold page_count. lia. Qed.

Section Listing.
Variable srv : server.
Variable today : string.

Lemma below_page_count (i : nat) (n : Z) :
  (5 * Z.of_nat i <? n) = true -> (S i <= page_count n)%nat.
Proof.
  intro H. apply Z.ltb_lt in H.
  pose proof (page_count_bounds n ltac:(lia)). lia.
Qed.

(** From request number [i] on, whatever the count is and whatever the
    server answers: the loop sends the requests of consecutive offsets
    and logs nothing.  Against an integer count the offsets stay below
    the count, and the loop ends when it is given an iteration per
    offset. *)
Lemma while_pages_requests (s0 : list request) (count : pyval) :
  forall (fuel i : nat) (data : pyval) (event_items : list pyval) (w : world),
    (0 < i)%nat ->
    sent w = s0 ++ page_requests today i ->
    exists k,
      (i <= k)%nat /\
      sent (snd (while_pages srv fuel today count data (5 * Z.of_nat i) event_items w)) =
        s0 ++ page_requests today k /\
      logged (snd (while_pages srv fuel today count data (5 * Z.of_nat i) event_items w)) =
        logged w /\
      forall n, count = VInt n ->
        (k <= Nat.max i (page_count n))%nat /\
        ((page_count n <= i + fuel)%nat ->
         fst (while_pages srv fuel today count data (5 * Z.of_nat i) event_items w) <> None).
Proof.
  assert (Stop : forall (i : nat) (o : option (outcome (list pyval))) (w : world),
             sent w = s0 ++ page_requests today i ->
             forall fuel,
             (forall n, count = VInt n -> (page_count n <= i + fuel)%nat -> o <> None) ->
             exists k,
               (i <= k)%nat /\
               sent (snd (o, w)) = s0 ++ page_requests today k /\
               logged (snd (o, w)) = logged w /\
               forall n, count = VInt n ->
                 (k <= Nat.max i (page_count n))%nat /\
                 ((page_count n <= i + fuel)%nat -> fst (o, w) <> None)).
  { intros i o w Hs fuel Ho. exists i. split; [lia|]. split; [exact Hs|].
    split; [reflexivity|]. intros n Hn. split; [lia|]. now apply Ho. }
  induction fuel as [|fuel IH]; intros i data event_items w Hi Hs.
  - cbn [while_pages]. destruct (below (5 * Z.of_nat i) count) as [[|]|e] eqn:B.
    + apply (Stop i None w Hs 0%nat). intros n -> Hle. cbn [below] in B.
      injection B as B. apply below_page_count in B. lia.
    + apply (Stop i _ w Hs 0%nat). discriminate.
    + apply (Stop i _ w Hs 0%nat). discriminate.
  - cbn [while_pages]. destruct (below (5 * Z.of_nat i) count) as [[|]|e] eqn:B.
    2:{ apply (Stop i _ w Hs (S fuel)). discriminate. }
    2:{ apply (Stop i _ w Hs (S fuel)). discriminate. }
    assert (N : (5 * Z.of_nat i =? 0) = false) by (apply Z.eqb_neq; lia).
    rewrite N. unfold requests_get.
    assert (Hs' : sent w ++ [EventPage today (5 * Z.of_nat i)] =
                  s0 ++ page_requests today (S i)).
    { now rewrite (page_requests_S today i), app_assoc, Hs. }
    assert (Next : forall (o : option (outcome (list pyval))),
               o <> None ->
               exists k,
                 (i <= k)%nat /\
                 sent (snd (o, World (sent w ++ [EventPage today (5 * Z.of_nat i)])
                                     (logged w))) = s0 ++ page_requests today k /\
                 logged (snd (o, World (sent w ++ [EventPage today (5 * Z.of_nat i)])
                                       (logged w))) = logged w /\
                 forall n, count = VInt n ->
                   (k <= Nat.max i (page_count n))%nat /\
                   ((page_count n <= i + S fuel)%nat ->
                    fst (o, World (sent w ++ [EventPage today (5 * Z.of_nat i)])
                                  (logged w)) <> None)).
    { intros o Ho. exists (S i). split; [lia|]. split; [exact Hs'|].
      split; [reflexivity|]. intros n ->. cbn [below] in B. injection B as B.
      apply below_page_count in B. split; [lia|]. intros _. exact Ho. }
    destruct (srv (sent w) (EventPage today (5 * Z.of_nat i))) as [r|e];
      [|apply Next; discriminate].
    destruct (bind (json r) _) as [[data' items]|e]; [|apply Next; discriminate].
    replace (5 * Z.of_nat i + 5) with (5 * Z.of_nat (S i)) by lia.
    destruct (IH (S i) data' (event_items ++ items)
                (World (sent w ++ [EventPage today (5 * Z.of_nat i)]) (logged w)))
      as (k & Hk & Hsent & Hlog & Hn); [lia | exact Hs' |].
    exists k. split; [lia|]. split; [exact Hsent|]. split; [exact Hlog|].
    intros n Hc. destruct (Hn n Hc) as [Hb Hstop]. subst count.
    cbn [below] in B. injection B as B. apply below_page_count in B.
    split; [lia|]. intro Hle. apply Hstop. lia.
Qed.

(** A run of [get_arlington_events], whatever the server answers. *)
Lemma get_arlington_events_run (fuel : nat) (w : world) :
  exists k,
    (1 <= k)%nat /\
    sent (snd (get_arlington_events srv fuel today w)) = sent w ++ page_requests today k /\
    (forall n, reports srv today w n ->
       (k <= page_count n)%nat /\
       ((page_count n <= fuel)%nat -> fst (get_arlington_events srv fuel today w) <> None)) /\
    (forall v, fst (get_arlington_events srv fuel today w) = Some (Ret v) ->
               v = VNone \/ exists event_items, v = VList event_items).
Proof.
  assert (One : forall (o : option (outcome pyval)) l,
             (forall n, reports srv today w n -> (page_count n <= fuel)%nat -> o <> None) ->
             (forall v, o = Some (Ret v) ->
                        v = VNone \/ exists event_items, v = VList event_items) ->
             exists k,
               (1 <= k)%nat /\
               sent (snd (o, World (sent w ++ [EventPage today 0]) l)) =
                 sent w ++ page_requests today k /\
               (forall n, reports srv today w n ->
                  (k <= page_count n)%nat /\
                  ((page_count n <= fuel)%nat ->
                   fst (o, World (sent w ++ [EventPage today 0]) l) <> None)) /\
               (forall v, fst (o, World (sent w ++ [EventPage today 0]) l) = Some (Ret v) ->
                          v = VNone \/ exists event_items, v = VList event_items)).
  { intros o l Hstop Ho. exists 1%nat. split; [lia|]. split; [reflexivity|].
    split; [|exact Ho]. intros n Hn. split; [apply page_count_pos|]. now apply Hstop. }
  unfold get_arlington_events, requests_get, logger.
  destruct (srv (sent w) (EventPage today 0)) as [r|e] eqn:Er;
    [|apply One; [discriminate | intros v [= <-]; now left]].
  destruct (json r) as [data|e] eqn:Ej; [|apply One; discriminate]. cbn [bind].
  destruct (getitem data "count") as [count|e] eqn:Ec; [|apply One; discriminate].
  cbn [bind].
  set (w1 := World (sent w ++ [EventPage today 0]) (logged w)).
  assert (Hrep : forall n, reports srv today w n -> count = VInt n).
  { intros n (r' & data' & Hr' & Hj' & Hc').
    rewrite Er in Hr'. injection Hr' as <-. rewrite Ej in Hj'. injection Hj' as <-.
    congruence. }
  destruct fuel as [|fuel]; cbn [while_pages];
    (destruct (below 0 count) as [[|]|e] eqn:B;
       [| apply One; [discriminate | intros v [= <-]; right; eauto]
        | apply One; discriminate]).
  - apply One; [|discriminate]. intros n Hn Hle. pose proof (page_count_pos n). lia.
  - change (0 =? 0) with true. cbv iota.
    destruct (bind (getitem data "items") _) as [items|e]; [|apply One; discriminate].
    destruct (while_pages_requests (sent w) count fuel 1 data ([] ++ items) w1)
      as (k & Hk & Hsent & _ & Hn); [lia | reflexivity |].
    change (5 * Z.of_nat 1) with 5 in Hsent, Hn. change (0 + 5) with 5.
    destruct (while_pages srv fuel today count data 5 ([] ++ items) w1) as [[[out|e]|] w2];
      cbn [snd fst] in Hsent, Hn |- *;
      exists k; (split; [lia|]); (split; [exact Hsent|]);
      (split;
       [intros n Hr; destruct (Hn n (Hrep n Hr)) as [Hb Hstop];
        pose proof (page_count_pos n);
        split;
        [lia | intro Hle; first [discriminate | exfalso; apply Hstop; [lia | reflexivity]]]
       |]).
    + intros v [= <-]. right. eauto.
    + discriminate.
    + discriminate.
Qed.

(** At every stage of a run, the requests of [get_arlington_events]
    are the listing requests of offsets 0, 5, ..., 5(k-1) for some k of
    at least 1, in this order and with nothing else in between; this
    holds whatever the server answers.  When the first answer reports an
    integer [n], k is at most the number of pages of 5 that hold [n]
    events (1 when [n] is not positive), and the function ends as soon
    as the loop is given that many iterations. *)
Theorem get_arlington_events_requests (fuel : nat) (w : world) :
  exists k,
    (1 <= k)%nat /\
    sent (snd (get_arlington_events srv fuel today w)) = sent w ++ page_requests today k /\
    forall n, reports srv today w n ->
      (k <= page_count n)%nat /\
      ((page_count n <= fuel)%nat -> fst (get_arlington_events srv fuel today w) <> None).
Proof.
  destruct (get_arlington_events_run fuel w) as (k & H1 & H2 & H3 & _). eauto.
Qed.

(** [get_arlington_events] logs one record, and a critical one, when
    its first request fails, and nothing otherwise, whatever happens to
    the later requests and however long the loop goes on. *)
Theorem get_arlington_events_log (fuel : nat) (w : world) :
  logged (snd (get_arlington_events srv fuel today w)) =
  match srv (sent w) (EventPage today 0) with
  | Raise e => logged w ++ [Critical (EventPage today 0) e]
  | Ret _ => logged w
  end.
Proof.
  unfold get_arlington_events, requests_get, logger.
  destruct (srv (sent w) (EventPage today 0)) as [r|e]; [|reflexivity].
  destruct (json r) as [data|e]; [|reflexivity]. cbn [bind].
  destruct (getitem data "count") as [count|e]; [|reflexivity]. cbn [bind].
  set (w1 := World (sent w ++ [EventPage today 0]) (logged w)).
  destruct fuel as [|fuel]; cbn [while_pages];
    (destruct (below 0 count) as [[|]|e]; [|reflexivity|reflexivity]); [reflexivity|].
  change (0 =? 0) with true. cbv iota.
  destruct (bind (getitem data "items") _) as [items|e]; [|reflexivity].
  destruct (while_pages_requests (sent w) count fuel 1 data ([] ++ items) w1)
    as (k & _ & _ & Hlog & _); [lia | reflexivity |].
  change (5 * Z.of_nat 1) with 5 in Hlog. change (0 + 5) with 5.
  now destruct (while_pages srv fuel today count data 5 ([] ++ items) w1) as [[[out|e]|] w2].
Qed.

(** The loop against a count of infinity and a server that goes on
    serving pages: every iteration it is given sends one more
    request. *)
Lemma while_pages_endless (w0 : world) :
  (forall j, exists items, serves srv today w0 j items) ->
  forall (fuel i : nat) (data : pyval) (event_items : list pyval),
    (0 < i)%nat ->
    while_pages srv fuel today (VFloat Infinity) data (5 * Z.of_nat i) event_items
      (World (sent w0 ++ page_requests today i) (logged w0)) =
    (None, World (sent w0 ++ page_requests today (i + fuel)) (logged w0)).
Proof.
  intro Hs. induction fuel as [|fuel IH]; intros i data event_items Hi.
  - cbn [while_pages below]. now rewrite Nat.add_0_r.
  - cbn [while_pages below].
    assert (N : (5 * Z.of_nat i =? 0) = false) by (apply Z.eqb_neq; lia).
    rewrite N. unfold requests_get. cbn [sent logged].
    destruct (Hs i) as (items & r & data' & Hr & Hj & Hp). unfold page_items in Hp.
    rewrite Hr, Hj. cbn [bind].
    destruct (getitem data' "items") as [v|]; [|discriminate Hp]. cbn [bind] in Hp |- *.
    rewrite Hp. cbn [bind].
    rewrite <- app_assoc, <- page_requests_S.
    replace (5 * Z.of_nat i + 5) with (5 * Z.of_nat (S i)) by lia.
    rewrite IH by lia. now replace (S i + fuel)%nat with (i + S fuel)%nat by lia.
Qed.

(** When the first answer reports a count of infinity (the JSON number
    1e999, say, or the literal Infinity) and the server goes on serving
    pages, [get_arlington_events] never returns: however many iterations
    its loop is given, it is still going, and it has sent one request
    per iteration. *)
Theorem get_arlington_events_endless (w : world) (fuel : nat) :
  reports_infinity srv today w ->
  (forall j, exists items, serves srv today w j items) ->
  get_arlington_events srv fuel today w =
  (None, World (sent w ++ page_requests today (Nat.max 1 fuel)) (logged w)).
Proof.
  intros (r & data & Hr & Hj & Hc) Hs.
  destruct (Hs 0%nat) as (items & r' & data' & Hr' & Hj' & Hp).
  cbn [page_requests offsets seq map] in Hr'. rewrite app_nil_r in Hr'.
  change (5 * Z.of_nat 0) with 0 in Hr'.
  rewrite Hr in Hr'. injection Hr' as <-. rewrite Hj in Hj'. injection Hj' as <-.
  unfold get_arlington_events, requests_get. rewrite Hr, Hj. cbn [bind].
  rewrite Hc. cbn [bind].
  destruct fuel as [|fuel]; cbn [while_pages below]; [reflexivity|].
  change (0 =? 0) with true. cbv iota. unfold page_items in Hp. rewrite Hp.
  pose proof (while_pages_endless w Hs fuel 1 data ([] ++ items) ltac:(lia)) as Hrun.
  cbn [page_requests offsets seq map] in Hrun.
  change (5 * Z.of_nat 0) with 0 in Hrun. change (5 * Z.of_nat 1) with 5 in Hrun.
  change (0 + 5) with 5. rewrite Hrun. reflexivity.
Qed.

End Listing.

(** *** Requests and log records *)

Section Effects.
Variable html_parser : string -> node.
Variable srv : server.
Variable pad_year : bool.

(** [schematize_date] sends nothing, logs date errors only, and its
    result does not depend on the world. *)
Lemma schematize_date_run (event_date : pyval) (w : world) :
  exists w',
    schematize_date pad_year event_date w = (date_text pad_year event_date, w') /\
    sent w' = sent w /\
    exists l, logged w' = logged w ++ l /\ forallb is_date_error l = true.
Proof.
  unfold date_text.
  destruct event_date as [| | | |s| |];
    try (exists w; repeat split; exists []; now rewrite app_nil_r).
  pose proof (schematize_date_cases pad_year s w) as H.
  pose proof (schematize_date_cases pad_year s (World [] [])) as H0.
  destruct (strptime s) as [t|e]; rewrite H, H0; cbn [fst].
  - exists w. repeat split. exists []. now rewrite app_nil_r.
  - exists (error_logged s w). repeat split. now exists [Error s ValueError].
Qed.

(** The scan of the search results: it sends nothing and returns the
    website of the first result with the dates looked for. *)
Lemma scan_items_spec (start_date end_date : string) (items : list pyval) :
  forall w,
    sent (snd (scan_items pad_year start_date end_date items w)) = sent w /\
    forall v, fst (scan_items pad_year start_date end_date items w) = Ret v ->
      (exists pre item post,
          items = pre ++ item :: post /\
          Forall (other_dates pad_year start_date end_date) pre /\
          item_dates pad_year item = Ret (start_date, end_date) /\
          item_website item = Ret v) \/
      (Forall (other_dates pad_year start_date end_date) items /\ v = VNone).
Proof.
  induction items as [|item items IH]; intro w.
  - split; [reflexivity|]. intros v H. injection H as <-. right. now split.
  - cbn [scan_items]. unfold bind_io, lift.
    destruct (getitem item "vwEventWithLocation") as [inner|e] eqn:Ei;
      [|split; [reflexivity|discriminate]].
    destruct (getitem inner "eventStartDate") as [d1|e] eqn:E1;
      [|split; [reflexivity|discriminate]].
    destruct (schematize_date_run d1 w) as (w1 & -> & S1 & _).
    destruct (date_text pad_year d1) as [s|e] eqn:T1; [|split; [exact S1|discriminate]].
    destruct (getitem inner "eventEndDate") as [d2|e] eqn:E2;
      [|split; [exact S1|discriminate]].
    destruct (schematize_date_run d2 w1) as (w2 & -> & S2 & _).
    destruct (date_text pad_year d2) as [e|e] eqn:T2;
      [|split; [cbn [snd]; congruence|discriminate]].
    assert (Hd : item_dates pad_year item = Ret (s, e)).
    { unfold item_dates. rewrite Ei. cbn [bind]. rewrite E1. cbn [bind]. rewrite T1.
      cbn [bind]. rewrite E2. cbn [bind]. rewrite T2. reflexivity. }
    destruct ((start_date =? s)%string && (end_date =? e)%string) eqn:M.
    + split; [cbn [snd]; congruence|]. cbn [fst]. intros v Hv. left.
      exists [], item, items. split; [reflexivity|]. split; [constructor|].
      apply andb_prop in M. destruct M as [Ms Me].
      apply String.eqb_eq in Ms, Me. subst s e.
      split; [exact Hd|]. unfold item_website. rewrite Ei. exact Hv.
    + destruct (IH w2) as [IHs IHv]. split; [congruence|].
      intros v Hv. specialize (IHv v Hv).
      assert (Hitem : other_dates pad_year start_date end_date item).
      { exists s, e. now split. }
      destruct IHv as [(pre & it & post & -> & Hpre & Hd' & Hw) | [Hall ->]].
      * left. exists (item :: pre), it, post. split; [reflexivity|].
        split; [now constructor|]. now split.
      * right. split; [now constructor | reflexivity].
Qed.

Lemma logs_date_errors_refl (w : world) : logs_date_errors w w.
Proof. exists []. now rewrite app_nil_r. Qed.

Lemma logs_date_errors_sent (w : world) (s : list request) :
  logs_date_errors w (World s (logged w)).
Proof. exists []. cbn. now rewrite app_nil_r. Qed.

Lemma logs_date_errors_trans (w1 w2 w3 : world) :
  logs_date_errors w1 w2 -> logs_date_errors w2 w3 -> logs_date_errors w1 w3.
Proof.
  intros (l1 & H1 & F1) (l2 & H2 & F2). exists (l1 ++ l2).
  rewrite H2, H1, app_assoc. split; [reflexivity|].
  rewrite forallb_app, F1, F2. reflexivity.
Qed.

Lemma schematize_date_logs (event_date : pyval) (w : world) :
  logs_date_errors w (snd (schematize_date pad_year event_date w)).
Proof.
  destruct (schematize_date_run event_date w) as (w' & -> & _ & H). exact H.
Qed.

Lemma scan_items_logs (start_date end_date : string) (items : list pyval) :
  forall w, logs_date_errors w (snd (scan_items pad_year start_date end_date items w)).
Proof.
  induction items as [|item items IH]; intro w; [apply logs_date_errors_refl|].
  cbn [scan_items]. unfold bind_io, lift.
  destruct (getitem item "vwEventWithLocation") as [inner|e];
    [|apply logs_date_errors_refl].
  destruct (getitem inner "eventStartDate") as [d1|e]; [|apply logs_date_errors_refl].
  pose proof (schematize_date_logs d1 w) as L1.
  destruct (schematize_date pad_year d1 w) as [[s|e] w1]; cbn [snd] in L1; [|exact L1].
  destruct (getitem inner "eventEndDate") as [d2|e]; [|exact L1].
  pose proof (schematize_date_logs d2 w1) as L2.
  destruct (schematize_date pad_year d2 w1) as [[e|e] w2]; cbn [snd] in L2;
    [|eapply logs_date_errors_trans; eauto].
  destruct ((start_date =? s)%string && (end_date =? e)%string).
  - cbn [snd]. eapply logs_date_errors_trans; eauto.
  - eapply logs_date_errors_trans; [|apply IH]. eapply logs_date_errors_trans; eauto.
Qed.

Lemma get_event_website_logs (event_name start_date end_date : string) (w : world) :
  logs_date_errors w (snd (get_event_website srv pad_year event_name start_date end_date w)).
Proof.
  unfold get_event_website, bind_io, lift, requests_get.
  destruct (srv (sent w) (EventSearch event_name)) as [r|e]; [|apply logs_date_errors_sent].
  destruct (json r) as [data|e]; [|apply logs_date_errors_sent].
  destruct (bind (getitem data "items") (fun items => iter items)) as [items|e];
    [|apply logs_date_errors_sent].
  eapply logs_date_errors_trans; [apply logs_date_errors_sent|].
  apply (scan_items_logs start_date end_date items
           (World (sent w ++ [EventSearch event_name]) (logged w))).
Qed.

Lemma get_event_website_sent (event_name start_date end_date : string) (w : world) :
  sent (snd (get_event_website srv pad_year event_name start_date end_date w)) =
  sent w ++ [EventSearch event_name].
Proof.
  unfold get_event_website, bind_io, lift, requests_get.
  destruct (srv (sent w) (EventSearch event_name)) as [r|e]; [|reflexivity].
  destruct (json r) as [data|e]; [|reflexivity].
  destruct (bind (getitem data "items") (fun items => iter items)) as [items|e];
    [|reflexivity].
  now rewrite (proj1 (scan_items_spec start_date end_date items _)).
Qed.

(** [get_event_website] sends exactly one request, the search for
    the event name, whatever the server answers and whether or not the
    call then raises; and it logs nothing but the date errors of the
    search results it scans. *)
Theorem get_event_website_one_request (event_name start_date end_date : string) (w : world) :
  sent (snd (get_event_website srv pad_year event_name start_date end_date w)) =
    sent w ++ [EventSearch event_name] /\
  logs_date_errors w (snd (get_event_website srv pad_year event_name start_date end_date w)).
Proof.
  split; [apply get_event_website_sent | apply get_event_website_logs].
Qed.

(** When [get_event_website] returns, the server has answered the
    search with a JSON payload, and the value returned is the
    [eventUrlText] of the first search result whose two schematized
    dates equal the dates looked for, every result before it having
    been read without failure; it is [None] when no result has these
    dates. *)
Theorem get_event_website_first_match (event_name start_date end_date : string)
    (w : world) (v : pyval) :
  fst (get_event_website srv pad_year event_name start_date end_date w) = Ret v ->
  exists r data items,
    srv (sent w) (EventSearch event_name) = Ret r /\
    json r = Ret data /\ page_items data = Ret items /\
    ((exists pre item post,
         items = pre ++ item :: post /\
         Forall (other_dates pad_year start_date end_date) pre /\
         item_dates pad_year item = Ret (start_date, end_date) /\
         item_website item = Ret v) \/
     (Forall (other_dates pad_year start_date end_date) items /\ v = VNone)).
Proof.
  unfold get_event_website, bind_io, lift, requests_get, page_items.
  destruct (srv (sent w) (EventSearch event_name)) as [r|e] eqn:Er; [|discriminate].
  destruct (json r) as [data|e] eqn:Ej; [|discriminate].
  destruct (bind (getitem data "items") (fun items => iter items)) as [items|e] eqn:Ep;
    [|discriminate].
  intro H. exists r, data, items. do 3 (split; [first [assumption | reflexivity]|]).
  eapply scan_items_spec. exact H.
Qed.

(** What the loop body of [schematize_events] sends: at most the search
    for the name of its item, and nothing for an item with a website. *)
Lemma schematize_event_sent (event_item : pyval) (w : world) :
  exists names,
    sent (snd (schematize_event html_parser srv pad_year event_item w)) =
      sent w ++ map EventSearch names /\
    (List.length names <= 1)%nat /\
    (has_website event_item -> names = []) /\
    Forall (fun name =>
              exists item, getitem event_item "vwEventWithLocation" = Ret item /\
                           normalized_name html_parser item = Ret name) names.
Proof.
  assert (Q : forall (o : outcome (option event)) w',
             sent w' = sent w ->
             exists names,
               sent (snd (o, w')) = sent w ++ map EventSearch names /\
               (List.length names <= 1)%nat /\
               (has_website event_item -> names = []) /\
               Forall (fun name =>
                         exists item, getitem event_item "vwEventWithLocation" = Ret item /\
                                      normalized_name html_parser item = Ret name) names).
  { intros o w' Hs. exists []. cbn. rewrite app_nil_r. repeat split; auto. }
  unfold schematize_event, bind_io, lift.
  destruct (getitem event_item "vwEventWithLocation") as [item|] eqn:Eitem; [|now apply Q].
  destruct (bind (getitem item "eventName") _) as [name|] eqn:Ename; [|now apply Q].
  destruct (str_in "Task Force" name || str_in "Forestry Commission" name); [now apply Q|].
  destruct (bind (getitem item "eventDsc") _) as [dsc|]; [|now apply Q].
  destruct (getitem item "eventStartDate") as [d1|]; [|now apply Q].
  destruct (schematize_date_run d1 w) as (w1 & -> & S1 & _).
  destruct (date_text pad_year d1) as [start_date|]; [|now apply Q].
  destruct (getitem item "eventEndDate") as [d2|]; [|now apply Q].
  destruct (schematize_date_run d2 w1) as (w2 & -> & S2 & _).
  assert (S2' : sent w2 = sent w) by congruence.
  destruct (date_text pad_year d2) as [end_date|]; [|now apply Q].
  destruct (getitem item "eventStartTime") as [start_time|]; [|now apply Q].
  destruct (getitem item "eventEndTime") as [end_time|]; [|now apply Q].
  destruct (getitem item "eventUrlText") as [website|] eqn:Eweb; [|now apply Q].
  destruct (getitem item "freeOfChargeInd") as [free|]; [|now apply Q].
  match goal with
  | |- context [match ?c w2 with _ => _ end] =>
      assert (Hc : exists o, c w2 = (o, w2))
  end.
  { destruct (truthy free); [now eexists|]. unfold bind_io, lift.
    destruct (getitem item "eventCostDsc") as [desc|]; [|now eexists].
    destruct (truthy desc); now eexists. }
  destruct Hc as [[cost|] ->]; [|now apply Q].
  destruct (bind (getitem item "locationName") _) as [venue|]; [|now apply Q].
  destruct ((venue =? "Earth Products Yard")%string || str_in "Library" venue
            || (venue =? "")%string); [now apply Q|].
  destruct (truthy website) eqn:Tw; cbn [negb].
  - unfold ret. now apply Q.
  - pose proof (get_event_website_sent name start_date end_date w2) as Hg.
    destruct (get_event_website srv pad_year name start_date end_date w2) as [[site|] w3];
      cbn [snd] in Hg |- *; unfold ret; cbn [snd]; exists [name];
      (split; [cbn [map]; congruence|]); (split; [cbn; lia|]);
      (split; [intro Hw; specialize (Hw item website Eitem Eweb); congruence|]);
      constructor; [|constructor| |constructor]; exists item; split; trivial.
Qed.

Lemma schematize_event_logs (event_item : pyval) (w : world) :
  logs_date_errors w (snd (schematize_event html_parser srv pad_year event_item w)).
Proof.
  unfold schematize_event, bind_io, lift.
  destruct (getitem event_item "vwEventWithLocation") as [item|];
    [|apply logs_date_errors_refl].
  destruct (bind (getitem item "eventName") _) as [name|]; [|apply logs_date_errors_refl].
  destruct (str_in "Task Force" name || str_in "Forestry Commission" name);
    [apply logs_date_errors_refl|].
  destruct (bind (getitem item "eventDsc") _) as [dsc|]; [|apply logs_date_errors_refl].
  destruct (getitem item "eventStartDate") as [d1|]; [|apply logs_date_errors_refl].
  pose proof (schematize_date_logs d1 w) as L1.
  destruct (schematize_date pad_year d1 w) as [[start_date|] w1]; cbn [snd] in L1;
    [|exact L1].
  destruct (getitem item "eventEndDate") as [d2|]; [|exact L1].
  pose proof (schematize_date_logs d2 w1) as L2.
  assert (L : logs_date_errors w
                (snd (schematize_date pad_year d2 w1)))
    by (eapply logs_date_errors_trans; eauto).
  clear L1 L2.
  destruct (schematize_date pad_year d2 w1) as [[end_date|] w2]; cbn [snd] in L; [|exact L].
  destruct (getitem item "eventStartTime") as [start_time|]; [|exact L].
  destruct (getitem item "eventEndTime") as [end_time|]; [|exact L].
  destruct (getitem item "eventUrlText") as [website|]; [|exact L].
  destruct (getitem item "freeOfChargeInd") as [free|]; [|exact L].
  match goal with
  | |- context [match ?c w2 with _ => _ end] =>
      assert (Hc : exists o, c w2 = (o, w2))
  end.
  { destruct (truthy free); [now eexists|]. unfold bind_io, lift.
    destruct (getitem item "eventCostDsc") as [desc|]; [|now eexists].
    destruct (truthy desc); now eexists. }
  destruct Hc as [[cost|] ->]; [|exact L].
  destruct (bind (getitem item "locationName") _) as [venue|]; [|exact L].
  destruct ((venue =? "Earth Products Yard")%string || str_in "Library" venue
            || (venue =? "")%string); [exact L|].
  destruct (truthy website); cbn [negb]; [exact L|].
  pose proof (get_event_website_logs name start_date end_date w2) as Lg.
  destruct (get_event_website srv pad_year name start_date end_date w2) as [[site|] w3];
    cbn [snd] in Lg |- *; eapply logs_date_errors_trans; eauto.
Qed.

Lemma schematize_loop_logs (event_items : list pyval) :
  forall (events : list event) (w : world),
    logs_date_errors w (snd (schematize_loop html_parser srv pad_year event_items events w)).
Proof.
  induction event_items as [|event_item rest IH]; intros events w;
    [apply logs_date_errors_refl|].
  cbn [schematize_loop]. unfold bind_io.
  pose proof (schematize_event_logs event_item w) as L.
  destruct (schematize_event html_parser srv pad_year event_item w) as [[[ev|]|e] w1];
    cbn [snd] in L; [| |exact L]; (eapply logs_date_errors_trans; [exact L | apply IH]).
Qed.

(** Whatever happens, [schematize_events] logs nothing but the
    date errors of [schematize_date] -- for the dates of its items and
    for those of the search results it scans. *)
Theorem schematize_events_logs (event_items : pyval) (w : world) :
  logs_date_errors w (snd (schematize_events html_parser srv pad_year event_items w)).
Proof.
  unfold schematize_events, bind_io, lift.
  destruct (iter event_items) as [l|e]; [apply schematize_loop_logs|].
  apply logs_date_errors_refl.
Qed.

Lemma schematize_loop_sent (event_items : list pyval) :
  forall (events : list event) (w : world),
  exists names,
    sent (snd (schematize_loop html_parser srv pad_year event_items events w)) =
      sent w ++ map EventSearch names /\
    (List.length names <= List.length event_items)%nat /\
    (Forall has_website event_items -> names = []) /\
    Forall (fun name =>
              exists event_item item,
                In event_item event_items /\
                getitem event_item "vwEventWithLocation" = Ret item /\
                normalized_name html_parser item = Ret name) names.
Proof.
  induction event_items as [|event_item rest IH]; intros events w.
  - exists []. cbn. rewrite app_nil_r. repeat split; auto.
  - cbn [schematize_loop]. unfold bind_io.
    destruct (schematize_event_sent event_item w) as (n1 & S1 & L1 & W1 & N1).
    assert (N1' : Forall (fun name =>
                            exists event_item0 item,
                              In event_item0 (event_item :: rest) /\
                              getitem event_item0 "vwEventWithLocation" = Ret item /\
                              normalized_name html_parser item = Ret name) n1).
    { eapply Forall_impl; [|exact N1]. intros name (item & Hi & Hn).
      exists event_item, item. repeat split; trivial. now left. }
    destruct (schematize_event html_parser srv pad_year event_item w) as [[r|e] w1];
      cbn [snd] in S1.
    + assert (Hrest : forall evs,
                 exists names,
                   sent (snd (schematize_loop html_parser srv pad_year rest evs w1)) =
                     sent w ++ map EventSearch names /\
                   (List.length names <= List.length (event_item :: rest))%nat /\
                   (Forall has_website (event_item :: rest) -> names = []) /\
                   Forall (fun name =>
                             exists event_item0 item,
                               In event_item0 (event_item :: rest) /\
                               getitem event_item0 "vwEventWithLocation" = Ret item /\
                               normalized_name html_parser item = Ret name) names).
      { intro evs. destruct (IH evs w1) as (n2 & S2 & L2 & W2 & N2).
        exists (n1 ++ n2). rewrite S2, S1, map_app, app_assoc.
        split; [reflexivity|]. split; [rewrite length_app; cbn [List.length]; lia|].
        split.
        - intro HF. inversion HF; subst. now rewrite W1, W2.
        - apply Forall_app. split; [exact N1'|].
          eapply Forall_impl; [|exact N2]. intros name (it & item & Hin & Hi & Hn).
          exists it, item. repeat split; trivial. now right. }
      destruct r; apply Hrest.
    + exists n1. cbn [snd]. split; [exact S1|]. split; [cbn [List.length]; lia|].
      split; [|exact N1']. intro HF. inversion HF; subst. auto.
Qed.

(** Whatever happens, the requests [schematize_events] sends are
    searches by normalized event name, at most one per item, and none
    at all when every item carries a website. *)
Theorem schematize_events_requests (event_items : list pyval) (w : world) :
  exists names,
    sent (snd (schematize_events html_parser srv pad_year (VList event_items) w)) =
      sent w ++ map EventSearch names /\
    (List.length names <= List.length event_items)%nat /\
    (Forall has_website event_items -> names = []) /\
    Forall (fun name =>
              exists event_item item,
                In event_item event_items /\
                getitem event_item "vwEventWithLocation" = Ret item /\
                normalized_name html_parser item = Ret name) names.
Proof.
  unfold schematize_events, bind_io, lift. cbn [iter]. apply schematize_loop_sent.
Qed.

Lemma schematize_loop_app (xs ys : list pyval) :
  forall (events : list event) (w : world),
    schematize_loop html_parser srv pad_year (xs ++ ys) events w =
    match schematize_loop html_parser srv pad_year xs events w with
    | (Ret events', w') => schematize_loop html_parser srv pad_year ys events' w'
    | (Raise e, w') => (Raise e, w')
    end.
Proof.
  induction xs as [|x xs IH]; intros events w; [reflexivity|].
  cbn [app schematize_loop]. unfold bind_io.
  destruct (schematize_event html_parser srv pad_year x w) as [[[ev|]|e] w1];
    [apply IH | apply IH | reflexivity].
Qed.

(** One failing item fails the whole of [schematize_events]: when
    the loop body raises on an item, the exception leaves the function
    and the records made of the items before it are lost. *)
Theorem schematize_events_aborts (before after : list pyval) (event_item : pyval)
    (events : list event) (w w1 w2 : world) (e : exn) :
  schematize_events html_parser srv pad_year (VList before) w = (Ret events, w1) ->
  schematize_event html_parser srv pad_year event_item w1 = (Raise e, w2) ->
  schematize_events html_parser srv pad_year (VList (before ++ event_item :: after)) w =
  (Raise e, w2).
Proof.
  unfold schematize_events, bind_io, lift. cbn [iter]. intros Hb He.
  rewrite schematize_loop_app, Hb. cbn [schematize_loop]. unfold bind_io. now rewrite He.
Qed.

(** A date that is not a string is not handled like a malformed
    one.  When an item that is not excluded by its name, and whose
    description is read, has a start date that is not a string (a JSON
    null, say), [schematize_events] raises [TypeError] at this item:
    nothing is logged for it, nothing is sent, and the records of the
    items before it are lost. *)
Theorem schematize_events_date_not_text (before after : list pyval)
    (event_item item : pyval) (name dsc : string) (d1 : pyval)
    (events : list event) (w w1 : world) :
  schematize_events html_parser srv pad_year (VList before) w = (Ret events, w1) ->
  getitem event_item "vwEventWithLocation" = Ret item ->
  normalized_name html_parser item = Ret name ->
  name_excluded name = false ->
  (v <- getitem item "eventDsc" ;; html_textraction html_parser v)%py = Ret dsc ->
  getitem item "eventStartDate" = Ret d1 ->
  (forall s, d1 <> VStr s) ->
  schematize_events html_parser srv pad_year (VList (before ++ event_item :: after)) w =
  (Raise TypeError, w1).
Proof.
  unfold normalized_name, name_excluded. intros Hb Hi Hn Hx Hd H1 Ht.
  assert (He : schematize_event html_parser srv pad_year event_item w1 = (Raise TypeError, w1)).
  { unfold schematize_event, bind_io, lift. rewrite Hi, Hn, Hx, Hd, H1.
    destruct d1; try reflexivity. now destruct (Ht s). }
  revert Hb. unfold schematize_events, bind_io, lift. cbn [iter]. intro Hb.
  rewrite schematize_loop_app, Hb. cbn [schematize_loop]. unfold bind_io. now rewrite He.
Qed.

(** What a run of the loop body that appends a record has made. *)
Lemma schematize_event_record (event_item : pyval) (w w' : world) (ev : event) :
  schematize_event html_parser srv pad_year event_item w = (Ret (Some ev), w') ->
  map fst ev = schema_keys /\
  Forall (fun kv => assoc (fst kv) ev = Some (snd kv)) constants /\
  Forall (fun k => is_text (assoc k ev)) text_keys /\
  exists cost, assoc "Event Cost" ev = Some (VStr cost) /\ str_forall isdigit cost = true.
Proof.
  unfold schematize_event, bind_io, lift. intro H.
  destruct (getitem event_item "vwEventWithLocation") as [item|]; [|discriminate H].
  destruct (bind (getitem item "eventName") _) as [name|]; [|discriminate H].
  destruct (str_in "Task Force" name || str_in "Forestry Commission" name).
  { cbv beta delta [ret] in H. now inversion H. }
  destruct (bind (getitem item "eventDsc") _) as [dsc|]; [|discriminate H].
  destruct (getitem item "eventStartDate") as [d1|]; [|discriminate H].
  destruct (schematize_date pad_year d1 w) as [[start_date|] w1]; [|discriminate H].
  destruct (getitem item "eventEndDate") as [d2|]; [|discriminate H].
  destruct (schematize_date pad_year d2 w1) as [[end_date|] w2]; [|discriminate H].
  destruct (getitem item "eventStartTime") as [start_time|]; [|discriminate H].
  destruct (getitem item "eventEndTime") as [end_time|]; [|discriminate H].
  destruct (getitem item "eventUrlText") as [website|]; [|discriminate H].
  destruct (getitem item "freeOfChargeInd") as [free|]; [|discriminate H].
  match type of H with
  | match ?c with _ => _ end = _ => destruct c as [[cost|] w3] eqn:Ecost; [|discriminate H]
  end.
  assert (Hcost : str_forall isdigit cost = true).
  { destruct (truthy free).
    - cbv beta delta [ret] in Ecost. now injection Ecost as <- _.
    - destruct (getitem item "eventCostDsc") as [desc|]; [|discriminate Ecost].
      destruct (truthy desc);
        [|cbv beta delta [ret] in Ecost; now injection Ecost as <- _].
      assert (Hj : join_digits desc = Ret cost) by (cbn in Ecost; congruence).
      clear - Hj. destruct desc as [| | | |s|l|kv]; try discriminate Hj; cbn in Hj.
      + injection Hj as <-. apply str_forall_filter.
      + assert (G : forall l acc, str_forall isdigit acc = true ->
                      forall out,
                        for_each
                          (fun acc s =>
                             match s with
                             | VStr s => Ret (if str_isdigit s then acc +++ s else acc)
                             | _ => Raise AttributeError
                             end) l acc = Ret out ->
                        str_forall isdigit out = true).
        { clear. induction l as [|x l IH]; intros acc Ha out Ho; cbn in Ho.
          - now injection Ho as <-.
          - destruct x as [| | | |s| |]; try discriminate Ho. cbn [bind] in Ho.
            eapply IH; [|exact Ho].
            destruct (str_isdigit s) eqn:Es; [|exact Ha].
            rewrite str_forall_app, Ha. unfold str_isdigit in Es.
            apply andb_prop in Es. apply Es. }
        eapply G; [|exact Hj]. reflexivity.
      + injection Hj as <-.
        assert (G : forall (kv : list (string * pyval)) acc,
                   str_forall isdigit acc = true ->
                   str_forall isdigit
                     (fold_left
                        (fun acc p => if str_isdigit (fst p) then acc +++ fst p else acc)
                        kv acc) = true).
        { clear. induction kv as [|p kv IH]; intros acc Ha; [exact Ha|].
          cbn [fold_left]. apply IH.
          destruct (str_isdigit (fst p)) eqn:Es; [|exact Ha].
          rewrite str_forall_app, Ha. unfold str_isdigit in Es.
          apply andb_prop in Es. apply Es. }
        now apply G. }
  destruct (bind (getitem item "locationName") _) as [venue|]; [|discriminate H].
  destruct ((venue =? "Earth Products Yard")%string || str_in "Library" venue
            || (venue =? "")%string).
  { cbv beta delta [ret] in H. now inversion H. }
  match type of H with
  | match ?c with _ => _ end = _ => destruct c as [[site|] w4]; [|discriminate H]
  end.
  cbv beta delta [ret] in H. injection H as <- _.
  split; [reflexivity|]. split; [repeat constructor|].
  split; [repeat constructor; eexists; reflexivity|].
  exists cost. now split.
Qed.

Lemma emitted_In (rs : list (option event)) (ev : event) :
  In ev (emitted rs) -> In (Some ev) rs.
Proof.
  induction rs as [|[ev'|] rs IH]; cbn; [tauto| |auto].
  intros [-> | H]; auto.
Qed.

Lemma schematize_events_each (event_items : list pyval) (w w' : world)
    (events : list event) (ev : event) :
  schematize_events html_parser srv pad_year (VList event_items) w = (Ret events, w') ->
  In ev events ->
  exists event_item w1 w2,
    In event_item event_items /\
    schematize_event html_parser srv pad_year event_item w1 = (Ret (Some ev), w2).
Proof.
  unfold schematize_events, bind_io, lift. cbn [iter]. intros H Hin.
  apply schematize_loop_trace in H. destruct H as (rs & HF & ->).
  cbn [app] in Hin. apply emitted_In in Hin.
  induction HF as [|event_item r items rs' (w1 & w2 & Hr) HF IH]; [contradiction|].
  destruct Hin as [-> | Hin].
  - exists event_item, w1, w2. split; [now left | exact Hr].
  - destruct (IH Hin) as (it & wa & wb & Hi & Hrun).
    exists it, wa, wb. split; [now right | exact Hrun].
Qed.

(** In every record [schematize_events] returns, the name and
    the venue are normal strings that pass the two exclusion tests: the
    name contains neither "Task Force" nor "Forestry Commission", and
    the venue is not empty, is not "Earth Products Yard" and does not
    contain "Library".  The replacement text for an empty venue is
    therefore never used. *)
Theorem schematize_events_kept (event_items : list pyval) (w w' : world)
    (events : list event) :
  schematize_events html_parser srv pad_year (VList event_items) w = (Ret events, w') ->
  Forall (fun ev =>
            exists name venue,
              assoc "Event Name" ev = Some (VStr name) /\
              assoc "Event Venue Name" ev = Some (VStr venue) /\
              name_excluded name = false /\ venue_excluded venue = false /\
              normal name /\ normal venue)
         events.
Proof.
  intro H. apply Forall_forall. intros ev Hin.
  destruct (schematize_events_each _ _ _ _ _ H Hin) as (it & w1 & w2 & _ & Hrun).
  apply schematize_event_inv in Hrun.
  destruct Hrun as (item & name & _ & Hname & Hr).
  destruct (name_excluded name) eqn:En; [discriminate Hr|].
  destruct Hr as (venue & Hvenue & Hr).
  destruct (venue_excluded venue) eqn:Ev; [discriminate Hr|].
  destruct Hr as (ev' & cost & [= <-] & Hn & Hv & _).
  exists name, venue. do 4 (split; [assumption|]).
  unfold normalized_name, normalized_venue in Hname, Hvenue.
  destruct (getitem item "eventName") as [vn|]; [|discriminate Hname].
  destruct (getitem item "locationName") as [vl|]; [|discriminate Hvenue].
  cbn [bind] in Hname, Hvenue. split.
  - destruct vn as [| | | |s|[|x l]|[|p kv]]; try discriminate Hname.
    + now apply parse_event_name_normal in Hname.
    + now apply html_textraction_normal in Hname.
    + now apply html_textraction_normal in Hname.
  - now apply html_textraction_normal in Hvenue.
Qed.

(** Every record [schematize_events] returns has the fourteen
    keys of the schema, in the same order, and carries the same five
    fixed values: the time zone, the organizer, the currency symbol,
    "not an all-day event" and an empty category. *)
Theorem schematize_events_schema (event_items : list pyval) (w w' : world)
    (events : list event) :
  schematize_events html_parser srv pad_year (VList event_items) w = (Ret events, w') ->
  Forall (fun ev =>
            map fst ev = schema_keys /\
            Forall (fun kv => assoc (fst kv) ev = Some (snd kv)) constants) events.
Proof.
  intro H. apply Forall_forall. intros ev Hin.
  destruct (schematize_events_each _ _ _ _ _ H Hin) as (it & w1 & w2 & _ & Hrun).
  apply schematize_event_record in Hrun. split; apply Hrun.
Qed.


(** At every stage of a run of [main], whatever the server answers,
    the requests sent are listing requests, of offsets 0, 5, ..., 5(k-1)
    for some k of at least 1, followed by searches by event name; no
    search is sent while the listing is still going.  When the first
    answer reports an integer [n], [main] ends as soon as the listing
    loop is given as many iterations as there are pages of 5 that hold
    [n] events. *)
Theorem main_requests (fuel : nat) (today : string) (w : world) :
  exists k names,
    (1 <= k)%nat /\
    sent (snd (main html_parser srv pad_year fuel today w)) =
      sent w ++ page_requests today k ++ map EventSearch names /\
    (fst (main html_parser srv pad_year fuel today w) = None -> names = []) /\
    (forall n, reports srv today w n -> (page_count n <= fuel)%nat ->
               fst (main html_parser srv pad_year fuel today w) <> None).
Proof.
  destruct (get_arlington_events_run srv today fuel w) as (k & Hk & Hs & Hn & Hv).
  unfold main.
  destruct (get_arlington_events srv fuel today w) as [[[v|e]|] w1];
    cbn [snd fst] in Hs, Hn, Hv |- *.
  - destruct (Hv v eq_refl) as [-> | [event_items ->]].
    + exists k, []. split; [exact Hk|]. cbn. rewrite app_nil_r.
      split; [exact Hs|]. split; [trivial | intros; discriminate].
    + destruct (schematize_loop_sent event_items [] w1) as (names & Hnames & _).
      exists k, names. split; [exact Hk|].
      unfold schematize_events, bind_io, lift in *. cbn [iter] in *.
      destruct (schematize_loop html_parser srv pad_year event_items [] w1) as [o w2].
      cbn [snd fst] in Hnames |- *. rewrite Hnames, Hs.
      split; [now rewrite app_assoc | split; intros; discriminate].
  - exists k, []. split; [exact Hk|]. cbn. rewrite app_nil_r.
    split; [exact Hs|]. split; [trivial | intros; discriminate].
  - exists k, []. split; [exact Hk|]. cbn. rewrite app_nil_r.
    split; [exact Hs|]. split; [trivial|]. intros n Hr Hle _.
    now apply (proj2 (Hn n Hr) Hle).
Qed.

End Effects.

(** A count of 1e999: after a thousand iterations the listing is still
    going. *)
Lemma get_arlington_events_endless_witness :
  fst (get_arlington_events mock_endless 1000 "2026-11-04" (World [] [])) = None /\
  List.length (sent (snd (get_arlington_events mock_endless 1000 "2026-11-04"
                            (World [] [])))) = 1000%nat.
Proof.
  rewrite (get_arlington_events_endless mock_endless "2026-11-04" (World [] []) 1000).
  - split; [reflexivity | vm_compute; reflexivity].
  - do 2 eexists. repeat split.
  - intro j. do 3 eexists. repeat split.
Defined.

(** The search for the cleanup of 7 November finds the Sunday event
    first and passes over it. *)
Lemma get_event_website_first_match_witness :
  fst (get_event_website search_server true "Stream Cleanup" "2026-11-07" "2026-11-07"
         (World [] [])) = Ret (VStr "https://example.org/saturday") /\
  exists r data items,
    search_server [] (EventSearch "Stream Cleanup") = Ret r /\
    json r = Ret data /\ page_items data = Ret items /\
    ((exists pre item post,
         items = pre ++ item :: post /\
         Forall (other_dates true "2026-11-07" "2026-11-07") pre /\
         item_dates true item = Ret ("2026-11-07", "2026-11-07") /\
         item_website item = Ret (VStr "https://example.org/saturday")) \/
     (Forall (other_dates true "2026-11-07" "2026-11-07") items /\
      VStr "https://example.org/saturday" = VNone)).
Proof.
  split; [reflexivity|].
  exact (get_event_website_first_match search_server true "Stream Cleanup" "2026-11-07"
           "2026-11-07" (World [] []) (VStr "https://example.org/saturday") eq_refl).
Defined.

(** A walk, then an item without its wrapper key: the record of the
    walk is lost with the [KeyError]. *)
Lemma schematize_events_aborts_witness :
  schematize_events text_parser offline true
    (VList ([api_item "Bird Walk" "Long Branch Nature Center" true VNone]
            ++ VDict [("id", VInt 7)] :: [cleanup])) (World [] []) =
  (Raise KeyError, World [] []).
Proof.
  exact (schematize_events_aborts text_parser offline true
           [api_item "Bird Walk" "Long Branch Nature Center" true VNone] [cleanup]
           (VDict [("id", VInt 7)])
           [sample_event "Bird Walk" "Long Branch Nature Center" "0"]
           (World [] []) (World [] []) (World [] []) KeyError eq_refl eq_refl).
Defined.

(** A walk, then an item whose start date is null. *)
Lemma schematize_events_date_not_text_witness :
  schematize_events text_parser offline true
    (VList ([api_item "Bird Walk" "Long Branch Nature Center" true VNone]
            ++ undated :: [cleanup])) (World [] []) =
  (Raise TypeError, World [] []).
Proof.
  refine (schematize_events_date_not_text text_parser offline true
            [api_item "Bird Walk" "Long Branch Nature Center" true VNone] [cleanup]
            undated _ "Owl Prowl" "See event website." VNone
            [sample_event "Bird Walk" "Long Branch Nature Center" "0"]
            (World [] []) (World [] []) eq_refl eq_refl eq_refl eq_refl eq_refl eq_refl _).
  discriminate.
Defined.

Lemma schematize_events_kept_witness :
  schematize_events text_parser offline true (VList mixed_items) (World [] []) =
    (Ret mixed_events, World [] []) /\
  Forall (fun ev =>
            exists name venue,
              assoc "Event Name" ev = Some (VStr name) /\
              assoc "Event Venue Name" ev = Some (VStr venue) /\
              name_excluded name = false /\ venue_excluded venue = false /\
              normal name /\ normal venue)
         mixed_events.
Proof.
  split; [reflexivity|].
  exact (schematize_events_kept text_parser offline true mixed_items (World [] [])
           (World [] []) mixed_events eq_refl).
Defined.

(** A date written without padding. *)
Lemma schematize_date_shape_witness :
  schematize_date true (VStr "2026-3-7T9:05:00") (World [] []) =
    (Ret "2026-03-07", World [] []) /\
  ("2026-03-07" = "" \/
   exists t,
     strptime "2026-3-7T9:05:00" = Ret t /\ valid_datetime t = true /\
     "2026-03-07" = strftime_date true t /\
     (true = true \/ 1000 <= year t -> matches_shape "dddd-dd-dd" "2026-03-07" = true)).
Proof.
  split; [reflexivity|].
  exact (schematize_date_shape true "2026-3-7T9:05:00" (World [] []) (World [] [])
           "2026-03-07" eq_refl).
Defined.

Lemma schematize_events_schema_witness :
  schematize_events text_parser offline true (VList priced_items) (World [] []) =
    (Ret priced_events, World [] []) /\
  Forall (fun ev =>
            map fst ev = schema_keys /\
            Forall (fun kv => assoc (fst kv) ev = Some (snd kv)) constants) priced_events.
Proof.
  split; [reflexivity|].
  exact (schematize_events_schema text_parser offline true priced_items (World [] [])
           (World [] []) priced_events eq_refl).
Defined.


End ArlingtonEffectsFacts.

(** ** events/patc.py: the crawl and the table *)

Module PatcTableFacts.
Import Py Bs4 Datetime Pandas Patc PySpec TextSpec PatcSpec PatcSamples PatcTable.
Import PyFacts TextFacts PandasFacts PatcFacts.

(** *** Loops and dicts *)

Lemma for_each_ext {A St : Type} (f g : St -> A -> outcome St) (xs : list A) :
  (forall acc x, In x xs -> f acc x = g acc x) ->
  forall acc, for_each f xs acc = for_each g xs acc.
Proof.
  induction xs as [|x xs IH]; intros H acc; [reflexivity|].
  cbn [for_each]. rewrite (H acc x (or_introl eq_refl)).
  destruct (g acc x); [|reflexivity]. cbn [bind]. apply IH.
  intros acc' y Hy. apply H. now right.
Qed.

Lemma for_each_invariant {A St : Type} (body : St -> A -> outcome St) (I : St -> Prop)
    (xs : list A) :
  (forall acc x acc', body acc x = Ret acc' -> I acc -> I acc') ->
  forall acc out, for_each body xs acc = Ret out -> I acc -> I out.
Proof.
  intro Hb. induction xs as [|x xs IH]; intros acc out H Hacc.
  - cbn in H. now injection H as <-.
  - cbn [for_each] in H. destruct (body acc x) as [acc'|] eqn:E; [|discriminate H].
    cbn [bind] in H. eapply IH; eauto.
Qed.

Lemma Forall_dict_set {V : Type} (P : string * V -> Prop) (k : string) (v : V)
    (kv : list (string * V)) :
  P (k, v) -> Forall P kv -> Forall P (dict_set k v kv).
Proof.
  intros Hk. induction 1 as [|[k0 v0] kv H0 HF IH]; cbn [dict_set].
  - now constructor.
  - destruct (k =? k0)%string; constructor; auto.
Qed.

Lemma assoc_none_keys {V : Type} (k : string) (kv : list (string * V)) :
  assoc k kv = None <-> ~ In k (map fst kv).
Proof.
  induction kv as [|[k0 v0] kv IH]; cbn [assoc map fst In]; [tauto|].
  destruct (k =? k0)%string eqn:E.
  - apply String.eqb_eq in E. subst. split; [discriminate | tauto].
  - apply String.eqb_neq in E. rewrite IH. split; [intros H [F|F]; auto | tauto].
Qed.

(** *** The pages *)

Lemma posixpath_tail_no_slash (p : string) : str_in "/" (posixpath_tail p) = false.
Proof.
  induction p as [|c p IH]; [reflexivity|].
  cbn [posixpath_tail]. destruct (str_in "/" p) eqn:E; [exact IH|].
  destruct (c =? "/")%char eqn:Ec; [exact E|].
  cbn [str_in prefix]. destruct (ascii_dec "/" c) as [Hc|N]; [|exact E].
  subst c. rewrite Ascii.eqb_refl in Ec. discriminate Ec.
Qed.

Lemma posixpath_join_custom (name : string) :
  str_in "/" name = false -> posixpath_join "Custom" name = "Custom/" +++ name.
Proof.
  intro H. unfold posixpath_join. now rewrite (str_in_absent_prefix _ _ H).
Qed.

Section Pages.
Variable site : web.

Lemma make_request_content_custom (name : string) :
  make_request_content site ("Custom/" +++ name) = site (URL_BASE +++ "Custom/" +++ name).
Proof. reflexivity. Qed.

(** [find_event_data] lets three kinds of exception out: the one
    of the request, the [ValueError] of a paragraph that does not hold
    exactly one emphasized element (or one anchor, or any child), and
    the [AttributeError] of an anchor without address.  The
    [IndexError] of a page without header or paragraph never leaves
    it. *)
Theorem find_event_data_raises (link : string) (e : exn) :
  find_event_data site link = Raise e ->
  make_request_content site link = Raise e \/ e = ValueError \/ e = AttributeError.
Proof.
  unfold find_event_data.
  destruct (make_request_content site link) as [res|e0]; cbn [bind];
    [|intro H; injection H as <-; now left].
  unfold item_m1.
  destruct (rev (find_all "th" res)) as [|th ths]; cbn [bind]; [discriminate|].
  destruct (rev (find_all "p" res)) as [|p ps]; cbn [bind]; [discriminate|].
  destruct (for_each read_para (find_all "p" res) _) as [results|e1] eqn:E; cbn [bind];
    [discriminate|].
  intro H. injection H as <-. right.
  exact (for_each_raises_only read_para (fun e => e = ValueError \/ e = AttributeError)
           _ read_para_raises _ _ E).
Qed.

Lemma read_para_tidy (results results' : list (string * string)) (para : node) :
  read_para results para = Ret results' -> tidy_record results -> tidy_record results'.
Proof.
  unfold read_para. destruct (existsb _ KEYWORDS); [|now intros [= <-]].
  destruct (one (find_all "strong" para)) as [header|]; [|discriminate]. cbn [bind].
  destruct (last (children para)) as [value|]; [|discriminate]. cbn [bind].
  match goal with
  | |- bind ?c _ = _ -> _ => destruct c as [v|]; [|discriminate]
  end.
  cbn [bind].
  match goal with
  | |- bind ?c _ = _ -> _ => destruct c as [text|]; [|discriminate]
  end.
  cbn [bind]. intros [= <-] (Hn & Hd & Hs & Ha).
  repeat split.
  - rewrite assoc_dict_set. destruct (_ =? _)%string; [discriminate | exact Hn].
  - rewrite assoc_dict_set. destruct (_ =? _)%string; [discriminate | exact Hd].
  - apply Forall_dict_set; [|exact Hs]. apply strip_idem.
  - apply Forall_dict_set; [|exact Ha]. right. right.
    apply str_forall_strip, str_forall_filter.
Qed.

Lemma find_event_data_keeps_tidy (link : string) (r : list (string * string)) :
  find_event_data site link = Ret (Some r) -> tidy_record r.
Proof.
  unfold find_event_data.
  destruct (make_request_content site link) as [res|]; [|discriminate]. cbn [bind].
  destruct (item_m1 (find_all "th" res)) as [th|[]]; cbn [bind]; try discriminate.
  destruct (item_m1 (find_all "p" res)) as [p|[]]; cbn [bind]; try discriminate.
  destruct (for_each read_para (find_all "p" res) _) as [results|] eqn:E; [|discriminate].
  cbn [bind]. intros [= <-].
  eapply (for_each_invariant read_para tidy_record); [|exact E|].
  - intros acc x acc' Hx. now apply read_para_tidy with (para := x).
  - split; [discriminate|]. split; [discriminate|].
    split; repeat constructor; cbn [fst snd]; auto; apply strip_idem.
Qed.

(** A record [find_event_data] returns always holds the keys
    "Event Name" and "Description", so it is never empty; each of its
    values has no blank at either end; and the value of every other key
    is ASCII only. *)
Theorem find_event_data_tidy (link : string) (r : list (string * string)) :
  find_event_data site link = Ret (Some r) -> tidy_record r /\ r <> [].
Proof.
  intro H. apply find_event_data_keeps_tidy in H. split; [exact H|].
  destruct H as (Hn & _). intros ->. now apply Hn.
Qed.

(** What the crawl collects comes from [find_event_data], one record
    at most per detail page. *)
Lemma crawl_records (P : list (string * string) -> Prop) (links : list string) :
  (forall link r, find_event_data site link = Ret (Some r) -> P r) ->
  forall acc out,
    for_each (visit_link site) links acc = Ret out ->
    Forall P acc ->
    Forall P out /\ (List.length out <= List.length acc + List.length links)%nat.
Proof.
  intro HP. induction links as [|link links IH]; intros acc out H Hacc.
  - cbn in H. injection H as <-. split; [exact Hacc | lia].
  - cbn [for_each] in H. unfold visit_link at 1 in H.
    destruct (find_event_data site link) as [[r|]|] eqn:E; cbn [bind] in H;
      [|apply IH in H; [cbn [List.length]; split; [apply H | lia] | exact Hacc]
       |discriminate H].
    destruct r as [|kv r].
    + cbn [bind] in H. apply IH in H; [cbn [List.length]; split; [apply H | lia] | exact Hacc].
    + cbn [bind] in H. apply IH in H.
      * rewrite length_app in H. cbn [List.length] in H |- *. split; [apply H | lia].
      * apply Forall_app. split; [exact Hacc|]. constructor; [|constructor]. eauto.
Qed.

End Pages.

(** [main] asks the site for nothing but the calendar and pages
    of the Custom directory named without a slash, whatever the
    addresses of the anchors: two sites that agree on these URLs give
    the same result. *)
Theorem main_reads_only (site1 site2 : web) (parse : datetime -> string -> outcome datetime)
    (now : nat -> datetime) :
  (forall url, crawl_url url -> site1 url = site2 url) ->
  main site1 parse now = main site2 parse now.
Proof.
  intro H.
  assert (Hv : forall records event, visit site1 records event = visit site2 records event).
  { intros records event. unfold visit. cbv zeta.
    destruct (str_in "calendar.aspx" _); [|reflexivity].
    set (name := posixpath_tail _).
    rewrite (posixpath_join_custom name) by apply posixpath_tail_no_slash.
    unfold find_event_data. rewrite !make_request_content_custom.
    rewrite (H (URL_BASE +++ "Custom/" +++ name)); [reflexivity|].
    right. exists name. split; [apply posixpath_tail_no_slash | reflexivity]. }
  unfold main.
  change (make_request_content site1 CALENDAR_BASE_URL)
    with (site1 (URL_BASE +++ CALENDAR_BASE_URL)).
  change (make_request_content site2 CALENDAR_BASE_URL)
    with (site2 (URL_BASE +++ CALENDAR_BASE_URL)).
  rewrite (H _ (or_introl eq_refl)).
  destruct (site2 (URL_BASE +++ CALENDAR_BASE_URL)) as [events|]; [|reflexivity].
  cbn [bind]. rewrite (for_each_ext (visit site1) (visit site2)); [reflexivity|].
  intros acc x _. apply Hv.
Qed.

(** *** The table *)

Lemma existsb_eqb_false (k : string) (l : list string) :
  existsb (String.eqb k) l = false <-> ~ In k l.
Proof.
  split.
  - intros H Hin. assert (T : existsb (String.eqb k) l = true).
    { apply existsb_exists. exists k. split; [exact Hin | apply String.eqb_refl]. }
    congruence.
  - intro H. destruct (existsb (String.eqb k) l) eqn:E; [|reflexivity].
    apply existsb_exists in E. destruct E as (x & Hx & Ex).
    apply String.eqb_eq in Ex. now subst.
Qed.

Lemma fold_add_label_inv (ks acc : list string) (k : string) :
  In k (fold_left add_label ks acc) -> In k acc \/ In k ks.
Proof.
  revert acc. induction ks as [|k' ks IH]; intros acc H; [now left|].
  cbn [fold_left] in H. apply IH in H. destruct H as [H | H]; [|right; now right].
  unfold add_label in H. destruct (existsb _ acc); [now left|].
  apply in_app_or in H. destruct H as [H | [-> | []]]; [now left | right; now left].
Qed.

Lemma all_labels_inv (records : list (list (string * string))) (acc : list string)
    (k : string) :
  In k (fold_left (fun acc r => fold_left add_label (map fst r) acc) records acc) ->
  In k acc \/ exists r, In r records /\ In k (map fst r).
Proof.
  revert acc. induction records as [|r records IH]; intros acc H; [now left|].
  cbn [fold_left] in H. apply IH in H. destruct H as [H | (r' & Hr & Hk)].
  - apply fold_add_label_inv in H. destruct H as [H | H]; [now left|].
    right. exists r. split; [now left | exact H].
  - right. exists r'. split; [now right | exact Hk].
Qed.

Lemma assoc_tabulate_none {V : Type} (f : string -> V) (labels : list string) (k : string) :
  ~ In k labels -> assoc k (map (fun k => (k, f k)) labels) = None.
Proof.
  intro H. apply assoc_none_keys. rewrite map_map. cbn [fst]. now rewrite map_id.
Qed.

(** A key no record has is no column of the table built from the
    records. *)
Lemma from_records_no_column (records : list (list (string * string))) (k : string) :
  Forall (fun r => assoc k r = None) records ->
  assoc k (columns (from_records records)) = None.
Proof.
  intro H. unfold from_records. cbn [columns].
  apply (assoc_tabulate_none (fun k => map (cell_of k) records)).
  intro Hin. apply all_labels_inv in Hin. destruct Hin as [[] | (r & Hr & Hk)].
  rewrite Forall_forall in H. specialize (H r Hr). now apply assoc_none_keys in H.
Qed.

Lemma has_label_In (k : string) (df : DataFrame) (c : list cell) :
  In (k, c) (columns df) -> has_label k df = true.
Proof.
  intro H. unfold has_label. apply existsb_exists.
  exists (k, c). split; [exact H | apply String.eqb_refl].
Qed.

Lemma has_label_false (k : string) (df : DataFrame) :
  has_label k df = false <-> ~ In k (map fst (columns df)).
Proof.
  unfold has_label. split.
  - intros H Hin. apply in_map_iff in Hin. destruct Hin as (c & <- & Hc).
    assert (T : existsb (fun c0 => (fst c0 =? fst c)%string) (columns df) = true).
    { apply existsb_exists. exists c. split; [exact Hc | apply String.eqb_refl]. }
    congruence.
  - intro H. destruct (existsb _ (columns df)) eqn:E; [|reflexivity].
    apply existsb_exists in E. destruct E as (c & Hc & Ec).
    apply String.eqb_eq in Ec. subst k. exfalso. apply H. now apply in_map.
Qed.

(** A label that is no target of the mapper is absent after the
    renaming when the mapper renames it or the table does not have
    it. *)
Lemma rename_absent (mapper : list (string * string)) (df : DataFrame) (k : string) :
  ~ In k (map snd mapper) ->
  assoc k mapper <> None \/ has_label k df = false ->
  has_label k (rename mapper df) = false.
Proof.
  intros Ht Hk. apply has_label_false. unfold rename. cbn [columns].
  rewrite map_map. cbn [fst]. intro Hin. apply in_map_iff in Hin.
  destruct Hin as (c & Hc & Hin).
  destruct (assoc (fst c) mapper) as [k'|] eqn:E.
  - subst k'. apply Ht. apply assoc_In in E.
    change k with (snd (fst c, k)). now apply in_map.
  - subst k. destruct Hk as [Hk | Hk]; [contradiction|].
    apply has_label_false in Hk. apply Hk. now apply in_map.
Qed.

(** A pass stops with [TypeError] at its first cell that is no string
    when the strings before it can be parsed. *)
Lemma apply_not_text (parse : datetime -> string -> outcome datetime)
    (now : nat -> datetime) (f : datetime -> cell) (cells : list cell) :
  Forall (fun c => forall s, c = CStr s -> accepted parse now s) cells ->
  Exists (fun c => forall s, c <> CStr s) cells ->
  forall n,
    fst (apply (fun x => t <- parse_cell parse now x ;; ret_timed (f t))%timed cells n) =
    Raise TypeError.
Proof.
  intros HF HE. induction HE as [c cells Hc | c cells HE IH]; intro n.
  - cbn [apply]. unfold bind_timed at 1. unfold parse_cell at 1.
    destruct c as [s| | | |]; try reflexivity. now destruct (Hc s).
  - inversion HF as [|? ? Hc HF']; subst. cbn [apply].
    unfold bind_timed at 1. unfold parse_cell at 1.
    destruct c as [s| | | |]; try reflexivity.
    destruct (Hc s eq_refl n) as [t Ht]. rewrite Ht. unfold ret_timed at 1.
    specialize (IH HF' (S n)).
    destruct (apply _ cells (S n)) as [[out|e] n']; cbn [fst] in IH |- *;
      [discriminate IH | exact IH].
Qed.

(** A pass that reads the clock once for each cell visits the cells in
    order, the cell of index i at the reading number n + i. *)
Lemma apply_each (f : cell -> timed cell) (cells : list cell) :
  (forall c n, snd (f c n) = S n) ->
  forall out n n',
    apply f cells n = (Ret out, n') ->
    n' = (n + List.length cells)%nat /\
    Forall2 (fun ic c' => fst (f (snd ic) (fst ic)) = Ret c')
            (combine (seq n (List.length cells)) cells) out.
Proof.
  intro Hf. induction cells as [|c cells IH]; intros out n n' H.
  - cbn in H. injection H as <- <-. split; [cbn; lia | constructor].
  - cbn [apply] in H. pose proof (Hf c n) as Hs.
    destruct (f c n) as [[c'|] n1] eqn:E; [|discriminate H]. cbn [snd] in Hs. subst n1.
    destruct (apply f cells (S n)) as [[cells'|] n2] eqn:E2; [|discriminate H].
    injection H as <- <-. destruct (IH _ _ _ E2) as [-> HF].
    split; [cbn [List.length]; lia|]. cbn [List.length seq combine].
    constructor; [|exact HF]. cbn [fst snd]. now rewrite E.
Qed.

Lemma Forall2_combine_map {A B C : Type} (g : A -> B) (R : nat * B -> C -> Prop)
    (xs : list A) :
  forall (ys : list C) (n : nat),
    Forall2 R (combine (seq n (List.length xs)) (map g xs)) ys ->
    Forall2 (fun ix y => R (fst ix, g (snd ix)) y) (combine (seq n (List.length xs)) xs) ys.
Proof.
  induction xs as [|x xs IH]; intros ys n H.
  - cbn in H |- *. inversion H. constructor.
  - cbn [map List.length seq combine] in H |- *. inversion H; subst.
    constructor; [assumption|]. now apply IH.
Qed.

Section Table.
Variable site : web.
Variable parse : datetime -> string -> outcome datetime.
Variable now : nat -> datetime.

(** Writing the three time columns leaves the other columns alone. *)
Lemma assoc_time_columns (k : string) (dates times dates' : list cell)
    (cols : list (string * list cell)) :
  ~ In k time_labels ->
  assoc k (dict_set "end_date" dates'
             (dict_set "start_time" times (dict_set "start_date" dates cols))) =
  assoc k cols.
Proof.
  intro Hk. rewrite !assoc_dict_set.
  destruct (k =? "end_date")%string eqn:E1;
    [apply String.eqb_eq in E1; subst; exfalso; apply Hk; cbn; tauto|].
  destruct (k =? "start_time")%string eqn:E2;
    [apply String.eqb_eq in E2; subst; exfalso; apply Hk; cbn; tauto|].
  destruct (k =? "start_date")%string eqn:E3;
    [apply String.eqb_eq in E3; subst; exfalso; apply Hk; cbn; tauto|].
  reflexivity.
Qed.

(** [format_df_time_columns] keeps the rows and touches three
    columns only: every column other than start_date, start_time and
    end_date is after the call what it was before, the two source
    columns "Start Date" and "Start Time" included. *)
Theorem format_df_time_columns_frame (df df' : DataFrame) (n n' : nat) (k : string) :
  format_df_time_columns parse now df n = (Ret df', n') ->
  ~ In k time_labels ->
  nrows df' = nrows df /\ assoc k (columns df') = assoc k (columns df).
Proof.
  intros H Hk. destruct (format_df_time_columns_inv parse now _ _ _ _ H)
    as (Hn & sd & st & dates & times & dates' & n1 & n2 & _ & _ & _ & _ & _ & Hcols).
  split; [exact Hn|]. rewrite Hcols. now apply assoc_time_columns.
Qed.

(** The table before the time columns are formatted has the column of
    a key exactly when a record has the key. *)
Lemma with_defaults_start (records : list (list (string * string))) (k : string) :
  assoc k assigned = None ->
  assoc k (columns (with_defaults (from_records records))) =
  if existsb (fun r => match assoc k r with Some _ => true | None => false end) records
  then Some (map (cell_of k) records) else None.
Proof.
  intro Hk. rewrite with_defaults_other by exact Hk.
  destruct (existsb _ records) eqn:E.
  - apply existsb_exists in E. destruct E as (r & Hr & Hs).
    apply from_records_column. exists r. split; [exact Hr|].
    destruct (assoc k r) as [v|] eqn:Ev; [|discriminate]. eapply assoc_key; eauto.
  - apply from_records_no_column. apply Forall_forall. intros r Hr.
    destruct (assoc k r) eqn:Ev; [|reflexivity].
    assert (T : existsb (fun r => match assoc k r with Some _ => true | None => false end)
                  records = true).
    { apply existsb_exists. exists r. split; [exact Hr|]. now rewrite Ev. }
    congruence.
Qed.

(** When the crawl collects no record with a "Start Date" -- in
    particular when it collects no record at all -- [main] raises
    [KeyError]: it never returns an empty table. *)
Theorem main_without_start_date (events : node) (records : list (list (string * string))) :
  make_request_content site CALENDAR_BASE_URL = Ret events ->
  crawl site events = Ret records ->
  Forall (fun r => assoc "Start Date" r = None) records ->
  main site parse now = Raise KeyError.
Proof.
  unfold crawl. intros Hev Hc Hn. unfold main. rewrite Hev. cbn [bind]. rewrite Hc. cbn [bind].
  fold (with_defaults (from_records records)).
  rewrite format_df_time_columns_passes.
  rewrite with_defaults_other by reflexivity.
  now rewrite from_records_no_column.
Qed.

(** When some of the records the crawl collects have a "Start
    Date" and some have none, and the dates there are can be parsed
    whenever the clock is read, [main] raises [TypeError]: one page
    without start date is enough to lose the whole table. *)
Theorem main_with_missing_start_date (events : node)
    (records : list (list (string * string))) :
  make_request_content site CALENDAR_BASE_URL = Ret events ->
  crawl site events = Ret records ->
  Exists (fun r => assoc "Start Date" r = None) records ->
  Exists (fun r => assoc "Start Date" r <> None) records ->
  Forall (fun r => forall s, assoc "Start Date" r = Some s -> accepted parse now s)
         records ->
  main site parse now = Raise TypeError.
Proof.
  unfold crawl. intros Hev Hc Hnone Hsome Hparse.
  unfold main. rewrite Hev. cbn [bind]. rewrite Hc. cbn [bind].
  fold (with_defaults (from_records records)).
  rewrite format_df_time_columns_passes.
  rewrite with_defaults_other by reflexivity.
  rewrite from_records_column.
  2:{ apply Exists_exists in Hsome. destruct Hsome as (r & Hr & Hs).
      exists r. split; [exact Hr|].
      destruct (assoc "Start Date" r) as [v|] eqn:Ev; [|contradiction].
      eapply assoc_key; eauto. }
  assert (Hp : fst (apply (to_date parse now) (map (cell_of "Start Date") records) 0%nat) =
               Raise TypeError).
  { apply (apply_not_text parse now (fun t => CDate (year t) (month t) (day t))).
    2:{ apply Exists_exists in Hnone. destruct Hnone as (r & Hr & Hs).
        apply Exists_exists. exists (cell_of "Start Date" r).
        split; [now apply in_map|]. unfold cell_of. rewrite Hs. discriminate. }
    apply Forall_forall. intros c Hin. apply in_map_iff in Hin.
    destruct Hin as (r & <- & Hr). rewrite Forall_forall in Hparse.
    specialize (Hparse r Hr). unfold cell_of.
    destruct (assoc "Start Date" r) as [v|]; [|discriminate].
    intros s [= <-]. now apply Hparse. }
  destruct (apply (to_date parse now) (map (cell_of "Start Date") records) 0%nat)
    as [[dates|e] n1]; cbn [fst] in Hp; [discriminate Hp|].
  injection Hp as ->. reflexivity.
Qed.

(** The stages of a run of [main] that does not raise, with what the
    records are known to be. *)
Lemma main_stages (df : DataFrame) :
  main site parse now = Ret df ->
  exists events records df2 df3 n',
    make_request_content site CALENDAR_BASE_URL = Ret events /\
    crawl site events = Ret records /\
    Forall tidy_record records /\
    (1 <= List.length records <= List.length (detail_links events))%nat /\
    format_df_time_columns parse now (with_defaults (from_records records)) 0%nat =
      (Ret df2, n') /\
    drop ["Start Date"; "Start Time"] df2 = Ret df3 /\
    df = rename RENAME_MAP df3 /\
    nrows df = List.length records.
Proof.
  intro H. destruct (main_inv site parse now df H)
    as (events & records & df2 & df3 & n' & Hev & Hc & Hf & Hd & ->).
  exists events, records, df2, df3, n'.
  pose proof Hc as Hc'. rewrite visit_links in Hc'.
  destruct (crawl_records site tidy_record (detail_links events)
              (find_event_data_keeps_tidy site)
              [] records Hc' (Forall_nil _)) as [Ht Hlen].
  destruct (format_df_time_columns_inv parse now _ _ _ _ Hf)
    as (Hn2 & sd & st & dates & times & dates' & n1 & n2 & Esd & _).
  destruct (drop_inv _ _ _ Hd) as (Hn3 & _).
  repeat split; trivial.
  - destruct records; [|cbn; lia].
    rewrite with_defaults_other in Esd by reflexivity. discriminate Esd.
  - cbn [nrows rename]. now rewrite Hn3, Hn2, with_defaults_nrows.
Qed.

(** A table [main] returns has one row per record of the crawl:
    at least one row, and at most one per detail link of the
    calendar. *)
Theorem main_rows (df : DataFrame) :
  main site parse now = Ret df ->
  exists events records,
    make_request_content site CALENDAR_BASE_URL = Ret events /\
    crawl site events = Ret records /\
    nrows df = List.length records /\
    (1 <= nrows df <= List.length (detail_links events))%nat.
Proof.
  intro H. destruct (main_stages df H)
    as (events & records & df2 & df3 & n' & Hev & Hc & _ & Hlen & _ & _ & _ & Hn).
  exists events, records. repeat split; trivial; lia.
Qed.

Lemma main_column (df2 df3 : DataFrame) (k : string) (c : list cell) :
  drop ["Start Date"; "Start Time"] df2 = Ret df3 ->
  existsb (String.eqb k) ["Start Date"; "Start Time"] = false ->
  assoc k (columns df2) = Some c ->
  In (final_label k, c) (columns (rename RENAME_MAP df3)).
Proof.
  intros Hd Hk Hc. destruct (drop_inv _ _ _ Hd) as (_ & Hkeep).
  rewrite <- (Hkeep k Hk) in Hc. apply assoc_In in Hc.
  now apply (in_renamed RENAME_MAP) in Hc.
Qed.

(** Every field of the records that [main] neither overwrites
    nor drops is a column of the table, under the label the renaming
    gives it, holding for each record, in the order of the crawl, the
    value of the field or NaN when the record lacks it. *)
Theorem main_carries_fields (df : DataFrame) (k : string) :
  main site parse now = Ret df ->
  carried k = true ->
  exists events records,
    make_request_content site CALENDAR_BASE_URL = Ret events /\
    crawl site events = Ret records /\
    ((exists r, In r records /\ assoc k r <> None) ->
     In (final_label k, map (cell_of k) records) (columns df)).
Proof.
  intros H Hk. destruct (main_stages df H)
    as (events & records & df2 & df3 & n' & Hev & Hc & _ & _ & Hf & Hd & -> & _).
  exists events, records. do 2 (split; [assumption|]).
  intros (r & Hr & Hkr).
  unfold carried in Hk. apply negb_true_iff, existsb_eqb_false in Hk.
  apply (main_column df2 df3 k); trivial.
  - apply existsb_eqb_false. intro Hin. apply Hk. apply in_or_app. now left.
  - assert (Hnt : ~ In k time_labels).
    { intro Hin. apply Hk. apply in_or_app. right. apply in_or_app. now right. }
    destruct (format_df_time_columns_inv parse now _ _ _ _ Hf)
      as (_ & sd & st & dates & times & dates' & n1 & n2 & _ & _ & _ & _ & _ & Hcols).
    rewrite Hcols, assoc_time_columns by exact Hnt.
    rewrite with_defaults_other.
    + apply from_records_column. exists r. split; [exact Hr|].
      destruct (assoc k r) as [v|] eqn:Ev; [|contradiction]. eapply assoc_key; eauto.
    + apply assoc_none_keys. intro Hin. apply Hk. apply in_or_app. right.
      apply in_or_app. now left.
Qed.

(** [main] returns a table only if every record of the crawl
    has a "Start Date" and a "Start Time" that the date parser accepts.
    The Event Start Date of a row is then the date parsed from the
    "Start Date" of its record, and its Event Start Time the time parsed
    from the "Start Time", printed as hours, minutes and seconds; the
    Event End Date is the date parsed from the "Start Date" once more.
    Each string is parsed with the default of its own reading of the
    clock: with k records, record i is read at the readings i for the
    start date, k + i for the start time and 2k + i for the end
    date. *)
Theorem main_time_columns (df : DataFrame) :
  main site parse now = Ret df ->
  exists events records dates times ends,
    make_request_content site CALENDAR_BASE_URL = Ret events /\
    crawl site events = Ret records /\
    In ("Event Start Date", dates) (columns df) /\
    In ("Event Start Time", times) (columns df) /\
    In ("Event End Date", ends) (columns df) /\
    Forall2 (fun ir c =>
               exists s t, assoc "Start Date" (snd ir) = Some s /\
                           parse (midnight (now (fst ir))) s = Ret t /\
                           c = CDate (year t) (month t) (day t))
            (combine (seq 0 (List.length records)) records) dates /\
    Forall2 (fun ir c =>
               exists s t, assoc "Start Time" (snd ir) = Some s /\
                           parse (midnight (now (fst ir))) s = Ret t /\
                           c = CStr (strftime_time t))
            (combine (seq (List.length records) (List.length records)) records) times /\
    Forall2 (fun ir c =>
               exists s t, assoc "Start Date" (snd ir) = Some s /\
                           parse (midnight (now (fst ir))) s = Ret t /\
                           c = CDate (year t) (month t) (day t))
            (combine (seq (2 * List.length records) (List.length records)) records) ends.
Proof.
  intro H. destruct (main_stages df H)
    as (events & records & df2 & df3 & n' & Hev & Hc & _ & _ & Hf & Hd & -> & _).
  destruct (format_df_time_columns_inv parse now _ _ _ _ Hf)
    as (_ & sd & st & dates & times & ends & n1 & n2 & Esd & Est & Hdates & Htimes & Hends &
        Hcols).
  exists events, records, dates, times, ends. do 2 (split; [assumption|]).
  rewrite with_defaults_start in Esd, Est by reflexivity.
  destruct (existsb _ records) in Esd; [|discriminate Esd]. injection Esd as <-.
  destruct (existsb _ records) in Est; [|discriminate Est]. injection Est as <-.
  apply (apply_each _ _ (to_date_reads parse now)) in Hdates. destruct Hdates as [-> Hdates].
  apply (apply_each _ _ (to_time_reads parse now)) in Htimes. destruct Htimes as [-> Htimes].
  apply (apply_each _ _ (to_date_reads parse now)) in Hends. destruct Hends as [_ Hends].
  repeat rewrite length_map in Hdates. repeat rewrite length_map in Htimes.
  repeat rewrite length_map in Hends. cbn [Nat.add] in Htimes, Hends.
  replace (List.length records + List.length records)%nat
    with (2 * List.length records)%nat in Hends by lia.
  assert (Hd' : forall n cells,
             Forall2 (fun ic c' => fst (to_date parse now (snd ic) (fst ic)) = Ret c')
               (combine (seq n (List.length records))
                  (map (cell_of "Start Date") records)) cells ->
             Forall2 (fun ir c =>
                        exists s t, assoc "Start Date" (snd ir) = Some s /\
                                    parse (midnight (now (fst ir))) s = Ret t /\
                                    c = CDate (year t) (month t) (day t))
               (combine (seq n (List.length records)) records) cells).
  { intros n cells HF. apply Forall2_combine_map in HF.
    eapply Forall2_impl; [|exact HF]. intros [i r] c. cbn [fst snd].
    unfold to_date, bind_timed, parse_cell, ret_timed, cell_of.
    destruct (assoc "Start Date" r) as [s|]; [|discriminate].
    destruct (parse (midnight (now i)) s) as [t|] eqn:Ep; [|discriminate].
    cbn [fst]. intros [= <-]. exists s, t. repeat split. exact Ep. }
  split; [|split; [|split; [|split; [|split]]]].
  - apply (main_column df2 df3 "start_date" dates Hd eq_refl).
    rewrite Hcols. assoc_set. reflexivity.
  - apply (main_column df2 df3 "start_time" times Hd eq_refl).
    rewrite Hcols. assoc_set. reflexivity.
  - apply (main_column df2 df3 "end_date" ends Hd eq_refl).
    rewrite Hcols. assoc_set. reflexivity.
  - now apply Hd'.
  - apply Forall2_combine_map in Htimes.
    eapply Forall2_impl; [|exact Htimes]. intros [i r] c. cbn [fst snd].
    unfold to_time, bind_timed, parse_cell, ret_timed, cell_of.
    destruct (assoc "Start Time" r) as [s|]; [|discriminate].
    destruct (parse (midnight (now i)) s) as [t|] eqn:Ep; [|discriminate].
    cbn [fst]. intros [= <-]. exists s, t. repeat split. exact Ep.
  - now apply Hd'.
Qed.

Lemma drop_absent (labels : list string) (df df' : DataFrame) (k : string) :
  drop labels df = Ret df' -> In k labels -> has_label k df' = false.
Proof.
  unfold drop. destruct (forallb _ labels); [|discriminate].
  intros [= <-] Hin. apply has_label_false. cbn [columns]. intro H.
  apply in_map_iff in H. destruct H as (c & <- & Hc). apply filter_In in Hc.
  destruct Hc as [_ Hc]. apply negb_true_iff, existsb_eqb_false in Hc. contradiction.
Qed.

(** A table [main] returns always has the twelve columns Event
    Name, Event Description, the seven fixed fields, Event Start Date,
    Event Start Time and Event End Date; it never has a column under
    one of the raw labels "Start Date", "Start Time" or a label the
    renaming replaces.  (Event Website and Event Category are not among
    the columns it always has.) *)
Theorem main_labels (df : DataFrame) :
  main site parse now = Ret df ->
  Forall (fun k => has_label k df = true) output_labels /\
  Forall (fun k => has_label k df = false) raw_labels.
Proof.
  intro H. destruct (main_stages df H)
    as (events & records & df2 & df3 & n' & Hev & Hc & Ht & Hlen & Hf & Hd & -> & _).
  split.
  - change output_labels with (map final_label source_labels).
    apply Forall_map.
    assert (Hsrc : Forall (fun k => exists c, assoc k (columns df2) = Some c) source_labels).
    { destruct (format_df_time_columns_inv parse now _ _ _ _ Hf)
        as (_ & sd & st & dates & times & dates' & n1 & n2 & _ & _ & _ & _ & _ & Hcols).
      assert (Hrec : forall k, assoc k assigned = None -> ~ In k time_labels ->
                       Forall (fun r => assoc k r <> None) records ->
                       exists c, assoc k (columns df2) = Some c).
      { intros k Ha Hnt Hall.
        rewrite Hcols, assoc_time_columns by exact Hnt.
        rewrite with_defaults_other by exact Ha.
        destruct records as [|r records]; [cbn in Hlen; lia|].
        inversion Hall as [|? ? Hr _]; subst.
        destruct (assoc k r) as [v|] eqn:Ev; [|contradiction].
        eexists. apply from_records_column. exists r. split; [now left|].
        eapply assoc_key; eauto. }
      assert (Hdef : forall k v, In (k, v) assigned -> ~ In k time_labels ->
                       exists c, assoc k (columns df2) = Some c).
      { intros k v Hin Hnt.
        rewrite Hcols, assoc_time_columns by exact Hnt.
        eexists. now apply with_defaults_assigned with (v := v). }
      assert (Hno : forall k, In k (map fst assigned) -> ~ In k time_labels).
      { intros k Hin Hk. cbn in Hin, Hk.
        repeat (destruct Hin as [<- | Hin]; [intuition discriminate|]). contradiction. }
      unfold source_labels. repeat constructor.
      - apply Hrec; [reflexivity | cbn; intuition discriminate |].
        eapply Forall_impl; [|exact Ht]. intros r Hr. apply Hr.
      - apply Hrec; [reflexivity | cbn; intuition discriminate |].
        eapply Forall_impl; [|exact Ht]. intros r Hr. apply Hr.
      - apply (Hdef _ (CBool false)); [cbn; tauto | apply Hno; cbn; tauto].
      - apply (Hdef _ (CStr "America/New_York")); [cbn; tauto | apply Hno; cbn; tauto].
      - apply (Hdef _ (CStr "23:59:59")); [cbn; tauto | apply Hno; cbn; tauto].
      - apply (Hdef _ (CInt 0)); [cbn; tauto | apply Hno; cbn; tauto].
      - apply (Hdef _ (CStr "$")); [cbn; tauto | apply Hno; cbn; tauto].
      - apply (Hdef _ (CStr "Please refer to website")); [cbn; tauto | apply Hno; cbn; tauto].
      - apply (Hdef _ (CStr "Potomac Appalachian Trail Club"));
          [cbn; tauto | apply Hno; cbn; tauto].
      - exists dates. rewrite Hcols. assoc_set. reflexivity.
      - exists times. rewrite Hcols. assoc_set. reflexivity.
      - exists dates'. rewrite Hcols. assoc_set. reflexivity. }
    assert (Hkept : Forall (fun k => existsb (String.eqb k) ["Start Date"; "Start Time"] =
                                     false) source_labels)
      by (repeat constructor).
    rewrite Forall_forall in Hsrc, Hkept |- *. intros k Hk.
    destruct (Hsrc k Hk) as [c Hcol].
    apply (has_label_In _ _ c). eapply main_column; eauto.
  - apply Forall_forall. intros k Hk. apply rename_absent.
    + cbn in Hk |- *.
      repeat (destruct Hk as [<- | Hk]; [intuition discriminate|]). contradiction.
    + destruct Hk as [<- | [<- | Hk]].
      * right. eapply drop_absent; [exact Hd | cbn; tauto].
      * right. eapply drop_absent; [exact Hd | cbn; tauto].
      * left. apply in_map_iff in Hk. destruct Hk as ((k0 & k') & <- & Hin). cbn [fst].
        cbn in Hin.
        repeat (destruct Hin as [[= <- <-] | Hin]; [discriminate|]). contradiction.
Qed.

End Table.

(** *** Sample crawls *)

(** The page with two emphasized elements in its date paragraph. *)
Lemma find_event_data_raises_witness :
  find_event_data ambiguous_site "Custom/calendar.aspx?id=4" = Raise ValueError /\
  (make_request_content ambiguous_site "Custom/calendar.aspx?id=4" = Raise ValueError \/
   ValueError = ValueError \/ ValueError = AttributeError).
Proof.
  split; [reflexivity|].
  exact (find_event_data_raises ambiguous_site "Custom/calendar.aspx?id=4" ValueError eq_refl).
Defined.

(** A page with a category and a website. *)
Lemma find_event_data_tidy_witness :
  find_event_data full_site "Custom/calendar.aspx?id=1" = Ret (Some full_record) /\
  tidy_record full_record /\ full_record <> [].
Proof.
  split; [reflexivity|].
  exact (find_event_data_tidy full_site "Custom/calendar.aspx?id=1" full_record eq_refl).
Defined.

(** The anchor points out of the calendar; what its address serves
    does not matter, the crawl asks the Custom directory. *)
Lemma main_reads_only_witness :
  main (foreign_site (Ret walk)) sample_parse noon =
  main (foreign_site (Raise (RequestException "connection refused"))) sample_parse noon.
Proof.
  apply (main_reads_only (foreign_site (Ret walk))
           (foreign_site (Raise (RequestException "connection refused"))) sample_parse noon).
  intros url [-> | (name & _ & ->)]; reflexivity.
Defined.

Lemma format_df_time_columns_frame_witness :
  format_df_time_columns sample_parse noon small_table 0%nat = (Ret small_formatted, 3%nat) /\
  nrows small_formatted = nrows small_table /\
  assoc "Start Date" (columns small_formatted) = assoc "Start Date" (columns small_table).
Proof.
  split; [reflexivity|].
  apply (format_df_time_columns_frame sample_parse noon small_table small_formatted
           0%nat 3%nat "Start Date" eq_refl).
  cbn. intuition discriminate.
Defined.

(** A calendar whose only page has no labelled field. *)
Lemma main_without_start_date_witness :
  crawl notice_only_site (index_page ["5"]) = Ret [notice_record] /\
  main notice_only_site sample_parse noon = Raise KeyError.
Proof.
  split; [reflexivity|].
  apply (main_without_start_date notice_only_site sample_parse noon (index_page ["5"])
           [notice_record] eq_refl eq_refl).
  repeat constructor.
Defined.

(** The same page between two good ones. *)
Lemma main_with_missing_start_date_witness :
  main undated_site sample_parse noon = Raise TypeError.
Proof.
  apply (main_with_missing_start_date undated_site sample_parse noon
           (index_page ["1"; "5"; "3"])
           [record_of undated_site "Custom/calendar.aspx?id=1"; notice_record;
            record_of undated_site "Custom/calendar.aspx?id=3"] eq_refl eq_refl).
  - right. left. reflexivity.
  - left. discriminate.
  - repeat constructor; intros s [= <-] n; eexists; reflexivity.
Defined.

Lemma main_time_columns_witness :
  main sample_site sample_parse noon = Ret sample_table /\
  exists events records dates times ends,
    make_request_content sample_site CALENDAR_BASE_URL = Ret events /\
    crawl sample_site events = Ret records /\
    In ("Event Start Date", dates) (columns sample_table) /\
    In ("Event Start Time", times) (columns sample_table) /\
    In ("Event End Date", ends) (columns sample_table) /\
    Forall2 (fun ir c =>
               exists s t, assoc "Start Date" (snd ir) = Some s /\
                           sample_parse (midnight (noon (fst ir))) s = Ret t /\
                           c = CDate (year t) (month t) (day t))
            (combine (seq 0 (List.length records)) records) dates /\
    Forall2 (fun ir c =>
               exists s t, assoc "Start Time" (snd ir) = Some s /\
                           sample_parse (midnight (noon (fst ir))) s = Ret t /\
                           c = CStr (strftime_time t))
            (combine (seq (List.length records) (List.length records)) records) times /\
    Forall2 (fun ir c =>
               exists s t, assoc "Start Date" (snd ir) = Some s /\
                           sample_parse (midnight (noon (fst ir))) s = Ret t /\
                           c = CDate (year t) (month t) (day t))
            (combine (seq (2 * List.length records) (List.length records)) records) ends.
Proof.
  split; [reflexivity|].
  exact (main_time_columns sample_site sample_parse noon sample_table eq_refl).
Defined.

Lemma main_rows_witness :
  main sample_site sample_parse noon = Ret sample_table /\
  exists events records,
    make_request_content sample_site CALENDAR_BASE_URL = Ret events /\
    crawl sample_site events = Ret records /\
    nrows sample_table = List.length records /\
    (1 <= nrows sample_table <= List.length (detail_links events))%nat.
Proof.
  split; [reflexivity|].
  exact (main_rows sample_site sample_parse noon sample_table eq_refl).
Defined.

Lemma main_carries_fields_witness :
  main sample_site sample_parse noon = Ret sample_table /\
  exists events records,
    make_request_content sample_site CALENDAR_BASE_URL = Ret events /\
    crawl sample_site events = Ret records /\
    ((exists r, In r records /\ assoc "Description" r <> None) ->
     In (final_label "Description", map (cell_of "Description") records)
        (columns sample_table)).
Proof.
  split; [reflexivity|].
  exact (main_carries_fields sample_site sample_parse noon sample_table "Description"
           eq_refl eq_refl).
Defined.

Lemma main_labels_witness :
  main sample_site sample_parse noon = Ret sample_table /\
  Forall (fun k => has_label k sample_table = true) output_labels /\
  Forall (fun k => has_label k sample_table = false) raw_labels.
Proof.
  split; [reflexivity|].
  exact (main_labels sample_site sample_parse noon sample_table eq_refl).
Defined.

End PatcTableFacts.
